(* ===== verification/_CoqProject ===== *)
-Q . S2P
Prelude.v
JsDate.v
DateKey.v
Store.v
Schema.v
Client.v
Sync.v
Report.v
Grid.v
Interleave.v
Session.v
ServiceWorker.v
Render.v
Upload.v
Delivery.v
Bus.v
ReportModal.v
UserAdmin.v
Startup.v
