(* ===== verification/Prelude.v ===== *)
(** * Verification of the cuadrante shared calendar (CuadranteCSS_02)

    The program is a shared on-call calendar.  [src/server.js] is an
    Express + Mongoose + Socket.IO server with three collections (users,
    calendar entries keyed by a [YYYY-MM-DD] [dateKey], change-log records),
    REST routes that read and write them, and a broadcast ([io.emit]) of
    every change.  [src/public/cuadrante.js] is the browser client: after a
    login by identifier it shows a month as a Monday-Friday grid, keeps its
    entries ([monthData]), sends a PUT of the whole day record when a cell
    loses focus or an image is added or removed, applies the broadcasts of
    the displayed month to its local copy, and renders the change report
    of a month.  [src/public/service-worker.js] caches the application's
    files at installation and answers the page's requests cache-first.

    ** Files (in dependency order)

    - [Prelude] (this file): the state/exception monad [SE] in which every
      handler is written ([se_bind], [se_catch]: a [try]/[catch] whose
      writes before the throw persist), its notations in [cuad_scope], the
      invariant combinator [se_preserves], the hint databases [cuad] and
      [cuad_rw], the tactics [preserve], [zlia] (floor division by
      constants for [lia]), [zbool], [case_test] and [by_compute], and list
      lemmas.
    - [JsDate]: the ECMAScript date algorithms the code calls, on [Z]
      milliseconds ([MakeDay], [civil_of_day], [WeekDay], [LocalTime] with
      the local time zone a fixed offset [tz] in minutes east of UTC,
      [new_Date_local] for [new Date(y, m, d)] and the local getters).
    - [DateKey]: [Number.toString], [padStart], the client key
      [client_dateKey] (cuadrante.js 229), the server's month range
      [startKey]/[endKey]/[in_month_range] (server.js 161-171) and
      date-only parsing [parse_date_only] ([new Date(dateKey)]).
    - [Store]: the server.  [Server] holds the users, the entries as a
      [gmap string Entry] under their [dateKey] (the unique index), the
      change log, the next ObjectId and the outbox of broadcast events.
      Each route is one definition of the monad ([post_calendar],
      [put_calendar], [delete_calendar], [get_month], [get_entry], [login],
      [post_user], [delete_user], [get_logs], [upload],
      [createDefaultAdmin]) built from the Mongoose calls it makes
      ([find_entry], [find_one_and_update], [entry_create],
      [find_one_and_delete], [log_save], [emit]); [handle] is the route
      table and [run] a sequence of requests, each run to its answer.
    - [Schema]: the validators of [userSchema] and [changeLogSchema] and
      the snapshots each route logs, as the typing [schema_ok] of the
      stored users and records.
    - [Client]: the record [Client] of cuadrante.js's module-scope state;
      each listener returns the new state and the requests it sends
      ([on_entryUpdated], [on_entryDeleted], [on_userAdded],
      [on_userDeleted], [on_loaded] of [loadData], [on_blur],
      [on_image_uploaded], [on_delete_image], [on_month_change],
      [on_add_user]), and [String.prototype.trim] on the UTF-8 bytes of
      the text ([trim], with JavaScript's white space above code 128).
    - [Sync]: client and server together.  [view_ok s c] says the client's
      [monthData] is the store restricted to the keys its listeners count
      as the displayed month; events are delivered in emission order.
    - [Report]: [showReport] over the parsed JSON of the log records: the
      per-action text, the field diff with [!==], the [catch] that replaces
      the report by an error message.
    - [Grid]: the rows of [renderCalendar] as lists of cells, its [while]
      loop as [grid_loop] with fuel, and the direct definition
      [expected_grid] of the Monday-aligned weeks it should build.
    - [Interleave]: the entry routes cut at their [await]s as programs
      [Prog] of store calls; Node's event loop as a pool of programs run
      under a schedule ([exec]) or resumed in any order ([pool_step]).
      The code between two awaits ([io.emit] after [log.save()], the
      answer) runs in the step that resumes the handler.
    - [Session]: [handleLogin], [mainAppInit] in its two halves around
      [await loadUsers()], [applyPermissions], the year selector and
      [renderUserList], over [Client] with the page's visible state; the
      login exchange composes the page with [Store.handle].
    - [ServiceWorker]: the Cache Storage (ordered caches, all-or-nothing
      [addAll], [GET]-only [match]) and the network as a function of the
      request; [on_install] and [on_fetch] are the two listeners.
    - [Render]: what [renderCalendar] puts in each cell (cuadrante.js
      189-301): the title, the header, and per day its [data-date], the
      [today] class, the three [createContentDiv]s, the editor line and
      the images, drawn from [monthData] over the rows of [Grid].
    - [Upload]: the [Subir Imagen] button and the file input's [change]
      listener (cuadrante.js 285-293, 443-474) composed with the upload
      route and the PUT it sends.
    - [Delivery]: broadcasts lost while a client is disconnected (any
      list of the emitted events reaches it) and the reconnection
      [reconnect]: the [connect] listener, then the answers to the
      requests it sends, applied by the page ([page_answer]); the listener
      sends none (cuadrante.js 501-533).
    - [Bus]: several pages around one server, each with its socket's
      status ([io.on('connection')], server.js 277-286); a request's
      broadcasts reach every connected page's listeners.
    - [ReportModal]: the report button (cuadrante.js 398-405) composed with
      [GET /api/logs] and [showReport].
    - [UserAdmin]: the add-user form and the delete buttons with [addUser]
      / [deleteUser] (cuadrante.js 100-124, 407-420): the request, the
      alert of a non-ok answer and the broadcast back to the page.
    - [Startup]: [mongoose.connect(...).then(createDefaultAdmin)] beside
      [server.listen] (server.js 41-65): the [.then] callback with
      [createDefaultAdmin] cut at its two awaits as one more program of
      the [Interleave] pool.

    ** Theorems (claim ids C1-C37)

    - Server routes, every branch: PUT (C1), PUT without editor (C30),
      DELETE of a present entry (C7); not claims: DELETE of an absent one
      and every route keeping keys and user names unique.
    - Invariants by induction on request sequences: the change log replays
      to the stored entries with one record per acknowledged write (C2,
      C3), the stored documents conform to their schemas (C21, type).
    - Concurrency: every interleaving of the handlers at their awaits
      keeps the invariants (C19); two PUTs of one key interleaved between
      findOne and findOneAndUpdate break the change log (C10).  Lemmas of
      the model, not claims: a handler cut at its awaits and run alone is
      the route of [Store] ([run_seq_refines], [serial_schedule_equiv]),
      and no handler waits on more than three store calls, so every
      interleaving terminates ([interleavings_terminate],
      [round_robin_answers]).
    - Startup: a user named Gustavo created between the two awaits of
      [createDefaultAdmin] leaves no admin (C13); on an empty database it
      creates the admin, who can then log in (C34).  Not claims: it keeps
      the invariants beside any requests ([boot_wf]) and refines the
      atomic [createDefaultAdmin] ([admin_prog_refines]).
    - Synchronisation: any number of connected pages keep their month
      views in sync through any sequence of requests (C4, from the
      one-page step [sync_step]), a page's user list too (C23), and
      loading a month establishes the view east of UTC (C8); a lost
      broadcast leaves the view stale through the reconnection exchange
      (C11) until an event of the month reloads it (C12); west of UTC the
      first day belongs to the previous month (C6) and a deleted entry
      stays (C25); edits of different fields lose one (C24), two edits of
      an empty day erase the first (C31), out-of-order answers show the
      wrong month (C26).
    - Page actions end to end: every drawn day cell shows the stored entry
      (C14); an upload ends with the URL in the entry, in the session and
      in the store (C15); adding a user reaches the store and the page's
      list (C16) or, refused by the server, answers 400, alerts 'No se
      pudo crear el usuario.' and changes nothing (C17, error); deleting a
      user from the list reaches both (C35); the report button lists the
      month's records newest first (C18).
    - Report: the first edit of an empty day breaks every later report
      (C5, C27); the report query drops the month's last day (C32).
    - Grid: the loop builds [expected_grid] for months starting on a
      weekday (C9, equivalence); a Sunday start gives an eleven-cell row
      (C36); not a claim: a Saturday start gives a row of blanks
      ([grid_saturday_start]).
    - Login: end to end for a stored user (C22); an unknown or empty
      identifier is refused with its message (C37, error).
    - Service worker: after a successful install every fetch sequence is
      answered cache-first (C20, refinement); a failed install changes no
      answer (C28); the root URL is never served offline (C29).
    - Keys: parsing a client key gives back its day (C33, round trip).
    - Not claims but proved: the year options stop at 2030
      ([years_from_range]), the user list has a delete button for every
      other user ([delete_buttons_others]), an empty name or identifier
      alerts without a request ([add_user_exchange_empty]), the diff of an
      update ([describe_update]), the report query sorted and complete
      ([logs_query_spec]), API requests always reaching the network
      ([api_requests_reach_network]), the edits sending only well-formed
      PUTs ([edits_well_behaved]), and the duplicate and fresh POST,
      idempotent PUT, the month query and grid-fuel lemmas of their files.

    ** Bounds and choices

    Years are 1000-9999: the keys compare as strings exactly when the year
    has four digits, which the client's year selector (current year to
    2030) guarantees.  [tz] is a fixed offset in (-1440, 1440) minutes;
    east ([0 <= tz]) and west ([tz < 0]) are separate theorems because the
    code behaves differently.  [ndigits] recurses with fuel [log2 n + 1],
    at least the number of decimal digits of [n] ([ndigits_spec]).  The
    grid loop runs with fuel [daysInMonth], one iteration per day, and any
    larger fuel gives the same rows ([grid_loop_fuel]).  No handler waits on
    more than three store calls ([prog_of_within]), which bounds every
    interleaving and makes three round-robin passes enough.  A background
    task of the pool ([admin_prog]) answers nobody: its final [Done]
    carries status 0 and the line it prints.

    ** Not modelled

    DOM nodes and text formatting ([innerHTML], [toLocaleString]) beyond
    what a cell shows, the alert's dialog itself (its text is modelled),
    the DOM lookups of cuadrante.js's first lines, Express middleware (CORS, JSON parsing, static files) and
    dotenv, database failures (the 500 branches, and requests made while
    the connection is down, which Mongoose buffers), the bytes multer
    writes to disk, the service worker's registration (in index.html, not
    under src/) and its activation by the browser, and the reordering of
    Socket.IO deliveries, which one connection does not do.  The time zone
    is a fixed offset: daylight-saving changes would need the zone
    database, which the program does not carry (it relies on the
    browser's), so the JavaScript Date runtime stays partly modelled. *)

From stdpp Require Import base gmap strings list.
From Stdlib Require Import ZArith Lia.

Declare Scope cuad_scope.
Delimit Scope cuad_scope with cuad.

Create HintDb cuad discriminated.
Create Rewrite HintDb cuad_rw.

(** ** A state monad with exceptions

    The Express handlers of [src/server.js] are [async] functions whose
    [await]ed calls either return a value or throw; a [try]/[catch] turns the
    exception into an HTTP status.  Writes done before the throw stay in the
    database (there is no transaction).  [SE S E A] is that shape: a handler
    reads and writes a state [S] and may stop with an exception [E]; the
    state reached at the throw is kept. *)

Inductive outcome (E A : Type) : Type :=
  | Ok (a : A)
  | Throw (e : E).
Arguments Ok {E A} a.
Arguments Throw {E A} e.

Definition SE (S E A : Type) : Type := S -> outcome E A * S.

Section Monad.
Context {S E : Type}.

Definition se_ret {A} (a : A) : SE S E A := fun s => (Ok a, s).

Definition se_bind {A B} (m : SE S E A) (k : A -> SE S E B) : SE S E B :=
  fun s => match m s with
           | (Ok a, s') => k a s'
           | (Throw e, s') => (Throw e, s')
           end.

Definition se_throw {A} (e : E) : SE S E A := fun s => (Throw e, s).

Definition se_get : SE S E S := fun s => (Ok s, s).

Definition se_put (s : S) : SE S E unit := fun _ => (Ok tt, s).

Definition se_modify (f : S -> S) : SE S E unit := fun s => (Ok tt, f s).

(** [try { m } catch (err) { h(err) }]: the handler runs in the state that
    [m] reached when it threw. *)
Definition se_catch {A} (m : SE S E A) (h : E -> SE S E A) : SE S E A :=
  fun s => match m s with
           | (Ok a, s') => (Ok a, s')
           | (Throw e, s') => h e s'
           end.

Lemma se_bind_ret_l {A B} (a : A) (k : A -> SE S E B) s :
  se_bind (se_ret a) k s = k a s.
Proof. reflexivity. Qed.

Lemma se_bind_assoc {A B C} (m : SE S E A) (k : A -> SE S E B)
      (k' : B -> SE S E C) s :
  se_bind (se_bind m k) k' s = se_bind m (fun a => se_bind (k a) k') s.
Proof. unfold se_bind. destruct (m s) as [[a|e] s']; reflexivity. Qed.

Lemma se_bind_ok {A B} (m : SE S E A) (k : A -> SE S E B) s a s' :
  m s = (Ok a, s') -> se_bind m k s = k a s'.
Proof. unfold se_bind. intros ->. reflexivity. Qed.

Lemma se_bind_throw {A B} (m : SE S E A) (k : A -> SE S E B) s e s' :
  m s = (Throw e, s') -> se_bind m k s = (Throw e, s').
Proof. unfold se_bind. intros ->. reflexivity. Qed.
(** A property of the state that a computation keeps, whatever it
    returns or throws. *)
Definition se_preserves {A} (P : S -> Prop) (m : SE S E A) : Prop :=
  forall s, P s -> P (snd (m s)).

Lemma se_ret_preserves {A} P (a : A) : se_preserves P (se_ret a).
Proof. intros s Hs. exact Hs. Qed.

Lemma se_throw_preserves {A} P (e : E) : se_preserves P (@se_throw A e).
Proof. intros s Hs. exact Hs. Qed.

Lemma se_modify_preserves P (f : S -> S) :
  (forall s, P s -> P (f s)) -> se_preserves P (se_modify f).
Proof. intros Hf s Hs. exact (Hf s Hs). Qed.

Lemma se_bind_preserves {A B} P (m : SE S E A) (k : A -> SE S E B) :
  se_preserves P m -> (forall a, se_preserves P (k a)) -> se_preserves P (se_bind m k).
Proof.
  intros Hm Hk s Hs. unfold se_bind. specialize (Hm s Hs).
  destruct (m s) as [[a|e] s']; simpl in *; [apply Hk|]; exact Hm.
Qed.

Lemma se_catch_preserves {A} P (m : SE S E A) (h : E -> SE S E A) :
  se_preserves P m -> (forall e, se_preserves P (h e)) -> se_preserves P (se_catch m h).
Proof.
  intros Hm Hh s Hs. unfold se_catch. specialize (Hm s Hs).
  destruct (m s) as [[a|e] s']; simpl in *; [exact Hm|]. by apply Hh.
Qed.
End Monad.

#[export] Hint Resolve se_ret_preserves se_throw_preserves se_bind_preserves
  se_catch_preserves : cuad.

(** Split a preservation goal along the structure of the computation. *)
Ltac preserve :=
  repeat match goal with
  | |- se_preserves _ (se_bind _ _) => apply se_bind_preserves; [|intros ?]
  | |- se_preserves _ (se_catch _ _) => apply se_catch_preserves; [|intros ?]
  | |- se_preserves _ (se_ret _) => apply se_ret_preserves
  | |- se_preserves _ (se_throw _) => apply se_throw_preserves
  | |- se_preserves _ (match ?x with _ => _ end) => destruct x
  end.

Notation "x <- m ;; k" := (se_bind m (fun x => k))
  (at level 63, m at next level, right associativity) : cuad_scope.
Notation "m ;;; k" := (se_bind m (fun _ => k))
  (at level 63, right associativity) : cuad_scope.

(** ** Automation shared by the components *)


(** Replace every [a / c] and [a mod c] by a fresh quotient and remainder
    with the defining equation and bounds, so that [lia] can reason about
    calendar arithmetic whose divisions are by constants. *)
Ltac zdiv_one a c :=
  let Hd := fresh "Hdiv" in
  let Hb := fresh "Hmod" in
  pose proof (Z.div_mod a c ltac:(lia)) as Hd;
  pose proof (Z.mod_pos_bound a c ltac:(lia)) as Hb;
  let q := fresh "q" in
  let r := fresh "r" in
  set (q := Z.div a c) in *; set (r := Z.modulo a c) in *;
  clearbody q r.

Ltac zdiv_elim :=
  repeat match goal with
  | |- context [Z.div ?a ?c] => zdiv_one a c
  | H : context [Z.div ?a ?c] |- _ => zdiv_one a c
  | |- context [Z.modulo ?a ?c] => zdiv_one a c
  | H : context [Z.modulo ?a ?c] |- _ => zdiv_one a c
  end.

Ltac zlia := zdiv_elim; lia.

(** Evaluate the integer tests of a goal whose truth [lia] decides. *)
Ltac zbool :=
  repeat match goal with
  | |- context [Z.eqb ?a ?b] =>
      first [rewrite (proj2 (Z.eqb_eq a b)) by lia | rewrite (proj2 (Z.eqb_neq a b)) by lia]
  | |- context [Z.leb ?a ?b] =>
      first [rewrite (proj2 (Z.leb_le a b)) by lia | rewrite (proj2 (Z.leb_gt a b)) by lia]
  | |- context [Nat.eqb ?a ?b] =>
      first [rewrite (proj2 (Nat.eqb_eq a b)) by lia | rewrite (proj2 (Nat.eqb_neq a b)) by lia]
  end.

(** Case on the boolean tests of the code, keeping the proposition each
    branch learns. *)
Ltac case_test :=
  match goal with
  | |- context [Z.eqb ?a ?b] => destruct (Z.eqb_spec a b)
  | |- context [Z.leb ?a ?b] => destruct (Z.leb_spec a b)
  | |- context [Z.ltb ?a ?b] => destruct (Z.ltb_spec a b)
  | |- context [String.eqb ?a ?b] => destruct (String.eqb_spec a b)
  | |- context [Nat.eqb ?a ?b] => destruct (Nat.eqb_spec a b)
  | |- context [Nat.leb ?a ?b] => destruct (Nat.leb_spec a b)
  | |- context [Nat.ltb ?a ?b] => destruct (Nat.ltb_spec a b)
  end.

(** Discharge the hypotheses of a theorem at a concrete input by
    evaluation. *)
Ltac by_compute :=
  repeat split;
  first [ lia | reflexivity | discriminate
        | (vm_compute; first [reflexivity | discriminate | lia | (split; discriminate) | done]) ].

Ltac inv_clear H := inversion H; subst; clear H.

(** ** Generic lemmas on lists and options *)

Lemma filter_app_list {A} (p : A -> bool) (l1 l2 : list A) :
  List.filter p (l1 ++ l2) = List.filter p l1 ++ List.filter p l2.
Proof. induction l1 as [|x l1 IH]; simpl; [done|]. destruct (p x); simpl; congruence. Qed.

Lemma filter_all_false {A} (p : A -> bool) (l : list A) :
  (forall x, In x l -> p x = false) -> List.filter p l = [].
Proof.
  induction l as [|x l IH]; intros H; simpl; [done|].
  rewrite H by (left; done). apply IH. intros y Hy. apply H. by right.
Qed.

Lemma NoDup_map_filter {A B} (f : A -> B) (p : A -> bool) (l : list A) :
  NoDup (map f l) -> NoDup (map f (List.filter p l)).
Proof.
  induction l as [|x l IH]; simpl; [done|]. intros Hnd. apply NoDup_cons in Hnd as [Hx Hl].
  destruct (p x); simpl; [|by apply IH]. apply NoDup_cons. split; [|by apply IH].
  intros Hin. apply Hx. apply list_elem_of_fmap in Hin as (y & -> & Hy).
  apply list_elem_of_fmap. exists y. split; [done|].
  apply list_elem_of_In in Hy. apply List.filter_In in Hy as [Hy _]. by apply list_elem_of_In.
Qed.

(** Appending an element whose key no element of the list has keeps the
    keys distinct: the check [existsb] of a unique index. *)
Lemma NoDup_map_snoc_existsb {A} (f : A -> string) (l : list A) (u : A) :
  NoDup (map f l) -> List.existsb (fun v => String.eqb (f v) (f u)) l = false ->
  NoDup (map f (l ++ [u])).
Proof.
  intros Hnd Hex. rewrite map_app. apply NoDup_app. split; [done|]. split; [|apply NoDup_singleton].
  intros x Hx Hx'. apply list_elem_of_singleton in Hx'. subst x.
  apply list_elem_of_fmap in Hx as (v & Hv & Hin).
  assert (List.existsb (fun v => String.eqb (f v) (f u)) l = true) as Ht.
  { apply List.existsb_exists. exists v. split; [by apply list_elem_of_In|].
    apply String.eqb_eq. done. }
  congruence.
Qed.

Lemma elem_of_rev {A} (x : A) (l : list A) : x ∈ rev l <-> x ∈ l.
Proof. rewrite !list_elem_of_In. symmetry. apply in_rev. Qed.

Lemma elem_of_filter_list {A} (p : A -> bool) (x : A) (l : list A) :
  x ∈ List.filter p l <-> x ∈ l /\ p x = true.
Proof. rewrite !list_elem_of_In. apply List.filter_In. Qed.

#[export] Hint Rewrite @filter_app_list : cuad_rw.
