(* ===== verification/JsDate.v ===== *)
(** * JavaScript [Date] arithmetic

    The program computes with dates in four places: [server.js] bounds a
    month with [new Date(year, month - 1, 1)] and [new Date(year, month, 0)]
    (routes [/api/calendar/:year/:month] and [/api/logs/:year/:month]);
    [cuadrante.js] lays out the grid with [new Date(year, month, d).getDay()]
    and [new Date(year, month + 1, 0).getDate()], and decides whether a
    broadcast entry belongs to the shown month with
    [new Date(dateKey).getFullYear()] and [.getMonth()].

    This file models the date arithmetic of the language those calls rely on,
    after the ECMAScript definitions (ECMA-262, "Date Objects"): a time value
    is an integer number of milliseconds since 1970-01-01T00:00Z; [Day],
    [DayFromYear], [YearFromTime], [MonthFromTime], [DateFromTime], [WeekDay],
    [MakeDay], [MakeDate], [LocalTime] and [UTC] are the functions of the
    standard.  Local time differs from UTC by a fixed offset [tz], in minutes
    east of UTC (the opposite sign of [getTimezoneOffset()]); daylight saving
    time and the +-8.64e15 ms range limit are not modelled. *)

From stdpp Require Import base list.
From Stdlib Require Import ZArith Lia.
From S2P Require Import Prelude.

Module JsDate.
Local Open Scope Z_scope.

Definition msPerDay : Z := 86400000.
Definition msPerMinute : Z := 60000.

Definition Day (t : Z) : Z := t / msPerDay.

Definition is_leap (y : Z) : bool :=
  (y mod 4 =? 0) && (negb (y mod 100 =? 0) || (y mod 400 =? 0)).

Definition DaysInYear (y : Z) : Z := if is_leap y then 366 else 365.

Definition DayFromYear (y : Z) : Z :=
  365 * (y - 1970) + (y - 1969) / 4 - (y - 1901) / 100 + (y - 1601) / 400.

(** [YearFromTime] is, by the standard, the largest [y] with
    [DayFromYear y <= Day t].  It is computed here from the estimate
    [1970 + 400 * d / 146097] (146097 days are 400 Gregorian years),
    corrected by one year either way; [YearFromDay_spec] proves it is that
    largest [y]. *)
Definition YearFromDay (d : Z) : Z :=
  let e := 1970 + (400 * d) / 146097 in
  if DayFromYear (e + 1) <=? d then e + 1
  else if d <? DayFromYear e then e - 1
  else e.

(** Days of the year before month [m] (0 = January, 12 = end of year). *)
Definition cum_days : list Z :=
  [0; 31; 59; 90; 120; 151; 181; 212; 243; 273; 304; 334; 365].

Definition month_start (leap : bool) (m : Z) : Z :=
  nth (Z.to_nat m) cum_days 0 + (if leap && (2 <=? m) then 1 else 0).

(** [MonthFromTime]: the month whose range of days of the year holds
    [doy]. *)
Definition MonthFromDayInYear (leap : bool) (doy : Z) : Z :=
  if doy <? month_start leap 1 then 0
  else if doy <? month_start leap 2 then 1
  else if doy <? month_start leap 3 then 2
  else if doy <? month_start leap 4 then 3
  else if doy <? month_start leap 5 then 4
  else if doy <? month_start leap 6 then 5
  else if doy <? month_start leap 7 then 6
  else if doy <? month_start leap 8 then 7
  else if doy <? month_start leap 9 then 8
  else if doy <? month_start leap 10 then 9
  else if doy <? month_start leap 11 then 10
  else 11.

Definition days_in_month (y m : Z) : Z :=
  month_start (is_leap y) (m + 1) - month_start (is_leap y) m.

(** [MakeDay(year, month, date)]: months out of [0..11] carry into the
    year, and [date] is added to the first day of the month, so
    [MakeDay y m 0] is the last day of the month before [m]. *)
Definition MakeDay (year month date : Z) : Z :=
  let ym := year + month / 12 in
  let mn := month mod 12 in
  DayFromYear ym + month_start (is_leap ym) mn + date - 1.

Definition MakeDate (day time : Z) : Z := day * msPerDay + time.

(** A calendar date as the getters return it: [c_month] is 0-based like
    [getMonth()], [c_date] 1-based like [getDate()]. *)
Record civil := mk_civil { c_year : Z; c_month : Z; c_date : Z }.

Definition civil_of_day (d : Z) : civil :=
  let y := YearFromDay d in
  let leap := is_leap y in
  let doy := d - DayFromYear y in
  let m := MonthFromDayInYear leap doy in
  mk_civil y m (doy - month_start leap m + 1).

(** [WeekDay]: 0 is Sunday; day 0 (1970-01-01) was a Thursday. *)
Definition WeekDay (d : Z) : Z := (d + 4) mod 7.

Definition LocalTime (tz t : Z) : Z := t + tz * msPerMinute.
Definition UTC (tz t : Z) : Z := t - tz * msPerMinute.

(** [new Date(y, m, d)]: local midnight of the day [MakeDay y m d]. *)
Definition new_Date_local (tz y m d : Z) : Z := UTC tz (MakeDate (MakeDay y m d) 0).

Definition local_civil (tz t : Z) : civil := civil_of_day (Day (LocalTime tz t)).
Definition getFullYear (tz t : Z) : Z := c_year (local_civil tz t).
Definition getMonth (tz t : Z) : Z := c_month (local_civil tz t).
Definition getDate (tz t : Z) : Z := c_date (local_civil tz t).
Definition getDay (tz t : Z) : Z := WeekDay (Day (LocalTime tz t)).

(** ** Lemmas of the calendar arithmetic *)

Lemma DaysInYear_bounds y : 365 <= DaysInYear y <= 366.
Proof. unfold DaysInYear. destruct (is_leap y); lia. Qed.

Lemma DayFromYear_succ y : DayFromYear (y + 1) = DayFromYear y + DaysInYear y.
Proof.
  unfold DayFromYear, DaysInYear, is_leap.
  repeat case_test; simpl; zlia.
Qed.

Lemma DayFromYear_lt y1 y2 : y1 < y2 -> DayFromYear y1 < DayFromYear y2.
Proof. unfold DayFromYear. intros. zlia. Qed.

Lemma YearFromDay_estimate y d :
  DayFromYear y <= d < DayFromYear y + 366 ->
  y - 1 <= 1970 + (400 * d) / 146097 <= y + 1.
Proof. unfold DayFromYear. intros. zlia. Qed.

Lemma YearFromDay_spec y d :
  DayFromYear y <= d < DayFromYear (y + 1) -> YearFromDay d = y.
Proof.
  intros Hd. pose proof (DayFromYear_succ y) as Hs.
  pose proof (DaysInYear_bounds y).
  pose proof (YearFromDay_estimate y d ltac:(lia)) as He.
  unfold YearFromDay. set (e := 1970 + 400 * d / 146097) in *.
  assert (e = y - 1 \/ e = y \/ e = y + 1) as [-> | [-> | ->]] by lia.
  - replace (y - 1 + 1) with y by lia.
    destruct (Z.leb_spec (DayFromYear y) d); lia.
  - destruct (Z.leb_spec (DayFromYear (y + 1)) d); [lia|].
    destruct (Z.ltb_spec d (DayFromYear y)); lia.
  - pose proof (DayFromYear_lt (y + 1) (y + 1 + 1) ltac:(lia)).
    destruct (Z.leb_spec (DayFromYear (y + 1 + 1)) d); [lia|].
    destruct (Z.ltb_spec d (DayFromYear (y + 1))); lia.
Qed.

(** The twelve months, one case each: the table facts below are proved by
    evaluation in every case. *)
Lemma month_cases (m : Z) :
  0 <= m <= 11 ->
  m = 0 \/ m = 1 \/ m = 2 \/ m = 3 \/ m = 4 \/ m = 5 \/
  m = 6 \/ m = 7 \/ m = 8 \/ m = 9 \/ m = 10 \/ m = 11.
Proof. lia. Qed.

Ltac by_month m :=
  let H := fresh in
  match goal with Hm : 0 <= m <= 11 |- _ =>
    destruct (month_cases m Hm) as [H|[H|[H|[H|[H|[H|[H|[H|[H|[H|[H|H]]]]]]]]]]];
    subst m
  end.

Lemma days_in_month_bounds y m :
  0 <= m <= 11 -> 28 <= days_in_month y m <= 31.
Proof.
  intros Hm. unfold days_in_month.
  by_month m; destruct (is_leap y); vm_compute; split; discriminate.
Qed.

Lemma month_start_last leap : month_start leap 12 = if leap then 366 else 365.
Proof. by destruct leap. Qed.

Lemma MonthFromDayInYear_spec leap m k :
  0 <= m <= 11 ->
  0 <= k < month_start leap (m + 1) - month_start leap m ->
  MonthFromDayInYear leap (month_start leap m + k) = m.
Proof.
  intros Hm Hk. unfold MonthFromDayInYear.
  by_month m; destruct leap; unfold month_start in *; simpl in *;
    repeat case_test; lia.
Qed.

Lemma DayFromYear_month_start y m :
  0 <= m <= 12 ->
  0 <= month_start (is_leap y) m <= DaysInYear y.
Proof.
  intros Hm. unfold DaysInYear.
  assert (m = 12 \/ 0 <= m <= 11) as [-> | Hm'] by lia.
  - rewrite month_start_last. destruct (is_leap y); lia.
  - by_month m; destruct (is_leap y); vm_compute; split; discriminate.
Qed.

Lemma month_start_mono leap m :
  0 <= m <= 11 -> month_start leap m < month_start leap (m + 1).
Proof. intros Hm. by_month m; destruct leap; vm_compute; reflexivity. Qed.

(** Day number of a valid date, then back: [MakeDay] and the getters are
    inverse on valid dates. *)
Lemma civil_of_MakeDay y m d :
  0 <= m <= 11 -> 1 <= d <= days_in_month y m ->
  civil_of_day (MakeDay y m d) = mk_civil y m d.
Proof.
  intros Hm Hd. unfold MakeDay.
  rewrite (Z.div_small m 12), (Z.mod_small m 12) by lia. rewrite Z.add_0_r.
  unfold days_in_month in Hd.
  pose proof (DayFromYear_month_start y (m + 1) ltac:(lia)).
  pose proof (month_start_mono (is_leap y) m Hm).
  pose proof (DayFromYear_month_start y m ltac:(lia)).
  pose proof (DayFromYear_succ y).
  unfold civil_of_day.
  rewrite (YearFromDay_spec y) by lia.
  replace (DayFromYear y + month_start (is_leap y) m + d - 1 - DayFromYear y)
    with (month_start (is_leap y) m + (d - 1)) by lia.
  rewrite MonthFromDayInYear_spec by lia.
  f_equal. lia.
Qed.

(** [MakeDay y (m + 1) 0] is the last day of month [m], also in December
    (month 12 carries into January of the next year). *)
Lemma MakeDay_day_zero y m :
  0 <= m <= 11 -> MakeDay y (m + 1) 0 = MakeDay y m (days_in_month y m).
Proof.
  intros Hm. unfold MakeDay, days_in_month.
  rewrite (Z.div_small m 12), (Z.mod_small m 12) by lia. rewrite !Z.add_0_r.
  assert (m = 11 \/ 0 <= m < 11) as [-> | Hm'] by lia.
  - replace ((11 + 1) / 12) with 1 by reflexivity.
    replace ((11 + 1) mod 12) with 0 by reflexivity.
    rewrite DayFromYear_succ. unfold DaysInYear, month_start.
    destruct (is_leap y), (is_leap (y + 1)); simpl; lia.
  - rewrite (Z.div_small (m + 1) 12), (Z.mod_small (m + 1) 12) by lia.
    rewrite Z.add_0_r. lia.
Qed.

Lemma new_Date_day_zero tz y m :
  0 <= m <= 11 -> new_Date_local tz y (m + 1) 0 = new_Date_local tz y m (days_in_month y m).
Proof. intros Hm. unfold new_Date_local. by rewrite MakeDay_day_zero. Qed.

Lemma Day_LocalTime_UTC tz D :
  Day (LocalTime tz (UTC tz (MakeDate D 0))) = D.
Proof.
  unfold Day, LocalTime, UTC, MakeDate.
  replace (D * msPerDay + 0 - tz * msPerMinute + tz * msPerMinute) with (D * msPerDay) by lia.
  apply Z.div_mul. discriminate.
Qed.

Lemma local_civil_new_Date tz y m d :
  0 <= m <= 11 -> 1 <= d <= days_in_month y m ->
  local_civil tz (new_Date_local tz y m d) = mk_civil y m d.
Proof.
  intros. unfold local_civil, new_Date_local.
  rewrite Day_LocalTime_UTC. by apply civil_of_MakeDay.
Qed.

End JsDate.
