(* ===== verification/DateKey.v ===== *)
(** * Date keys: the ["YYYY-MM-DD"] strings that identify a day

    Every calendar entry is stored under a date key.  The client builds it in
    [renderCalendar] ([cuadrante.js], line 229) with
    [`${year}-${String(month + 1).padStart(2, '0')}-${String(day).padStart(2, '0')}`];
    the server bounds a month by the two keys [startKey] and [endKey]
    ([server.js], lines 162-171) and asks MongoDB for the keys between them
    in the byte-wise string order; the client turns a key back into a date
    with [new Date(dateKey)].  This file models [String(n)] on integers,
    [padStart], the key builders, the month range of the server and the
    ISO date-only parse of [new Date(string)], and proves that the string
    range selects exactly the days of the month and that parsing a key gives
    back its date. *)

From stdpp Require Import base strings list.
From Stdlib Require Import ZArith Lia String Ascii.
From S2P Require Import Prelude JsDate.

Module DateKey.
Import JsDate.
Local Open Scope Z_scope.

(** ** [Number.prototype.toString] and [String.prototype.padStart] *)

Definition digit (n : Z) : ascii := ascii_of_N (48 + Z.to_N n).

(** The [w] low decimal digits of [n], most significant first. *)
Fixpoint digits_w (w : nat) (n : Z) : string :=
  match w with
  | O => EmptyString
  | S w' => digits_w w' (n / 10) +:+ String (digit (n mod 10)) EmptyString
  end.

(** Number of decimal digits of [n > 0]; a decimal numeral is never longer
    than the binary one, so [log2 n + 1] steps are enough. *)
Fixpoint ndigits_fuel (fuel : nat) (n : Z) : nat :=
  match fuel with
  | O => 1%nat
  | S f => if n <? 10 then 1%nat else S (ndigits_fuel f (n / 10))
  end.

Definition ndigits (n : Z) : nat := ndigits_fuel (S (Z.to_nat (Z.log2 n))) n.

(** [String(n)] for an integer [n]. *)
Definition js_string_of_int (n : Z) : string :=
  if n <? 0 then String "-" (digits_w (ndigits (- n)) (- n))
  else digits_w (ndigits n) n.

Fixpoint str_repeat (k : nat) (c : ascii) : string :=
  match k with
  | O => EmptyString
  | S k' => String c (str_repeat k' c)
  end.

(** [s.padStart(w, c)] with a one-character filler. *)
Definition padStart (w : nat) (c : ascii) (s : string) : string :=
  str_repeat (w - String.length s) c +:+ s.

(** ** The keys of the program *)

(** [cuadrante.js], line 229: the key of day [day] of month [month]
    (0-based, as [currentMonth]) of [year]. *)
Definition client_dateKey (year month day : Z) : string :=
  js_string_of_int year +:+ "-" +:+
  padStart 2 "0" (js_string_of_int (month + 1)) +:+ "-" +:+
  padStart 2 "0" (js_string_of_int day).

(** [server.js], line 166: the first key of month [month] (1-based, as the
    route parameter). *)
Definition startKey (year month : Z) : string :=
  js_string_of_int year +:+ "-" +:+
  padStart 2 "0" (js_string_of_int month) +:+ "-01".

(** [server.js], lines 163 and 167: the last key, whose day is
    [new Date(year, month, 0).getDate()] in the server's time zone [tz],
    written without padding. *)
Definition endKey (tz year month : Z) : string :=
  let endDate := new_Date_local tz year month 0 in
  js_string_of_int year +:+ "-" +:+
  padStart 2 "0" (js_string_of_int month) +:+ "-" +:+
  js_string_of_int (getDate tz endDate).

(** [server.js], lines 169-171: the filter
    [{ dateKey: { $gte: startKey, $lte: endKey } }], with MongoDB's binary
    string order. *)
Definition in_month_range (tz year month : Z) (k : string) : bool :=
  String.leb (startKey year month) k && String.leb k (endKey tz year month).

(** ** [new Date(dateKey)]

    A string of the ISO date-only form ["YYYY-MM-DD"] is read as midnight
    UTC of that day; a string that is not of that form, or names a day that
    does not exist, gives an invalid date ([None], NaN).  Other forms the
    language accepts (a year alone, a time part, six-digit years) are not
    modelled: every key the program builds has the date-only form. *)

Definition digit_val (c : ascii) : option Z :=
  let n := N_of_ascii c in
  if (48 <=? n)%N && (n <=? 57)%N then Some (Z.of_N n - 48) else None.

Definition parse_date_only (s : string) : option Z :=
  match list_ascii_of_string s with
  | [y1; y2; y3; y4; s1; m1; m2; s2; d1; d2] =>
      match digit_val y1, digit_val y2, digit_val y3, digit_val y4,
            digit_val m1, digit_val m2, digit_val d1, digit_val d2 with
      | Some a1, Some a2, Some a3, Some a4, Some b1, Some b2, Some c1, Some c2 =>
          let y := 1000 * a1 + 100 * a2 + 10 * a3 + a4 in
          let m := 10 * b1 + b2 in
          let d := 10 * c1 + c2 in
          if Ascii.eqb s1 "-" && Ascii.eqb s2 "-" && (1 <=? m) && (m <=? 12)
             && (1 <=? d) && (d <=? days_in_month y (m - 1))
          then Some (MakeDate (MakeDay y (m - 1) d) 0)
          else None
      | _, _, _, _, _, _, _, _ => None
      end
  | _ => None
  end.

(** ** Lemmas on decimal strings *)

Lemma append_cons_str (c : ascii) (s t : string) : String c s +:+ t = String c (s +:+ t).
Proof. reflexivity. Qed.

Lemma append_empty_str (s : string) : EmptyString +:+ s = s.
Proof. reflexivity. Qed.

Lemma append_assoc_str (s1 s2 s3 : string) :
  (s1 +:+ s2) +:+ s3 = s1 +:+ (s2 +:+ s3).
Proof. induction s1 as [|c s1 IH]; [done|]. by rewrite !append_cons_str, IH. Qed.

Lemma append_nil_str (s : string) : s +:+ EmptyString = s.
Proof. induction s as [|c s IH]; [done|]. by rewrite append_cons_str, IH. Qed.

#[export] Hint Rewrite append_cons_str append_empty_str append_assoc_str append_nil_str : cuad_rw.

Lemma N_of_digit n : 0 <= n < 10 -> N_of_ascii (digit n) = (48 + Z.to_N n)%N.
Proof. intros Hn. unfold digit. apply N_ascii_embedding. lia. Qed.

Lemma compare_digit a b :
  0 <= a < 10 -> 0 <= b < 10 -> Ascii.compare (digit a) (digit b) = Z.compare a b.
Proof.
  intros Ha Hb. unfold Ascii.compare. rewrite !N_of_digit by done.
  destruct (Z.compare_spec a b) as [H|H|H].
  - subst. apply N.compare_refl.
  - apply N.compare_lt_iff. lia.
  - apply N.compare_gt_iff. lia.
Qed.

Lemma digit_val_digit n : 0 <= n < 10 -> digit_val (digit n) = Some n.
Proof.
  intros Hn. unfold digit_val. rewrite N_of_digit by done.
  replace ((48 <=? 48 + Z.to_N n)%N && (48 + Z.to_N n <=? 57)%N) with true
    by (symmetry; apply andb_true_iff; split; apply N.leb_le; lia).
  f_equal. lia.
Qed.

(** Comparing two numbers by their decimal digits: the high part first,
    then the last digit. *)
Lemma Z_compare_div10 a b :
  Z.compare a b =
  match Z.compare (a / 10) (b / 10) with
  | Eq => Z.compare (a mod 10) (b mod 10)
  | c => c
  end.
Proof.
  destruct (Z.compare_spec (a / 10) (b / 10)) as [H|H|H].
  - destruct (Z.compare_spec (a mod 10) (b mod 10));
      [apply Z.compare_eq_iff | apply Z.compare_lt_iff | apply Z.compare_gt_iff];
      zlia.
  - apply Z.compare_lt_iff. zlia.
  - apply Z.compare_gt_iff. zlia.
Qed.

Lemma pow10_succ w : 10 ^ Z.of_nat (S w) = 10 * 10 ^ Z.of_nat w.
Proof. rewrite Nat2Z.inj_succ, Z.pow_succ_r by lia. reflexivity. Qed.

Lemma pow10_pos w : 0 < 10 ^ Z.of_nat w.
Proof. apply Z.pow_pos_nonneg; lia. Qed.

(** Fixed-width decimal strings compare as the numbers they write. *)
Lemma compare_digits_w w a b s1 s2 :
  0 <= a < 10 ^ Z.of_nat w -> 0 <= b < 10 ^ Z.of_nat w ->
  String.compare (digits_w w a +:+ s1) (digits_w w b +:+ s2) =
  match Z.compare a b with Eq => String.compare s1 s2 | c => c end.
Proof.
  revert a b s1 s2. induction w as [|w IH]; intros a b s1 s2 Ha Hb.
  - simpl in *. replace a with 0 by lia. replace b with 0 by lia. done.
  - rewrite pow10_succ in Ha, Hb. pose proof (pow10_pos w).
    simpl. rewrite !append_assoc_str, !append_cons_str, !append_empty_str.
    rewrite IH by zlia. rewrite (Z_compare_div10 a b).
    destruct (Z.compare (a / 10) (b / 10)); [|done|done].
    simpl. rewrite compare_digit by zlia.
    by destruct (Z.compare (a mod 10) (b mod 10)).
Qed.

Lemma length_append_str (s t : string) :
  String.length (s +:+ t) = (String.length s + String.length t)%nat.
Proof. induction s as [|c s IH]; [done|]. rewrite append_cons_str. simpl. by rewrite IH. Qed.

Lemma length_digits_w w n : String.length (digits_w w n) = w.
Proof.
  revert n. induction w as [|w IH]; intros n; simpl; [done|].
  rewrite length_append_str, IH. simpl. lia.
Qed.

Lemma ndigits_fuel_spec k f n :
  (k <= f)%nat -> 10 ^ Z.of_nat k <= n < 10 ^ Z.of_nat (S k) ->
  ndigits_fuel f n = S k.
Proof.
  revert f n. induction k as [|k IH]; intros f n Hf Hn.
  - simpl in Hn. destruct f; simpl; [done|]. case_test; [done|lia].
  - destruct f as [|f]; [lia|]. rewrite !pow10_succ in Hn.
    pose proof (pow10_pos k). simpl. case_test; [lia|].
    f_equal. apply IH; [lia|]. rewrite pow10_succ. zlia.
Qed.

Lemma ndigits_spec k n :
  10 ^ Z.of_nat k <= n < 10 ^ Z.of_nat (S k) -> ndigits n = S k.
Proof.
  intros Hn. unfold ndigits. apply ndigits_fuel_spec; [|done].
  pose proof (pow10_pos k).
  assert (2 ^ Z.of_nat k <= n).
  { etrans; [|apply Hn]. apply Z.pow_le_mono_l. lia. }
  assert (Z.of_nat k <= Z.log2 n).
  { rewrite <- (Z.log2_pow2 (Z.of_nat k)) by lia. by apply Z.log2_le_mono. }
  lia.
Qed.

Lemma js_string_of_int_digits k n :
  10 ^ Z.of_nat k <= n < 10 ^ Z.of_nat (S k) ->
  js_string_of_int n = digits_w (S k) n.
Proof.
  intros Hn. pose proof (pow10_pos k). unfold js_string_of_int.
  case_test; [lia|]. by rewrite (ndigits_spec k).
Qed.

(** The four-digit years 1000-9999 are written with four digits, and
    [padStart(2, '0')] writes 1-99 with two. *)
Lemma js_string_year y : 1000 <= y <= 9999 -> js_string_of_int y = digits_w 4 y.
Proof. intros. apply (js_string_of_int_digits 3). simpl. lia. Qed.

Lemma padStart_two n : 1 <= n <= 99 -> padStart 2 "0" (js_string_of_int n) = digits_w 2 n.
Proof.
  intros Hn. assert (n < 10 \/ 10 <= n) as [H|H] by lia.
  - rewrite (js_string_of_int_digits 0) by (simpl; lia).
    unfold padStart. rewrite length_digits_w. simpl.
    rewrite (Z.div_small n 10), (Z.mod_small n 10) by lia. reflexivity.
  - rewrite (js_string_of_int_digits 1) by (simpl; lia).
    unfold padStart. rewrite length_digits_w. reflexivity.
Qed.

(** ** Keys as fixed-width numerals *)

Definition key_of (y m d : Z) : string :=
  digits_w 4 y +:+ String "-" (digits_w 2 m +:+ String "-" (digits_w 2 d)).

Definition triple_compare (y m d y' m' d' : Z) : comparison :=
  match Z.compare y y' with
  | Eq => match Z.compare m m' with Eq => Z.compare d d' | c => c end
  | c => c
  end.

Lemma compare_cons_same (c : ascii) (s t : string) :
  String.compare (String c s) (String c t) = String.compare s t.
Proof. simpl. unfold Ascii.compare. by rewrite N.compare_refl. Qed.

Lemma compare_key_of y m d y' m' d' :
  0 <= y < 10000 -> 0 <= y' < 10000 -> 0 <= m < 100 -> 0 <= m' < 100 ->
  0 <= d < 100 -> 0 <= d' < 100 ->
  String.compare (key_of y m d) (key_of y' m' d') = triple_compare y m d y' m' d'.
Proof.
  intros. unfold key_of, triple_compare.
  rewrite compare_digits_w by (simpl; lia). destruct (Z.compare y y'); [|done|done].
  rewrite compare_cons_same, compare_digits_w by (simpl; lia).
  destruct (Z.compare m m'); [|done|done].
  rewrite compare_cons_same.
  rewrite <- (append_nil_str (digits_w 2 d)), <- (append_nil_str (digits_w 2 d')).
  rewrite compare_digits_w by (simpl; lia). by destruct (Z.compare d d').
Qed.

Lemma client_dateKey_key_of y m d :
  1000 <= y <= 9999 -> 0 <= m <= 11 -> 1 <= d <= 31 ->
  client_dateKey y m d = key_of y (m + 1) d.
Proof.
  intros. unfold client_dateKey, key_of.
  rewrite js_string_year, !padStart_two by lia.
  reflexivity.
Qed.

Lemma startKey_key_of year month :
  1000 <= year <= 9999 -> 1 <= month <= 12 ->
  startKey year month = key_of year month 1.
Proof.
  intros. unfold startKey, key_of.
  rewrite js_string_year, padStart_two by lia.
  reflexivity.
Qed.

Lemma getDate_end_of_month tz year month :
  1 <= month <= 12 ->
  getDate tz (new_Date_local tz year month 0) = days_in_month year (month - 1).
Proof.
  intros Hm. unfold getDate.
  assert (new_Date_local tz year month 0 =
          new_Date_local tz year (month - 1) (days_in_month year (month - 1))) as ->.
  { rewrite <- new_Date_day_zero by lia. by replace (month - 1 + 1) with month by lia. }
  rewrite local_civil_new_Date; [done|lia|].
  pose proof (days_in_month_bounds year (month - 1)). lia.
Qed.

Lemma endKey_key_of tz year month :
  1000 <= year <= 9999 -> 1 <= month <= 12 ->
  endKey tz year month = key_of year month (days_in_month year (month - 1)).
Proof.
  intros. unfold endKey, key_of. rewrite getDate_end_of_month by done.
  pose proof (days_in_month_bounds year (month - 1)).
  rewrite js_string_year, padStart_two, (js_string_of_int_digits 1) by (simpl; lia).
  reflexivity.
Qed.

Lemma digits_w_2 n :
  digits_w 2 n = String (digit (n / 10 mod 10)) (String (digit (n mod 10)) EmptyString).
Proof. reflexivity. Qed.

Lemma digits_w_4 n :
  digits_w 4 n =
  String (digit (n / 10 / 10 / 10 mod 10)) (String (digit (n / 10 / 10 mod 10))
    (String (digit (n / 10 mod 10)) (String (digit (n mod 10)) EmptyString))).
Proof. reflexivity. Qed.

Lemma parse_key_of y m d :
  0 <= y < 10000 -> 0 <= m < 100 -> 0 <= d < 100 ->
  parse_date_only (key_of y m d) =
  if (1 <=? m) && (m <=? 12) && (1 <=? d) && (d <=? days_in_month y (m - 1))
  then Some (MakeDate (MakeDay y (m - 1) d) 0) else None.
Proof.
  intros Hy Hm Hd. unfold key_of. rewrite digits_w_4, !digits_w_2.
  unfold parse_date_only. simpl list_ascii_of_string. cbv beta iota.
  rewrite !digit_val_digit by (apply Z.mod_pos_bound; lia).
  match goal with |- context [1000 * ?a1 + 100 * ?a2 + 10 * ?a3 + ?a4] =>
    replace (1000 * a1 + 100 * a2 + 10 * a3 + a4) with y by zlia end.
  match goal with |- context [10 * (m / 10 mod 10) + m mod 10] =>
    replace (10 * (m / 10 mod 10) + m mod 10) with m by zlia end.
  match goal with |- context [10 * (d / 10 mod 10) + d mod 10] =>
    replace (10 * (d / 10 mod 10) + d mod 10) with d by zlia end.
  reflexivity.
Qed.

(** ** Properties of the keys *)

(** The month query of [GET /api/calendar/:year/:month] selects, among the
    keys the client writes, exactly those of the requested month: the
    lexicographic range [startKey, endKey] is the month. *)
Theorem in_month_range_key tz year month y m d :
  1000 <= year <= 9999 -> 1 <= month <= 12 ->
  1000 <= y <= 9999 -> 0 <= m <= 11 -> 1 <= d <= days_in_month y m ->
  in_month_range tz year month (client_dateKey y m d) = (y =? year) && (m + 1 =? month).
Proof.
  intros Hy Hmo Hy' Hm Hd.
  pose proof (days_in_month_bounds y m Hm).
  pose proof (days_in_month_bounds year (month - 1) ltac:(lia)).
  unfold in_month_range, String.leb.
  rewrite client_dateKey_key_of, startKey_key_of, endKey_key_of by lia.
  rewrite !compare_key_of by lia. unfold triple_compare.
  destruct (Z.compare_spec year y), (Z.compare_spec y year); try lia;
    destruct (Z.compare_spec month (m + 1)), (Z.compare_spec (m + 1) month); try lia;
    subst; repeat case_test; try lia; try done.
  replace (m + 1 - 1) with m by lia.
  destruct (Z.compare_spec 1 d), (Z.compare_spec d (days_in_month y m)); try lia; done.
Qed.

(** Parsing a key of the client with [new Date(dateKey)] gives back the
    day it was built from (as midnight UTC). *)
Theorem parse_date_only_key y m d :
  1000 <= y <= 9999 -> 0 <= m <= 11 -> 1 <= d <= days_in_month y m ->
  parse_date_only (client_dateKey y m d) = Some (MakeDate (MakeDay y m d) 0).
Proof.
  intros Hy Hm Hd. pose proof (days_in_month_bounds y m Hm).
  rewrite client_dateKey_key_of, parse_key_of by lia.
  replace (m + 1 - 1) with m by lia.
  repeat case_test; try lia. reflexivity.
Qed.

(** C33: Parsing a client dateKey with new Date(dateKey) gives back midnight UTC
    of the day the key was built from. *)
Theorem parse_client_dateKey y m d :
  1000 <= y <= 9999 -> 0 <= m <= 11 -> 1 <= d <= days_in_month y m ->
  parse_date_only (client_dateKey y m d) = Some (MakeDate (MakeDay y m d) 0).
Proof. intros; eapply parse_date_only_key; eassumption. Qed.

(** ** Witnesses *)

(** The example of the specification: the range of September 2025 holds
    ["2025-09-18"] and leaves out ["2025-10-01"]. *)
Lemma in_month_range_key_witness :
  in_month_range 120 2025 9 (client_dateKey 2025 8 18) = true /\
  in_month_range 120 2025 9 (client_dateKey 2025 9 1) = false.
Proof.
  split.
  - rewrite (in_month_range_key 120 2025 9 2025 8 18) by by_compute. reflexivity.
  - rewrite (in_month_range_key 120 2025 9 2025 9 1) by by_compute. reflexivity.
Defined.

Lemma parse_client_dateKey_witness :
  parse_date_only (client_dateKey 2025 8 18) = Some (MakeDate (MakeDay 2025 8 18) 0).
Proof. apply parse_client_dateKey; by_compute. Defined.

End DateKey.
