(* ===== verification/Store.v ===== *)
(** * The server: entry store, change log and broadcast ([src/server.js])

    The Express server keeps three MongoDB collections, [User],
    [CalendarEntry] and [ChangeLog] (lines 67-98), and a Socket.IO server
    [io] whose [emit] broadcasts to every connected client.  Each route
    handler is modelled as a computation of the state-and-exception monad
    [SE] of the prelude over the record [Server]: the three collections, the
    counter that stands for fresh [ObjectId]s, and the [outbox] of emitted
    events in emission order.  A Mongoose call that throws (a failed
    validation, a duplicate key on a unique index) is a [Throw]; the route's
    [catch] turns it into the status the code chooses, and writes done
    before the throw stay, as they do in the database.

    Not modelled: failures of the database connection (the [500] branches
    that only such a failure reaches), the casting of malformed route
    parameters, and the [_id]/[__v] fields the client sends back in a body
    (they equal the stored ones). *)

From stdpp Require Import base gmap strings list.
From Stdlib Require Import ZArith Lia String Ascii Sorting.Permutation Sorting.Sorted.
From S2P Require Import Prelude JsDate DateKey.

Module Store.
Import JsDate DateKey.
Local Open Scope Z_scope.

(** ** Documents *)

(** [userSchema.role]: [enum: ['admin', 'editor', 'viewer']]. *)
Inductive Role := Admin | Editor | Viewer.

#[export] Instance Role_eq_dec : EqDecision Role.
Proof. solve_decision. Defined.

Definition role_of_string (s : string) : option Role :=
  if String.eqb s "admin" then Some Admin
  else if String.eqb s "editor" then Some Editor
  else if String.eqb s "viewer" then Some Viewer
  else None.

Record User := mkUser {
  user_id : nat;
  user_name : string;
  user_identifier : string;
  user_role : Role
}.

(** [calendarEntrySchema]: a field never written is absent ([None]);
    [imageUrls] is an array, which Mongoose initialises to [[]]. *)
Record Entry := mkEntry {
  entry_id : nat;
  dateKey : string;
  name : option string;
  address : option string;
  phone : option string;
  editor : option string;
  imageUrls : list string
}.

(** [changeLogSchema.action]: [enum: ['create', 'update', 'delete']]. *)
Inductive Action := ACreate | AUpdate | ADelete.

#[export] Instance Action_eq_dec : EqDecision Action.
Proof. solve_decision. Defined.

Record ChangeLog := mkLog {
  log_date : Z;
  log_user : string;
  log_action : Action;
  log_entryDateKey : string;
  log_previousData : option Entry;
  log_newData : option Entry
}.

(** The JSON body of [POST]/[PUT /api/calendar]: the fields the client
    sends; an absent field is [None]. *)
Record EntryBody := mkBody {
  b_dateKey : option string;
  b_name : option string;
  b_address : option string;
  b_phone : option string;
  b_editor : option string;
  b_imageUrls : option (list string)
}.

Record UserBody := mkUserBody {
  ub_name : option string;
  ub_identifier : option string;
  ub_role : option string
}.

(** The events of [io.emit]. *)
Inductive Event :=
  | EvUserAdded (u : User)
  | EvUserDeleted (id : nat)
  | EvEntryUpdated (e : Entry)
  | EvEntryDeleted (k : string).

Record Server := mkServer {
  users : list User;
  entries : gmap string Entry;
  logs : list ChangeLog;
  next_id : nat;
  outbox : list Event
}.

(** What a Mongoose call throws. *)
Inductive DbError :=
  | ValidationError (path : string)
  | DuplicateKey (path : string).

Inductive Payload :=
  | PUser (u : User)
  | PUsers (us : list User)
  | PEntry (e : Entry)
  | PEntries (es : list Entry)
  | PLogs (ls : list ChangeLog)
  | PMessage (m : string)
  | PImageUrl (url : string)
  | PError (e : DbError).

Record Response := mkResponse { status : Z; payload : Payload }.

Definition Db (A : Type) : Type := SE Server DbError A.

Local Open Scope cuad_scope.

(** ** Primitive operations of the collections *)

Definition set_users (us : list User) (s : Server) : Server :=
  mkServer us (entries s) (logs s) (next_id s) (outbox s).
Definition set_entries (es : gmap string Entry) (s : Server) : Server :=
  mkServer (users s) es (logs s) (next_id s) (outbox s).
Definition set_logs (ls : list ChangeLog) (s : Server) : Server :=
  mkServer (users s) (entries s) ls (next_id s) (outbox s).
Definition set_next_id (n : nat) (s : Server) : Server :=
  mkServer (users s) (entries s) (logs s) n (outbox s).
Definition set_outbox (o : list Event) (s : Server) : Server :=
  mkServer (users s) (entries s) (logs s) (next_id s) o.

(** A new document gets a fresh [_id] when it is constructed. *)
Definition fresh_id : Db nat :=
  fun s => (Ok (next_id s), set_next_id (S (next_id s)) s).

(** [io.emit(...)]: appended to the outbox, delivered later. *)
Definition emit (ev : Event) : Db unit :=
  se_modify (fun s => set_outbox (outbox s ++ [ev]) s).

(** Mongoose's [required] validator on a string path: absent and empty
    strings fail. *)
Definition required (path : string) (v : option string) : Db string :=
  match v with
  | Some x => if String.eqb x "" then se_throw (ValidationError path) else se_ret x
  | None => se_throw (ValidationError path)
  end.

Definition find_entry (k : string) : Db (option Entry) :=
  fun s => (Ok (entries s !! k), s).

(** [new ChangeLog({...}).save()]: [date] defaults to [Date.now()] ([now]),
    [user] and [entryDateKey] are required. *)
Definition log_save (now : Z) (user : option string) (action : Action)
    (key : option string) (prev next : option Entry) : Db unit :=
  u <- required "user" user ;;
  k <- required "entryDateKey" key ;;
  se_modify (fun s => set_logs (logs s ++ [mkLog now u action k prev next]) s).

(** ** Entries *)

(** [findOneAndUpdate(filter, body)] wraps the body in [$set]: the fields
    present in the body replace the stored ones, the others stay. *)
Definition apply_set (b : EntryBody) (e : Entry) : Entry :=
  mkEntry (entry_id e)
    (default (dateKey e) (b_dateKey b))
    (match b_name b with Some v => Some v | None => name e end)
    (match b_address b with Some v => Some v | None => address e end)
    (match b_phone b with Some v => Some v | None => phone e end)
    (match b_editor b with Some v => Some v | None => editor e end)
    (default (imageUrls e) (b_imageUrls b)).

(** The document an upsert starts from: the equality of the filter and the
    schema's defaults. *)
Definition upsert_base (id : nat) (k : string) : Entry :=
  mkEntry id k None None None None [].

(** Store a document under its [dateKey], which has a unique index: a
    document that moves to a key held by another one is refused. *)
Definition store_entry (old_key : string) (e : Entry) : Db unit :=
  fun s =>
    if String.eqb (dateKey e) old_key then
      (Ok tt, set_entries (<[old_key := e]> (entries s)) s)
    else match entries s !! dateKey e with
    | Some _ => (Throw (DuplicateKey "dateKey"), s)
    | None => (Ok tt, set_entries (<[dateKey e := e]> (delete old_key (entries s))) s)
    end.

(** [CalendarEntry.findOneAndUpdate({ dateKey: k }, body, { new: true,
    upsert: true })] (lines 211-215). *)
Definition find_one_and_update (k : string) (b : EntryBody) : Db Entry :=
  old <- find_entry k ;;
  base <- match old with
          | Some e => se_ret e
          | None => id <- fresh_id ;; se_ret (upsert_base id k)
          end ;;
  let e := apply_set b base in
  store_entry k e ;;;
  se_ret e.

(** [new CalendarEntry(req.body).save()] (lines 191-193). *)
Definition entry_create (b : EntryBody) : Db Entry :=
  id <- fresh_id ;;
  k <- required "dateKey" (b_dateKey b) ;;
  let e := mkEntry id k (b_name b) (b_address b) (b_phone b) (b_editor b)
             (default [] (b_imageUrls b)) in
  fun s => match entries s !! k with
           | Some _ => (Throw (DuplicateKey "dateKey"), s)
           | None => (Ok e, set_entries (<[k := e]> (entries s)) s)
           end.

(** [CalendarEntry.findOneAndDelete({ dateKey: k })]. *)
Definition find_one_and_delete (k : string) : Db (option Entry) :=
  fun s => match entries s !! k with
           | Some e => (Ok (Some e), set_entries (delete k (entries s)) s)
           | None => (Ok None, s)
           end.

Definition respond (code : Z) (p : Payload) : Db Response :=
  se_ret (mkResponse code p).

(** [POST /api/calendar] (lines 190-206). *)
Definition post_calendar (now : Z) (b : EntryBody) : Db Response :=
  se_catch
    (e <- entry_create b ;;
     log_save now (b_editor b) ACreate (b_dateKey b) None (Some e) ;;;
     emit (EvEntryUpdated e) ;;;
     respond 201 (PEntry e))
    (fun err => respond 400 (PError err)).

(** [PUT /api/calendar/:dateKey] (lines 208-229). *)
Definition put_calendar (now : Z) (k : string) (b : EntryBody) : Db Response :=
  se_catch
    (old <- find_entry k ;;
     upd <- find_one_and_update k b ;;
     log_save now (b_editor b) AUpdate (Some k) old (Some upd) ;;;
     emit (EvEntryUpdated upd) ;;;
     respond 200 (PEntry upd))
    (fun err => respond 400 (PError err)).

(** [DELETE /api/calendar/:dateKey] (lines 231-249): the request carries no
    user, the log records ['unknown']. *)
Definition delete_calendar (now : Z) (k : string) : Db Response :=
  se_catch
    (old <- find_one_and_delete k ;;
     match old with
     | None => respond 404 (PMessage "Entrada no encontrada")
     | Some e =>
         log_save now (Some "unknown") ADelete (Some k) (Some e) None ;;;
         emit (EvEntryDeleted k) ;;;
         respond 200 (PMessage "Entrada eliminada")
     end)
    (fun err => respond 500 (PError err)).

(** [GET /api/calendar/:dateKey] (lines 178-188). *)
Definition get_entry (k : string) : Db Response :=
  old <- find_entry k ;;
  match old with
  | None => respond 404 (PMessage "Entrada no encontrada")
  | Some e => respond 200 (PEntry e)
  end.

(** [GET /api/calendar/:year/:month] (lines 158-176), in the server's time
    zone [tz]. *)
Definition entries_of_month (tz year month : Z) (es : gmap string Entry) : list Entry :=
  List.filter (fun e => in_month_range tz year month (dateKey e)) (map snd (map_to_list es)).

Definition get_month (tz year month : Z) : Db Response :=
  fun s => respond 200 (PEntries (entries_of_month tz year month (entries s))) s.

(** ** Users *)

(** [POST /api/login] (lines 104-115). *)
Definition login (identifier : string) : Db Response :=
  fun s => match List.find (fun u => String.eqb (user_identifier u) identifier) (users s) with
           | None => respond 404 (PMessage "Identificador no encontrado") s
           | Some u => respond 200 (PUser u) s
           end.

(** [GET /api/users] (lines 118-125). *)
Definition get_users : Db Response :=
  fun s => respond 200 (PUsers (users s)) s.

(** [new User({...})]: the role defaults to ['viewer'] and must be one of the
    enum; name and identifier are required. *)
Definition user_validate (id : nat) (b : UserBody) : Db User :=
  n <- required "name" (ub_name b) ;;
  i <- required "identifier" (ub_identifier b) ;;
  r <- match ub_role b with
       | None => se_ret Viewer
       | Some r => match role_of_string r with
                   | Some r => se_ret r
                   | None => se_throw (ValidationError "role")
                   end
       end ;;
  se_ret (mkUser id n i r).

(** [user.save()]: [name] and [identifier] have unique indexes. *)
Definition user_insert (u : User) : Db unit :=
  fun s =>
    if List.existsb (fun v => String.eqb (user_name v) (user_name u)) (users s)
    then (Throw (DuplicateKey "name"), s)
    else if List.existsb (fun v => String.eqb (user_identifier v) (user_identifier u)) (users s)
    then (Throw (DuplicateKey "identifier"), s)
    else (Ok tt, set_users (users s ++ [u]) s).

(** [POST /api/users] (lines 127-141). *)
Definition post_user (b : UserBody) : Db Response :=
  id <- fresh_id ;;
  se_catch
    (u <- user_validate id b ;;
     user_insert u ;;;
     emit (EvUserAdded u) ;;;
     respond 201 (PUser u))
    (fun err => respond 400 (PError err)).

(** [DELETE /api/users/:id] (lines 143-155). *)
Definition delete_user (id : nat) : Db Response :=
  fun s =>
    match List.find (fun u => Nat.eqb (user_id u) id) (users s) with
    | None => respond 404 (PMessage "Usuario no encontrado") s
    | Some u =>
        (emit (EvUserDeleted (user_id u)) ;;;
         respond 200 (PMessage "Usuario eliminado"))
          (set_users (List.filter (fun v => negb (Nat.eqb (user_id v) id)) (users s)) s)
    end.

(** [createDefaultAdmin] (lines 50-65): run once the connection is up. *)
Definition createDefaultAdmin : Db unit :=
  fun s =>
    match users s with
    | [] => (id <- fresh_id ;; user_insert (mkUser id "Gustavo" "3434" Admin)) s
    | _ :: _ => (Ok tt, s)
    end.

(** ** The change-log report query *)

(** [sort({ date: -1 })]: newest first.  MongoDB leaves the order of equal
    dates open; the model keeps them in insertion order. *)
Fixpoint insert_desc (l : ChangeLog) (ls : list ChangeLog) : list ChangeLog :=
  match ls with
  | [] => [l]
  | x :: r => if log_date x <? log_date l then l :: x :: r else x :: insert_desc l r
  end.

Definition sort_desc (ls : list ChangeLog) : list ChangeLog :=
  fold_right insert_desc [] (rev ls).

(** [GET /api/logs/:year/:month] (lines 251-265): the logs whose own [date]
    lies between local midnight of the first day ([startDate]) and local
    midnight of the last day ([endDate]) of the month. *)
Definition log_in_window (tz year month : Z) (l : ChangeLog) : bool :=
  let startDate := new_Date_local tz year (month - 1) 1 in
  let endDate := new_Date_local tz year month 0 in
  (startDate <=? log_date l) && (log_date l <=? endDate).

Definition logs_query (tz year month : Z) (ls : list ChangeLog) : list ChangeLog :=
  sort_desc (List.filter (log_in_window tz year month) ls).

Definition get_logs (tz year month : Z) : Db Response :=
  fun s => respond 200 (PLogs (logs_query tz year month (logs s))) s.

(** ** Image upload (lines 28-39 and 268-275) *)

(** [file.originalname.split('.').pop()]: the text after the last dot, the
    whole name when it has none. *)
Fixpoint last_segment (acc : string) (s : string) : string :=
  match s with
  | EmptyString => acc
  | String c r => if Ascii.eqb c "."%char then last_segment EmptyString r
                  else last_segment (acc +:+ String c EmptyString) r
  end.

Record Upload := mkUpload { up_fieldname : string; up_suffix : string; up_originalname : string }.

(** Multer's [filename] callback; [up_suffix] stands for
    [Date.now() + '-' + Math.round(Math.random() * 1E9)]. *)
Definition upload_filename (f : Upload) : string :=
  up_fieldname f +:+ "-" +:+ up_suffix f +:+ "." +:+ last_segment EmptyString (up_originalname f).

Definition upload (f : option Upload) : Db Response :=
  match f with
  | None => respond 400 (PMessage "No se ha subido ningún archivo.")
  | Some f => respond 200 (PImageUrl ("/uploads/" +:+ upload_filename f))
  end.

(** ** The routes *)

Inductive Request :=
  | ReqLogin (identifier : string)
  | ReqGetUsers
  | ReqPostUser (b : UserBody)
  | ReqDeleteUser (id : nat)
  | ReqGetMonth (year month : Z)
  | ReqGetEntry (k : string)
  | ReqPostEntry (b : EntryBody)
  | ReqPutEntry (k : string) (b : EntryBody)
  | ReqDeleteEntry (k : string)
  | ReqGetLogs (year month : Z)
  | ReqUpload (f : option Upload).

(** The Express router: [now] is [Date.now()] when the request is handled
    and [tz] the server's time zone. *)
Definition handle (tz now : Z) (r : Request) : Db Response :=
  match r with
  | ReqLogin i => login i
  | ReqGetUsers => get_users
  | ReqPostUser b => post_user b
  | ReqDeleteUser id => delete_user id
  | ReqGetMonth y m => get_month tz y m
  | ReqGetEntry k => get_entry k
  | ReqPostEntry b => post_calendar now b
  | ReqPutEntry k b => put_calendar now k b
  | ReqDeleteEntry k => delete_calendar now k
  | ReqGetLogs y m => get_logs tz y m
  | ReqUpload f => upload f
  end.

(** ** Specification-side definitions *)

(** The document the upsert of [PUT /api/calendar/k] starts from, the one
    it stores, and the state after the [findOneAndUpdate] call. *)
Definition upsert_base_of (s : Server) (k : string) : Entry :=
  match entries s !! k with Some e => e | None => upsert_base (next_id s) k end.

Definition upserted (s : Server) (k : string) (b : EntryBody) : Entry :=
  apply_set b (upsert_base_of s k).

Definition upsert_state (s : Server) (k : string) (b : EntryBody) : Server :=
  mkServer (users s) (<[k := upserted s k b]> (entries s)) (logs s)
    (match entries s !! k with Some _ => next_id s | None => S (next_id s) end)
    (outbox s).

(** Every entry is stored under its own [dateKey] (the unique index of
    [calendarEntrySchema]). *)
Definition entries_keyed (es : gmap string Entry) : Prop :=
  map_Forall (fun k e => dateKey e = k) es.

(** The unique indexes of [userSchema]. *)
Definition users_unique (us : list User) : Prop :=
  NoDup (map user_name us) /\ NoDup (map user_identifier us).

Definition wf (s : Server) : Prop := entries_keyed (entries s) /\ users_unique (users s).

(** A body that does not move the entry to another key: the client always
    sends [dateKey] equal to the key of the URL. *)
Definition keeps_key (k : string) (b : EntryBody) : Prop :=
  b_dateKey b = None \/ b_dateKey b = Some k.

(** ** Lemmas on the primitives *)

Lemma required_some p x s : x <> "" -> required p (Some x) s = (Ok x, s).
Proof. intros Hx. unfold required. case_test; [done|reflexivity]. Qed.

Lemma log_save_ok now u a k prev next s :
  u <> "" -> k <> "" ->
  log_save now (Some u) a (Some k) prev next s =
  (Ok tt, set_logs (logs s ++ [mkLog now u a k prev next]) s).
Proof.
  intros Hu Hk. unfold log_save, se_bind, se_modify.
  rewrite required_some by done. cbv beta iota. rewrite required_some by done.
  reflexivity.
Qed.

Lemma log_save_no_user now a key prev next s :
  log_save now None a key prev next s = (Throw (ValidationError "user"), s).
Proof. reflexivity. Qed.

Lemma find_one_and_update_ok k b s :
  entries_keyed (entries s) -> keeps_key k b ->
  find_one_and_update k b s = (Ok (upserted s k b), upsert_state s k b).
Proof.
  intros Hw Hk.
  unfold upsert_state, upserted, upsert_base_of, find_one_and_update, find_entry,
    store_entry, fresh_id, se_bind, se_ret.
  destruct (entries s !! k) as [e|] eqn:E; simpl.
  - rewrite (Hw k e E).
    destruct Hk as [-> | ->]; simpl; case_test; done.
  - destruct Hk as [-> | ->]; simpl; case_test; done.
Qed.

(** ** Behaviour of the entry routes *)

(** [PUT /api/calendar/k] with a body that names its editor: the entry is
    upserted with the body's fields over the stored ones, one ['update']
    log records the stored entry before and after, the new entry is
    broadcast, and the response is [200] with it. *)
Theorem put_calendar_ok now k b u s :
  entries_keyed (entries s) -> keeps_key k b -> k <> "" ->
  b_editor b = Some u -> u <> "" ->
  put_calendar now k b s =
  (Ok (mkResponse 200 (PEntry (upserted s k b))),
   set_outbox (outbox s ++ [EvEntryUpdated (upserted s k b)])
     (set_logs (logs s ++ [mkLog now u AUpdate k (entries s !! k) (Some (upserted s k b))])
        (upsert_state s k b))).
Proof.
  intros Hw Hk Hne Hb Hu. unfold put_calendar, se_catch, se_bind at 1. simpl.
  unfold se_bind at 1. rewrite find_one_and_update_ok by done.
  unfold se_bind at 1. rewrite Hb, log_save_ok by done. reflexivity.
Qed.

(** C1: PUT /api/calendar/:dateKey with a body naming its editor upserts the
    entry with the body's fields over the stored ones, appends one 'update'
    log with the stored entry before and after, broadcasts the new entry and
    answers 200 with it. *)
Theorem put_calendar_spec now k b u s :
  entries_keyed (entries s) -> keeps_key k b -> k <> "" ->
  b_editor b = Some u -> u <> "" ->
  put_calendar now k b s =
  (Ok (mkResponse 200 (PEntry (upserted s k b))),
   set_outbox (outbox s ++ [EvEntryUpdated (upserted s k b)])
     (set_logs (logs s ++ [mkLog now u AUpdate k (entries s !! k) (Some (upserted s k b))])
        (upsert_state s k b))).
Proof. intros; eapply put_calendar_ok; eassumption. Qed.

(** C30: A PUT whose body has no editor writes the entry, then fails the change
    log's required user: it answers 400 with no log record and no broadcast,
    leaving the entry changed. *)
Theorem put_calendar_no_editor now k b s :
  entries_keyed (entries s) -> keeps_key k b -> b_editor b = None ->
  put_calendar now k b s =
  (Ok (mkResponse 400 (PError (ValidationError "user"))), upsert_state s k b).
Proof.
  intros Hw Hk Hb. unfold put_calendar, se_catch, se_bind at 1. simpl.
  unfold se_bind at 1. rewrite find_one_and_update_ok by done.
  unfold se_bind at 1. rewrite Hb, log_save_no_user. reflexivity.
Qed.

Lemma apply_set_idem b e : apply_set b (apply_set b e) = apply_set b e.
Proof. destruct e, b as [[?|] [?|] [?|] [?|] [?|] [?|]]; reflexivity. Qed.

Lemma upserted_keyed s k b :
  entries_keyed (entries s) -> keeps_key k b -> dateKey (upserted s k b) = k.
Proof.
  intros Hw Hk. unfold upserted, upsert_base_of.
  destruct (entries s !! k) as [e|] eqn:E; destruct Hk as [Hk | Hk]; simpl; rewrite Hk;
    simpl; [exact (Hw k e E) | done | done | done].
Qed.

Lemma entries_keyed_insert es k e :
  entries_keyed es -> dateKey e = k -> entries_keyed (<[k := e]> es).
Proof. intros Hw He. by apply map_Forall_insert_2. Qed.

Lemma entries_keyed_delete es k : entries_keyed es -> entries_keyed (delete k es).
Proof. apply map_Forall_delete. Qed.

#[export] Hint Resolve entries_keyed_insert entries_keyed_delete : cuad.

(** Writing the same body twice in a row stores the same entry again,
    leaves the entries as the first write left them, and logs a record whose
    previousData equals its newData. *)
Theorem put_calendar_idempotent now1 now2 k b u s :
  entries_keyed (entries s) -> keeps_key k b -> k <> "" ->
  b_editor b = Some u -> u <> "" ->
  let s1 := snd (put_calendar now1 k b s) in
  put_calendar now2 k b s1 =
  (Ok (mkResponse 200 (PEntry (upserted s k b))),
   set_outbox (outbox s1 ++ [EvEntryUpdated (upserted s k b)])
     (set_logs (logs s1 ++ [mkLog now2 u AUpdate k (Some (upserted s k b))
                                  (Some (upserted s k b))]) s1)).
Proof.
  intros Hw Hk Hne Hb Hu s1.
  assert (E1 : entries s1 = <[k := upserted s k b]> (entries s)).
  { subst s1. by rewrite put_calendar_ok with (u := u). }
  assert (Hw1 : entries_keyed (entries s1)).
  { rewrite E1. apply entries_keyed_insert; [done|]. by apply upserted_keyed. }
  assert (L1 : entries s1 !! k = Some (upserted s k b)).
  { rewrite E1. apply lookup_insert_eq. }
  assert (U : upserted s1 k b = upserted s k b).
  { unfold upserted at 1, upsert_base_of. rewrite L1. unfold upserted. apply apply_set_idem. }
  rewrite put_calendar_ok with (u := u) by done. unfold upsert_state.
  rewrite U, L1, (insert_id (entries s1) k) by done.
  by destruct s1.
Qed.

(** [DELETE] of a key with no entry answers [404] and changes nothing: no
    log record, no broadcast. *)
Theorem delete_calendar_none now k s :
  entries s !! k = None ->
  delete_calendar now k s = (Ok (mkResponse 404 (PMessage "Entrada no encontrada")), s).
Proof. intros E. unfold delete_calendar, se_catch, se_bind, find_one_and_delete. by rewrite E. Qed.

(** DELETE of a key with no entry answers 404 and leaves the whole server
    state unchanged: no log record and no broadcast. *)
Theorem delete_calendar_absent now k s :
  entries s !! k = None ->
  delete_calendar now k s = (Ok (mkResponse 404 (PMessage "Entrada no encontrada")), s).
Proof. intros; eapply delete_calendar_none; eassumption. Qed.

(** [DELETE] of a stored entry removes it, writes one ['delete'] log
    attributed to ['unknown'] with the entry as [previousData] and no
    [newData], and broadcasts the key. *)
Theorem delete_calendar_some now k e s :
  entries s !! k = Some e -> k <> "" ->
  delete_calendar now k s =
  (Ok (mkResponse 200 (PMessage "Entrada eliminada")),
   set_outbox (outbox s ++ [EvEntryDeleted k])
     (set_logs (logs s ++ [mkLog now "unknown" ADelete k (Some e) None])
        (set_entries (delete k (entries s)) s))).
Proof.
  intros E Hk. unfold delete_calendar, se_catch, se_bind at 1, find_one_and_delete.
  rewrite E. unfold se_bind at 1. rewrite log_save_ok by done. reflexivity.
Qed.

(** C7: DELETE of a stored entry removes it, appends one 'delete' log by
    'unknown' whose previousData is the entry and whose newData is absent,
    broadcasts the key and answers 200. *)
Theorem delete_calendar_present now k e s :
  entries s !! k = Some e -> k <> "" ->
  delete_calendar now k s =
  (Ok (mkResponse 200 (PMessage "Entrada eliminada")),
   set_outbox (outbox s ++ [EvEntryDeleted k])
     (set_logs (logs s ++ [mkLog now "unknown" ADelete k (Some e) None])
        (set_entries (delete k (entries s)) s))).
Proof. intros; eapply delete_calendar_some; eassumption. Qed.

(** [POST] of an entry whose key is taken fails on the unique index: [400],
    nothing stored, logged or broadcast (only an [_id] is consumed). *)
Theorem post_calendar_taken now b k e s :
  b_dateKey b = Some k -> k <> "" -> entries s !! k = Some e ->
  post_calendar now b s =
  (Ok (mkResponse 400 (PError (DuplicateKey "dateKey"))), set_next_id (S (next_id s)) s).
Proof.
  intros Hb Hk E. unfold post_calendar, entry_create, se_catch, se_bind, fresh_id.
  rewrite Hb. simpl. case_test; [done|]. simpl. by rewrite E.
Qed.

(** [POST] of a new entry stores it with the body's fields, writes one
    ['create'] log with no [previousData] and broadcasts it. *)
Theorem post_calendar_fresh now b k u s :
  b_dateKey b = Some k -> k <> "" -> entries s !! k = None ->
  b_editor b = Some u -> u <> "" ->
  let e := mkEntry (next_id s) k (b_name b) (b_address b) (b_phone b) (b_editor b)
             (default [] (b_imageUrls b)) in
  post_calendar now b s =
  (Ok (mkResponse 201 (PEntry e)),
   set_outbox (outbox s ++ [EvEntryUpdated e])
     (set_logs (logs s ++ [mkLog now u ACreate k None (Some e)])
        (set_entries (<[k := e]> (entries s)) (set_next_id (S (next_id s)) s)))).
Proof.
  intros Hb Hk E He Hu e. unfold post_calendar, entry_create, se_catch, se_bind, fresh_id.
  rewrite Hb. simpl. case_test; [done|]. simpl. rewrite E. simpl.
  rewrite He, log_save_ok by done. subst e. by rewrite He.
Qed.

(** ** The well-formedness invariant *)

Lemma wf_set_logs s l : wf (set_logs l s) <-> wf s.
Proof. reflexivity. Qed.
Lemma wf_set_outbox s o : wf (set_outbox o s) <-> wf s.
Proof. reflexivity. Qed.
Lemma wf_set_next_id s n : wf (set_next_id n s) <-> wf s.
Proof. reflexivity. Qed.

Lemma respond_preserves P code p : se_preserves P (respond code p).
Proof. apply se_ret_preserves. Qed.

#[export] Hint Resolve respond_preserves : cuad.

Lemma fresh_id_wf : se_preserves wf fresh_id.
Proof. intros s Hs. by apply wf_set_next_id. Qed.

Lemma emit_wf ev : se_preserves wf (emit ev).
Proof. apply se_modify_preserves. intros s Hs. by apply wf_set_outbox. Qed.

Lemma required_wf p v : se_preserves wf (required p v).
Proof. unfold required. destruct v; [case_match|]; auto with cuad. Qed.

Lemma log_save_wf now u a k p n : se_preserves wf (log_save now u a k p n).
Proof.
  unfold log_save. preserve; try apply required_wf.
  apply se_modify_preserves. intros s' Hs'. by apply wf_set_logs.
Qed.

Lemma find_entry_wf k : se_preserves wf (find_entry k).
Proof. intros s Hs. exact Hs. Qed.

Lemma store_entry_wf k e : se_preserves wf (store_entry k e).
Proof.
  intros s [Hw Hu]. unfold store_entry. case_test; simpl.
  - split; [|done]. simpl. apply entries_keyed_insert; auto.
  - destruct (entries s !! dateKey e); simpl; [done|].
    split; [|done]. simpl. auto with cuad.
Qed.

Lemma find_one_and_update_wf k b : se_preserves wf (find_one_and_update k b).
Proof.
  unfold find_one_and_update. preserve;
    auto using find_entry_wf, fresh_id_wf, store_entry_wf with cuad.
Qed.

Lemma entry_create_wf b : se_preserves wf (entry_create b).
Proof.
  unfold entry_create. preserve; auto using fresh_id_wf, required_wf.
  intros s [Hw Hu]. simpl. destruct (entries s !! _); simpl; [done|].
  split; [|done]. simpl. auto with cuad.
Qed.

Lemma find_one_and_delete_wf k : se_preserves wf (find_one_and_delete k).
Proof.
  intros s [Hw Hu]. unfold find_one_and_delete.
  destruct (entries s !! k); simpl; [|by split]. split; [|exact Hu]. by apply entries_keyed_delete.
Qed.

Lemma user_insert_wf u : se_preserves wf (user_insert u).
Proof.
  intros s [Hw [Hn Hi]]. unfold user_insert.
  destruct (List.existsb (fun v => String.eqb (user_name v) (user_name u)) (users s)) eqn:E1;
    simpl; [split; [|split]; done|].
  destruct (List.existsb (fun v => String.eqb (user_identifier v) (user_identifier u)) (users s))
    eqn:E2; simpl; [split; [|split]; done|].
  split; [exact Hw|]. split; by apply NoDup_map_snoc_existsb.
Qed.

Lemma user_validate_wf id b : se_preserves wf (user_validate id b).
Proof. unfold user_validate. preserve; auto using required_wf; by destruct (role_of_string _); auto with cuad. Qed.

(** Every route keeps entries under their own keys and user names and
    identifiers distinct. *)
Theorem handle_wf tz now r : se_preserves wf (handle tz now r).
Proof.
  destruct r; simpl.
  - intros s Hs. unfold login. by destruct (List.find _ _).
  - intros s Hs. exact Hs.
  - unfold post_user. preserve;
      auto using fresh_id_wf, user_validate_wf, user_insert_wf, emit_wf with cuad.
  - intros s [Hw [Hn Hi]]. unfold delete_user.
    destruct (List.find _ _); simpl; [|done].
    split; [exact Hw|]. split; by apply NoDup_map_filter.
  - intros s Hs. exact Hs.
  - unfold get_entry. preserve; auto using find_entry_wf with cuad.
  - unfold post_calendar. preserve; auto using entry_create_wf, log_save_wf, emit_wf with cuad.
  - unfold put_calendar. preserve;
      auto using find_entry_wf, find_one_and_update_wf, log_save_wf, emit_wf with cuad.
  - unfold delete_calendar. preserve;
      auto using find_one_and_delete_wf, log_save_wf, emit_wf with cuad.
  - intros s Hs. exact Hs.
  - unfold upload. destruct f; auto with cuad.
Qed.

(** Every route keeps each entry stored under its own dateKey (the unique
    index) and user names and identifiers pairwise distinct. *)
Theorem handle_preserves_wf tz now r : se_preserves wf (handle tz now r).
Proof. intros; eapply handle_wf; eassumption. Qed.

(** ** The change log only grows

    No route removes or rewrites a change-log record: the log of every
    later state extends the log of every earlier one. *)

Section LogsGrow.
Variable L : list ChangeLog.

Definition logs_from (s : Server) : Prop := exists l, logs s = L ++ l.

Lemma logs_from_keep {A} (m : Db A) :
  (forall s, logs (snd (m s)) = logs s) -> se_preserves logs_from m.
Proof. intros H s [l Hl]. exists l. by rewrite H. Qed.

Ltac keeps_logs := apply logs_from_keep; intros s; repeat (simpl; case_match); reflexivity.

Lemma required_logs p v : se_preserves logs_from (required p v).
Proof. unfold required. keeps_logs. Qed.

Lemma log_save_logs now u a k p n : se_preserves logs_from (log_save now u a k p n).
Proof.
  unfold log_save. preserve; try apply required_logs.
  apply se_modify_preserves. intros s' [l Hl]. eexists.
  simpl. rewrite Hl, <- app_assoc. reflexivity.
Qed.

Lemma fresh_id_logs : se_preserves logs_from fresh_id.
Proof. unfold fresh_id. keeps_logs. Qed.
Lemma emit_logs ev : se_preserves logs_from (emit ev).
Proof. unfold emit, se_modify. keeps_logs. Qed.
Lemma find_entry_logs k : se_preserves logs_from (find_entry k).
Proof. unfold find_entry. keeps_logs. Qed.
Lemma store_entry_logs k e : se_preserves logs_from (store_entry k e).
Proof. unfold store_entry. keeps_logs. Qed.
Lemma find_one_and_delete_logs k : se_preserves logs_from (find_one_and_delete k).
Proof. unfold find_one_and_delete. keeps_logs. Qed.
Lemma user_insert_logs u : se_preserves logs_from (user_insert u).
Proof. unfold user_insert. keeps_logs. Qed.

#[local] Hint Resolve required_logs log_save_logs fresh_id_logs emit_logs find_entry_logs
  store_entry_logs find_one_and_delete_logs user_insert_logs : cuad.

Lemma find_one_and_update_logs k b : se_preserves logs_from (find_one_and_update k b).
Proof. unfold find_one_and_update. preserve; auto with cuad. Qed.

Lemma entry_create_logs b : se_preserves logs_from (entry_create b).
Proof.
  unfold entry_create. preserve; auto with cuad.
  apply logs_from_keep. intros s. simpl. by case_match.
Qed.

Lemma user_validate_logs id b : se_preserves logs_from (user_validate id b).
Proof. unfold user_validate. preserve; auto with cuad; by destruct (role_of_string _); auto with cuad. Qed.

#[local] Hint Resolve find_one_and_update_logs entry_create_logs user_validate_logs : cuad.

Lemma handle_logs_from tz now r : se_preserves logs_from (handle tz now r).
Proof.
  destruct r; simpl; try (apply logs_from_keep; intros s; reflexivity).
  - apply logs_from_keep. intros s. unfold login. by case_match.
  - unfold post_user. preserve; auto with cuad.
  - apply logs_from_keep. intros s. unfold delete_user. by case_match.
  - unfold get_entry. preserve; auto with cuad.
  - unfold post_calendar. preserve; auto with cuad.
  - unfold put_calendar. preserve; auto with cuad.
  - unfold delete_calendar. preserve; auto with cuad.
  - unfold upload. destruct f; auto with cuad.
Qed.

End LogsGrow.

(** ** The change log is a faithful history

    Replaying the log from an empty store, each record must find the stored
    entry equal to its [previousData] and leaves [newData] in its place (or
    no entry, for a deletion).  The invariant [log_faithful] says that the
    replay succeeds and ends in the current entries: every acknowledged
    write left exactly one record, with the right snapshots. *)

#[export] Instance Entry_eq_dec : EqDecision Entry.
Proof. solve_decision. Defined.

Definition replay_step (m : gmap string Entry) (l : ChangeLog) : option (gmap string Entry) :=
  if decide (m !! log_entryDateKey l = log_previousData l) then
    Some (match log_newData l with
          | Some e => <[log_entryDateKey l := e]> m
          | None => delete (log_entryDateKey l) m
          end)
  else None.

Fixpoint replay (m : gmap string Entry) (ls : list ChangeLog) : option (gmap string Entry) :=
  match ls with
  | [] => Some m
  | l :: r => match replay_step m l with Some m' => replay m' r | None => None end
  end.

Definition log_faithful (s : Server) : Prop := replay ∅ (logs s) = Some (entries s).

(** The requests the client sends: every write names a non-empty editor
    ([loggedInUser.name]) and keeps the key of its URL. *)
Definition well_behaved (r : Request) : Prop :=
  match r with
  | ReqPostEntry b => exists u, b_editor b = Some u /\ u <> ""
  | ReqPutEntry k b => keeps_key k b /\ k <> "" /\ exists u, b_editor b = Some u /\ u <> ""
  | ReqDeleteEntry k => k <> ""
  | _ => True
  end.

Definition is_entry_write (r : Request) : bool :=
  match r with
  | ReqPostEntry _ | ReqPutEntry _ _ | ReqDeleteEntry _ => true
  | _ => false
  end.

Definition acknowledged (o : outcome DbError Response) : bool :=
  match o with
  | Ok resp => (status resp =? 200) || (status resp =? 201)
  | Throw _ => false
  end.

Lemma replay_snoc m ls l :
  replay m (ls ++ [l]) = match replay m ls with Some m' => replay_step m' l | None => None end.
Proof.
  revert m. induction ls as [|l' ls IH]; intros m; simpl.
  - by destruct (replay_step m l).
  - destruct (replay_step m l'); [apply IH | done].
Qed.

Lemma log_faithful_snoc s s' l :
  log_faithful s -> logs s' = logs s ++ [l] ->
  entries s !! log_entryDateKey l = log_previousData l ->
  entries s' = match log_newData l with
               | Some e => <[log_entryDateKey l := e]> (entries s)
               | None => delete (log_entryDateKey l) (entries s)
               end ->
  log_faithful s'.
Proof.
  unfold log_faithful. intros H Hl Hp He. rewrite Hl, replay_snoc, H, He.
  unfold replay_step. by rewrite decide_True.
Qed.

(** What the user routes and the read routes leave alone. *)
Definition same_history (L : list ChangeLog) (E : gmap string Entry) (s : Server) : Prop :=
  logs s = L /\ entries s = E.

Lemma user_routes_history tz now r L E :
  is_entry_write r = false -> se_preserves (same_history L E) (handle tz now r).
Proof.
  assert (Hr : forall code p, se_preserves (same_history L E) (respond code p))
    by (intros; apply respond_preserves).
  assert (Hf : se_preserves (same_history L E) fresh_id) by (intros s Hs; exact Hs).
  assert (Hq : forall p v, se_preserves (same_history L E) (required p v)).
  { intros p v. unfold required. destruct v; [case_match|]; auto with cuad. }
  assert (Hm : forall ev, se_preserves (same_history L E) (emit ev)).
  { intros ev. apply se_modify_preserves. intros s Hs. exact Hs. }
  assert (Hv : forall id b, se_preserves (same_history L E) (user_validate id b)).
  { intros id b. unfold user_validate. preserve; auto with cuad. }
  assert (Hi : forall u, se_preserves (same_history L E) (user_insert u)).
  { intros u s Hs. unfold user_insert. by repeat case_match. }
  destruct r; simpl; intros Hw; try discriminate.
  - intros s Hs. unfold login. by destruct (List.find _ _).
  - intros s Hs. exact Hs.
  - unfold post_user. preserve; auto.
  - intros s Hs. unfold delete_user. by destruct (List.find _ _).
  - intros s Hs. exact Hs.
  - unfold get_entry. preserve; auto; intros s Hs; exact Hs.
  - intros s Hs. exact Hs.
  - unfold upload. destruct f; auto.
Qed.

Lemma post_calendar_no_key now b s :
  (b_dateKey b = None \/ b_dateKey b = Some "") ->
  post_calendar now b s =
  (Ok (mkResponse 400 (PError (ValidationError "dateKey"))), set_next_id (S (next_id s)) s).
Proof. intros [Hb | Hb]; unfold post_calendar, entry_create, se_catch, se_bind, fresh_id; by rewrite Hb. Qed.

(** Each request handled leaves the log faithful, and adds one record
    exactly when it is an acknowledged write ([200] or [201] to a [POST],
    [PUT] or [DELETE] of an entry). *)
Theorem handle_log_step tz now r s :
  wf s -> log_faithful s -> well_behaved r ->
  log_faithful (snd (handle tz now r s)) /\
  List.length (logs (snd (handle tz now r s))) =
  (List.length (logs s) +
   if is_entry_write r && acknowledged (fst (handle tz now r s)) then 1 else 0)%nat.
Proof.
  intros [Hw Hu] Hf Hr. destruct (is_entry_write r) eqn:Ew.
  - destruct r; try discriminate; simpl in Hr |- *.
    + (* POST /api/calendar *)
      destruct Hr as (u & He & Hu').
      destruct (b_dateKey b) as [k|] eqn:Ek; [destruct (String.eqb_spec k "") as [->|Hk]|].
      * rewrite post_calendar_no_key by auto. simpl. rewrite Nat.add_0_r. by split.
      * destruct (entries s !! k) as [e|] eqn:E.
        -- rewrite (post_calendar_taken now b k e) by done. simpl.
           rewrite Nat.add_0_r. by split.
        -- rewrite (post_calendar_fresh now b k u) by done. simpl. split.
           ++ eapply log_faithful_snoc; [done|reflexivity|done|reflexivity].
           ++ rewrite length_app. simpl. lia.
      * rewrite post_calendar_no_key by auto. simpl. rewrite Nat.add_0_r. by split.
    + (* PUT /api/calendar/:dateKey *)
      destruct Hr as (Hk & Hne & u & He & Hu').
      rewrite (put_calendar_ok now k b u) by done. simpl. split.
      * eapply log_faithful_snoc; [done|reflexivity|done|reflexivity].
      * rewrite length_app. simpl. lia.
    + (* DELETE /api/calendar/:dateKey *)
      destruct (entries s !! k) as [e|] eqn:E.
      * rewrite (delete_calendar_some now k e) by done. simpl. split.
        -- eapply log_faithful_snoc; [done|reflexivity|done|reflexivity].
        -- rewrite length_app. simpl. lia.
      * rewrite delete_calendar_none by done. simpl. rewrite Nat.add_0_r. by split.
  - rewrite Nat.add_0_r.
    destruct (user_routes_history tz now r (logs s) (entries s) Ew s (conj eq_refl eq_refl))
      as [HL HE].
    unfold log_faithful. by rewrite HL, HE.
Qed.

(** C3: Each request handled keeps the change log faithful and appends exactly
    one record when it is an acknowledged write (200/201 to POST, PUT or
    DELETE of an entry) and none otherwise. *)
Theorem handle_log_faithful tz now r s :
  wf s -> log_faithful s -> well_behaved r ->
  log_faithful (snd (handle tz now r s)) /\
  List.length (logs (snd (handle tz now r s))) =
  (List.length (logs s) +
   if is_entry_write r && acknowledged (fst (handle tz now r s)) then 1 else 0)%nat.
Proof. intros; eapply handle_log_step; eassumption. Qed.

(** ** Runs of the server *)

Definition initial_server : Server := mkServer [] ∅ [] 0 [].

(** The server handling a sequence of requests, each with the time
    [Date.now()] at which it is handled. *)
Definition run (tz : Z) (reqs : list (Z * Request)) (s : Server) : Server :=
  fold_left (fun s '(now, r) => snd (handle tz now r s)) reqs s.

Lemma run_logs_grow tz reqs s : exists l, logs (run tz reqs s) = logs s ++ l.
Proof.
  assert (H : forall L s, logs_from L s -> logs_from L (run tz reqs s)).
  { induction reqs as [|[now r] reqs IH]; intros L s' Hs; [done|].
    apply IH. by apply handle_logs_from. }
  apply H. exists []. by rewrite app_nil_r.
Qed.

(** C2: From an empty database, any sequence of requests whose writes name an
    editor and keep their key leaves the store well formed and the change
    log a faithful history: replaying the log reproduces the stored entries. *)
Theorem run_log_faithful tz reqs :
  Forall (fun '(_, r) => well_behaved r) reqs ->
  wf (run tz reqs initial_server) /\ log_faithful (run tz reqs initial_server).
Proof.
  assert (H0 : wf initial_server /\ log_faithful initial_server).
  { split; [split; [apply map_Forall_empty|split; constructor]|reflexivity]. }
  revert H0. generalize initial_server.
  induction reqs as [|[now r] reqs IH]; intros s [Hw Hf] Hall; [done|].
  inversion Hall as [|? ? Hr Hrest]; subst. simpl. apply IH; [|done].
  split; [by apply handle_wf|].
  by destruct (handle_log_step tz now r s Hw Hf Hr).
Qed.

(** ** The report query *)

Definition newest_first (a b : ChangeLog) : Prop := log_date b <= log_date a.

Lemma insert_desc_perm l ls : Permutation (insert_desc l ls) (l :: ls).
Proof.
  induction ls as [|x ls IH]; simpl; [done|].
  case_test; [done|]. etrans; [apply perm_skip, IH|]. apply perm_swap.
Qed.

Lemma insert_desc_sorted l ls :
  Sorted newest_first ls -> Sorted newest_first (insert_desc l ls).
Proof.
  induction ls as [|x ls IH]; intros Hs; simpl; [by repeat constructor|].
  inversion Hs as [|? ? Hls Hhd]; subst.
  case_test.
  - constructor; [done|]. constructor. unfold newest_first. lia.
  - constructor; [by apply IH|].
    destruct ls as [|y ls]; simpl; [constructor; unfold newest_first; lia|].
    inversion Hhd; subst. case_test; constructor; unfold newest_first in *; lia.
Qed.

Lemma fold_insert_desc_spec ls :
  Sorted newest_first (fold_right insert_desc [] ls) /\
  Permutation (fold_right insert_desc [] ls) ls.
Proof.
  induction ls as [|l r [IHs IHp]]; simpl; [split; [apply Sorted_nil | apply perm_nil]|].
  split; [by apply insert_desc_sorted|].
  etrans; [apply insert_desc_perm|]. by apply perm_skip.
Qed.

Lemma sort_desc_spec ls :
  Sorted newest_first (sort_desc ls) /\ Permutation (sort_desc ls) ls.
Proof.
  unfold sort_desc. destruct (fold_insert_desc_spec (rev ls)) as [Hs Hp].
  split; [done|]. etrans; [exact Hp|]. apply Permutation_sym, Permutation_rev.
Qed.

(** The report query returns the change-log records inside its date window,
    each exactly once, sorted newest first. *)
Theorem logs_query_spec tz year month ls :
  Sorted newest_first (logs_query tz year month ls) /\
  Permutation (logs_query tz year month ls) (List.filter (log_in_window tz year month) ls).
Proof. apply sort_desc_spec. Qed.

Lemma Day_local_offset tz D delta :
  0 <= delta < msPerDay ->
  Day (LocalTime tz (UTC tz (MakeDate D 0) + delta)) = D.
Proof.
  intros Hd. unfold Day, LocalTime, UTC, MakeDate.
  replace (D * msPerDay + 0 - tz * msPerMinute + delta + tz * msPerMinute)
    with (delta + D * msPerDay) by lia.
  rewrite Z.div_add by (unfold msPerDay; lia). rewrite Z.div_small by lia. lia.
Qed.

(** C32: The report's upper bound new Date(year, month, 0) is midnight at the
    start of the month's last day, so a change made later on that day is
    left out of the month's report though its local date is in the month. *)
Theorem logs_query_drops_last_day tz year month ls l delta :
  1 <= month <= 12 -> 0 < delta < msPerDay ->
  log_date l = new_Date_local tz year (month - 1) (days_in_month year (month - 1)) + delta ->
  ~ In l (logs_query tz year month ls) /\
  getFullYear tz (log_date l) = year /\ getMonth tz (log_date l) = month - 1.
Proof.
  intros Hm Hd Hl.
  pose proof (days_in_month_bounds year (month - 1) ltac:(lia)).
  assert (Hc : local_civil tz (log_date l) =
               mk_civil year (month - 1) (days_in_month year (month - 1))).
  { unfold local_civil. rewrite Hl. unfold new_Date_local.
    rewrite Day_local_offset by lia. apply civil_of_MakeDay; lia. }
  unfold getFullYear, getMonth. rewrite Hc. split; [|done].
  intros Hin. destruct (sort_desc_spec (List.filter (log_in_window tz year month) ls)) as [_ Hp].
  unfold logs_query in Hin. eapply Permutation_in in Hin; [|exact Hp].
  apply List.filter_In in Hin as [_ Hw]. unfold log_in_window in Hw.
  apply andb_true_iff in Hw as [_ Hle]. apply Z.leb_le in Hle.
  revert Hle. rewrite Hl.
  replace (new_Date_local tz year month 0)
    with (new_Date_local tz year (month - 1) (days_in_month year (month - 1))); [lia|].
  rewrite <- new_Date_day_zero by lia. by replace (month - 1 + 1) with month by lia.
Qed.

(** ** The month query *)

Lemma entries_of_month_spec tz year month es e :
  In e (entries_of_month tz year month es) <->
  (exists k, es !! k = Some e) /\ in_month_range tz year month (dateKey e) = true.
Proof.
  unfold entries_of_month. rewrite List.filter_In. split.
  - intros [Hin Hr]. split; [|done]. apply in_map_iff in Hin as ([k e'] & <- & Hin).
    exists k. apply elem_of_map_to_list. by apply list_elem_of_In.
  - intros [[k Hk] Hr]. split; [|done]. apply in_map_iff. exists (k, e). split; [done|].
    apply list_elem_of_In. by apply elem_of_map_to_list.
Qed.

(** GET /api/calendar/:year/:month answers 200 and returns a stored entry
    of a client-built key exactly when the key's year and month are the
    requested ones. *)
Theorem get_month_exact tz year month s y m d e :
  1000 <= year <= 9999 -> 1 <= month <= 12 ->
  1000 <= y <= 9999 -> 0 <= m <= 11 -> 1 <= d <= days_in_month y m ->
  entries_keyed (entries s) -> entries s !! client_dateKey y m d = Some e ->
  get_month tz year month s =
  (Ok (mkResponse 200 (PEntries (entries_of_month tz year month (entries s)))), s) /\
  (In e (entries_of_month tz year month (entries s)) <-> y = year /\ m + 1 = month).
Proof.
  intros Hyr Hmo Hy Hm Hd Hw He. split; [reflexivity|].
  rewrite entries_of_month_spec. rewrite (Hw _ _ He).
  rewrite in_month_range_key by done.
  rewrite andb_true_iff, !Z.eqb_eq. split; [tauto|]. intros H. split; [by eauto|done].
Qed.

(** ** Witnesses *)

Definition key_0918 : string := "2025-09-18".
Definition body_ana : EntryBody :=
  mkBody (Some key_0918) (Some "Ana") None None (Some "Bob") None.
Definition body_phone : EntryBody :=
  mkBody (Some key_0918) None None (Some "555-1234") (Some "Bob") None.

Lemma entries_keyed_empty : entries_keyed ∅.
Proof. apply map_Forall_empty. Qed.

(** The scenario of the specification: a first [PUT] creates the entry with
    the name, a second adds the phone and keeps the name. *)
Lemma put_calendar_spec_witness :
  let s1 := snd (put_calendar 1000 key_0918 body_ana initial_server) in
  put_calendar 1000 key_0918 body_ana initial_server =
  (Ok (mkResponse 200 (PEntry (upserted initial_server key_0918 body_ana))), s1) /\
  upserted s1 key_0918 body_phone =
  mkEntry 0 key_0918 (Some "Ana") None (Some "555-1234") (Some "Bob") [].
Proof.
  split.
  - rewrite (put_calendar_spec 1000 key_0918 body_ana "Bob" initial_server);
      [reflexivity | apply entries_keyed_empty | right; reflexivity | discriminate
      | reflexivity | discriminate].
  - reflexivity.
Defined.

Lemma put_calendar_no_editor_witness :
  put_calendar 1000 key_0918 (mkBody (Some key_0918) (Some "Ana") None None None None)
    initial_server =
  (Ok (mkResponse 400 (PError (ValidationError "user"))),
   upsert_state initial_server key_0918 (mkBody (Some key_0918) (Some "Ana") None None None None)).
Proof.
  apply put_calendar_no_editor; [apply entries_keyed_empty | right; reflexivity | reflexivity].
Defined.

Lemma put_calendar_idempotent_witness :
  let s1 := snd (put_calendar 1000 key_0918 body_ana initial_server) in
  put_calendar 2000 key_0918 body_ana s1 =
  (Ok (mkResponse 200 (PEntry (upserted initial_server key_0918 body_ana))),
   set_outbox (outbox s1 ++ [EvEntryUpdated (upserted initial_server key_0918 body_ana)])
     (set_logs (logs s1 ++ [mkLog 2000 "Bob" AUpdate key_0918
                              (Some (upserted initial_server key_0918 body_ana))
                              (Some (upserted initial_server key_0918 body_ana))]) s1)).
Proof.
  apply put_calendar_idempotent; [apply entries_keyed_empty | right; reflexivity | discriminate
                                  | reflexivity | discriminate].
Defined.

Lemma delete_calendar_absent_witness :
  delete_calendar 1000 key_0918 initial_server =
  (Ok (mkResponse 404 (PMessage "Entrada no encontrada")), initial_server).
Proof. apply delete_calendar_absent. reflexivity. Defined.

Lemma delete_calendar_present_witness :
  let s1 := snd (put_calendar 1000 key_0918 body_ana initial_server) in
  delete_calendar 2000 key_0918 s1 =
  (Ok (mkResponse 200 (PMessage "Entrada eliminada")),
   set_outbox (outbox s1 ++ [EvEntryDeleted key_0918])
     (set_logs (logs s1 ++ [mkLog 2000 "unknown" ADelete key_0918
                              (Some (upserted initial_server key_0918 body_ana)) None])
        (set_entries (delete key_0918 (entries s1)) s1))).
Proof. apply delete_calendar_present; [reflexivity | discriminate]. Defined.

Lemma post_calendar_taken_witness :
  let s1 := snd (put_calendar 1000 key_0918 body_ana initial_server) in
  post_calendar 2000 body_phone s1 =
  (Ok (mkResponse 400 (PError (DuplicateKey "dateKey"))), set_next_id (S (next_id s1)) s1).
Proof.
  apply (post_calendar_taken 2000 body_phone key_0918
           (upserted initial_server key_0918 body_ana)); [reflexivity | discriminate | reflexivity].
Defined.

Lemma post_calendar_fresh_witness :
  post_calendar 1000 body_ana initial_server =
  (Ok (mkResponse 201 (PEntry (mkEntry 0 key_0918 (Some "Ana") None None (Some "Bob") []))),
   set_outbox (outbox initial_server ++
               [EvEntryUpdated (mkEntry 0 key_0918 (Some "Ana") None None (Some "Bob") [])])
     (set_logs (logs initial_server ++
                [mkLog 1000 "Bob" ACreate key_0918 None
                   (Some (mkEntry 0 key_0918 (Some "Ana") None None (Some "Bob") []))])
        (set_entries (<[key_0918 := mkEntry 0 key_0918 (Some "Ana") None None (Some "Bob") []]>
                        (entries initial_server))
           (set_next_id (S (next_id initial_server)) initial_server)))).
Proof.
  apply (post_calendar_fresh 1000 body_ana key_0918 "Bob");
    [reflexivity | discriminate | reflexivity | reflexivity | discriminate].
Defined.

Lemma handle_log_faithful_witness :
  log_faithful (snd (handle 120 1000 (ReqPutEntry key_0918 body_ana) initial_server)) /\
  List.length (logs (snd (handle 120 1000 (ReqPutEntry key_0918 body_ana) initial_server))) =
  (List.length (logs initial_server) +
   if is_entry_write (ReqPutEntry key_0918 body_ana) &&
      acknowledged (fst (handle 120 1000 (ReqPutEntry key_0918 body_ana) initial_server))
   then 1 else 0)%nat.
Proof.
  apply handle_log_faithful.
  - split; [apply entries_keyed_empty | split; constructor].
  - reflexivity.
  - split; [right; reflexivity|]. split; [discriminate|]. exists "Bob". split; [reflexivity|discriminate].
Defined.

(** A client session: create the entry, add the phone, delete it. *)
Definition session_reqs : list (Z * Request) :=
  [(1000, ReqPutEntry key_0918 body_ana); (2000, ReqPutEntry key_0918 body_phone);
   (3000, ReqDeleteEntry key_0918)].

Lemma run_log_faithful_witness :
  wf (run 120 session_reqs initial_server) /\ log_faithful (run 120 session_reqs initial_server).
Proof.
  apply run_log_faithful. unfold session_reqs.
  repeat constructor; simpl; try discriminate;
    first [ right; reflexivity | exists "Bob"; split; [reflexivity|discriminate] ].
Defined.

Lemma logs_query_drops_last_day_witness :
  let l := mkLog (new_Date_local 120 2025 8 30 + 3600000) "Bob" AUpdate key_0918 None None in
  ~ In l (logs_query 120 2025 9 [l]) /\
  getFullYear 120 (log_date l) = 2025 /\ getMonth 120 (log_date l) = 9 - 1.
Proof.
  apply (logs_query_drops_last_day 120 2025 9 _ _ 3600000); [lia | unfold msPerDay; lia |].
  reflexivity.
Defined.

Lemma get_month_exact_witness :
  let s1 := snd (put_calendar 1000 key_0918 body_ana initial_server) in
  get_month 120 2025 9 s1 =
  (Ok (mkResponse 200 (PEntries (entries_of_month 120 2025 9 (entries s1)))), s1) /\
  (In (upserted initial_server key_0918 body_ana) (entries_of_month 120 2025 9 (entries s1)) <->
   2025 = 2025 /\ 8 + 1 = 9).
Proof.
  apply (get_month_exact 120 2025 9 _ 2025 8 18); try by_compute.
  all: apply map_Forall_insert_2; [reflexivity | apply entries_keyed_empty].
Defined.

Lemma handle_preserves_wf_witness :
  wf (snd (handle 120 2000 (ReqPutEntry key_0918 body_phone)
             (snd (handle 120 1000 (ReqPutEntry key_0918 body_ana) initial_server)))).
Proof.
  apply handle_preserves_wf, handle_preserves_wf.
  split; [apply entries_keyed_empty | split; constructor].
Defined.

End Store.
