(* ===== verification/Schema.v ===== *)
(** * The documents the store holds conform to their schemas ([src/server.js], lines 67-98)

    Mongoose validates a document when it is saved: [userSchema] requires a
    [name] and an [identifier], [changeLogSchema] requires a [user] and an
    [entryDateKey] and restricts [action] to its enum (the type [Action]).
    Each route also fixes which snapshots its change-log record carries:
    [POST] logs no [previousData] and the new entry, [PUT] the entry it
    wrote (its [previousData] is whatever [findOne] found, possibly
    nothing), [DELETE] the removed entry and no [newData].  [schema_ok] is
    this typing of the [users] and [logs] collections; every route keeps
    it. *)

From stdpp Require Import base gmap strings list.
From Stdlib Require Import ZArith Lia String.
From S2P Require Import Prelude Store.

Module Schema.
Import Store.
Local Open Scope cuad_scope.

Definition log_shape (a : Action) (prev next : option Entry) : Prop :=
  match a with
  | ACreate => prev = None /\ is_Some next
  | AUpdate => is_Some next
  | ADelete => is_Some prev /\ next = None
  end.

Definition log_typed (l : ChangeLog) : Prop :=
  log_user l <> "" /\ log_entryDateKey l <> "" /\
  log_shape (log_action l) (log_previousData l) (log_newData l).

Definition user_typed (u : User) : Prop := user_name u <> "" /\ user_identifier u <> "".

Definition schema_ok (s : Server) : Prop := Forall log_typed (logs s) /\ Forall user_typed (users s).

(** ** Calls that write neither users, logs nor the outbox *)

Section Docs.
Variables (L : list ChangeLog) (U : list User) (O : list Event).

Definition docs_at (s : Server) : Prop := logs s = L /\ users s = U /\ outbox s = O.

Lemma fresh_id_docs : se_preserves docs_at fresh_id.
Proof. intros s Hs. exact Hs. Qed.

Lemma required_docs p v : se_preserves docs_at (required p v).
Proof. unfold required. destruct v; [case_match|]; auto with cuad. Qed.

Lemma find_entry_docs k : se_preserves docs_at (find_entry k).
Proof. intros s Hs. exact Hs. Qed.

Lemma store_entry_docs k e : se_preserves docs_at (store_entry k e).
Proof. intros s Hs. unfold store_entry. case_test; [done|]. by case_match. Qed.

Lemma find_one_and_update_docs k b : se_preserves docs_at (find_one_and_update k b).
Proof.
  unfold find_one_and_update. preserve; auto using find_entry_docs, fresh_id_docs, store_entry_docs with cuad.
Qed.

Lemma entry_create_docs b : se_preserves docs_at (entry_create b).
Proof.
  unfold entry_create. preserve; auto using fresh_id_docs, required_docs.
  intros s Hs. by case_match.
Qed.

Lemma find_one_and_delete_docs k : se_preserves docs_at (find_one_and_delete k).
Proof. intros s Hs. unfold find_one_and_delete. by case_match. Qed.

End Docs.

#[export] Hint Resolve fresh_id_docs required_docs find_entry_docs store_entry_docs
  find_one_and_update_docs entry_create_docs find_one_and_delete_docs : cuad.

(** ** The schema invariant *)

(** A call that writes none of the three keeps every property of them. *)
Lemma docs_frame {A} (P : Server -> Prop) (m : Db A) :
  (forall L U O, se_preserves (docs_at L U O) m) ->
  (forall s s', logs s' = logs s -> users s' = users s -> outbox s' = outbox s -> P s -> P s') ->
  se_preserves P m.
Proof.
  intros H HP s Hs.
  destruct (H (logs s) (users s) (outbox s) s (conj eq_refl (conj eq_refl eq_refl))) as (Hl & Hu & Ho).
  by apply (HP s).
Qed.

Lemma docs_schema {A} (m : Db A) :
  (forall L U O, se_preserves (docs_at L U O) m) -> se_preserves schema_ok m.
Proof. intros H. apply (docs_frame _ _ H). unfold schema_ok. by intros s s' -> -> _. Qed.

Lemma emit_schema ev : se_preserves schema_ok (emit ev).
Proof. apply se_modify_preserves. intros s Hs. exact Hs. Qed.

(** [log.save()] of a record whose snapshots fit its action: the required
    validators make its user and key non-empty. *)
Lemma log_save_schema now u a k p n :
  log_shape a p n -> se_preserves schema_ok (log_save now u a k p n).
Proof.
  intros Hsh s [Hl Hu]. unfold log_save, required, se_bind, se_modify, se_throw, se_ret.
  destruct u as [u|]; [|by split]. destruct (String.eqb_spec u "") as [|Hu']; [by split|].
  destruct k as [k|]; [|by split]. destruct (String.eqb_spec k "") as [|Hk]; [by split|].
  simpl. split; [|done]. apply Forall_app. split; [done|]. repeat constructor; done.
Qed.

Lemma user_validate_state id b s : snd (user_validate id b s) = s.
Proof.
  unfold user_validate, required, se_bind, se_ret, se_throw.
  destruct (ub_name b) as [n|]; simpl; [destruct (String.eqb n "")|]; simpl; try done.
  destruct (ub_identifier b) as [i|]; simpl; [destruct (String.eqb i "")|]; simpl; try done.
  destruct (ub_role b) as [r|]; simpl; [destruct (role_of_string r)|]; done.
Qed.

Lemma user_validate_typed id b s u s' : user_validate id b s = (Ok u, s') -> user_typed u.
Proof.
  unfold user_validate, required, se_bind, se_ret, se_throw.
  destruct (ub_name b) as [n|]; [|done]. destruct (String.eqb_spec n "") as [|Hn]; [done|].
  destruct (ub_identifier b) as [i|]; [|done]. destruct (String.eqb_spec i "") as [|Hi]; [done|].
  repeat case_match; intros [= <- <-]; done.
Qed.

Lemma user_insert_schema u : user_typed u -> se_preserves schema_ok (user_insert u).
Proof.
  intros Hu s [Hl Hus]. unfold user_insert. repeat case_match; try by split.
  split; [done|]. simpl. apply Forall_app. by split; [|constructor].
Qed.

Lemma post_user_schema b : se_preserves schema_ok (post_user b).
Proof.
  intros s Hs. unfold post_user, se_bind, se_catch, fresh_id. simpl.
  set (s1 := set_next_id (S (next_id s)) s).
  assert (Hs1 : schema_ok s1) by exact Hs.
  pose proof (user_validate_state (next_id s) b s1) as Hst.
  destruct (user_validate (next_id s) b s1) as [[u|e] s2] eqn:E; simpl in Hst; subst s2; [|done].
  pose proof (user_validate_typed _ _ _ _ _ E) as Hu.
  pose proof (user_insert_schema u Hu s1 Hs1) as Hi.
  destruct (user_insert u s1) as [[[]|e] s3]; simpl in *; [|done]. done.
Qed.

Lemma delete_user_schema id : se_preserves schema_ok (delete_user id).
Proof.
  intros s [Hl Hu]. unfold delete_user. case_match; [|by split]. split; [done|]. simpl.
  apply Forall_forall. intros v Hv. apply elem_of_filter_list in Hv as [Hv _].
  by eapply Forall_forall in Hu.
Qed.

Lemma createDefaultAdmin_schema : se_preserves schema_ok createDefaultAdmin.
Proof.
  intros s Hs. unfold createDefaultAdmin. case_match; [|done].
  apply (user_insert_schema (mkUser (next_id s) "Gustavo" "3434" Admin)); [done|exact Hs].
Qed.

Ltac schema_call :=
  first [ apply log_save_schema; simpl; by eauto
        | apply emit_schema
        | apply docs_schema; intros ???; auto with cuad
        | auto with cuad ].

(** Every route keeps the users and the change log typed. *)
Lemma handle_schema tz now r : se_preserves schema_ok (handle tz now r).
Proof.
  destruct r; simpl.
  - intros s Hs. unfold login. by case_match.
  - intros s Hs. exact Hs.
  - apply post_user_schema.
  - apply delete_user_schema.
  - intros s Hs. exact Hs.
  - unfold get_entry. preserve; schema_call.
  - unfold post_calendar. preserve; schema_call.
  - unfold put_calendar. preserve; schema_call.
  - unfold delete_calendar. preserve; schema_call.
  - intros s Hs. exact Hs.
  - unfold upload. destruct f; schema_call.
Qed.

Lemma run_schema tz reqs s : schema_ok s -> schema_ok (run tz reqs s).
Proof.
  revert s. induction reqs as [|[now r] reqs IH]; intros s Hs; [done|].
  apply IH. by apply handle_schema.
Qed.

(** C21: From the start of the server (the default admin created in the empty
    database), after any sequence of requests every user has a non-empty
    name and identifier and every change-log record a non-empty user and
    entryDateKey and the snapshots its action implies (create: no
    previousData and a newData; update: a newData; delete: a previousData
    and no newData). *)
Theorem run_typed tz reqs :
  schema_ok (run tz reqs (snd (createDefaultAdmin initial_server))).
Proof.
  apply run_schema, createDefaultAdmin_schema. by split.
Qed.

End Schema.
