(* ===== verification/Client.v ===== *)
(** * The client session ([src/public/cuadrante.js])

    After login, [cuadrante.js] keeps its state in module-scope variables:
    [loggedInUser], [users], [currentMonth] (0-based), [currentYear] and
    [monthData], the entries of the displayed month by key.  The record
    [Client] holds them, with the visibility of the user modal and the
    browser's time zone [tz] (minutes east of UTC, fixed).  Every event
    listener is a function from the state to the new state and the HTTP
    requests it sends ([Store.Request]); [renderCalendar] is the request
    [ReqGetMonth] of its [loadData] followed, when the answer arrives, by
    [on_loaded].  DOM construction and [alert] messages are not modelled;
    [confirm] is an input of the handler (the user's answer). *)

From stdpp Require Import base gmap strings list.
From Stdlib Require Import ZArith Lia String Ascii.
From S2P Require Import Prelude JsDate DateKey Store.

Module Client.
Import JsDate DateKey Store.
Local Open Scope Z_scope.

Record Client := mkClient {
  me : User;
  c_users : list User;
  curMonth : Z;
  curYear : Z;
  monthData : gmap string Entry;
  userModalOpen : bool;
  tz : Z
}.

(** The [data-field] of the three editable divs of a cell. *)
Inductive Field := FName | FAddress | FPhone.

#[export] Instance Field_eq_dec : EqDecision Field.
Proof. solve_decision. Defined.

Definition set_c_users (us : list User) (c : Client) : Client :=
  mkClient (me c) us (curMonth c) (curYear c) (monthData c) (userModalOpen c) (tz c).
Definition set_monthData (md : gmap string Entry) (c : Client) : Client :=
  mkClient (me c) (c_users c) (curMonth c) (curYear c) md (userModalOpen c) (tz c).
Definition set_curMonth (m : Z) (c : Client) : Client :=
  mkClient (me c) (c_users c) m (curYear c) (monthData c) (userModalOpen c) (tz c).
Definition set_curYear (y : Z) (c : Client) : Client :=
  mkClient (me c) (c_users c) (curMonth c) y (monthData c) (userModalOpen c) (tz c).

(** [renderCalendar(currentYear, currentMonth)] starts with [loadData],
    which fetches [/api/calendar/${year}/${month + 1}]. *)
Definition render_request (c : Client) : Request := ReqGetMonth (curYear c) (curMonth c + 1).

(** ** Socket listeners (lines 505-533) *)

Definition on_userAdded (u : User) (c : Client) : Client * list Request :=
  (set_c_users (c_users c ++ [u]) c, []).

Definition on_userDeleted (id : nat) (c : Client) : Client * list Request :=
  (set_c_users (List.filter (fun u => negb (Nat.eqb (user_id u) id)) (c_users c)) c, []).

(** [const entryDate = new Date(dateKey); entryDate.getFullYear() ===
    currentYear && entryDate.getMonth() === currentMonth]; an invalid date
    gives [NaN], which equals nothing. *)
Definition in_view (c : Client) (k : string) : bool :=
  match parse_date_only k with
  | Some t => (getFullYear (tz c) t =? curYear c) && (getMonth (tz c) t =? curMonth c)
  | None => false
  end.

Definition on_entryUpdated (e : Entry) (c : Client) : Client * list Request :=
  if in_view c (dateKey e)
  then (set_monthData (<[dateKey e := e]> (monthData c)) c, [render_request c])
  else (c, []).

Definition on_entryDeleted (k : string) (c : Client) : Client * list Request :=
  if in_view c k
  then (set_monthData (delete k (monthData c)) c, [render_request c])
  else (c, []).

Definition on_event (ev : Event) (c : Client) : Client * list Request :=
  match ev with
  | EvUserAdded u => on_userAdded u c
  | EvUserDeleted id => on_userDeleted id c
  | EvEntryUpdated e => on_entryUpdated e c
  | EvEntryDeleted k => on_entryDeleted k c
  end.

(** ** Loading the month (lines 126-139) *)

(** [entries.reduce((acc, entry) => { acc[entry.dateKey] = entry; ... }, {})]. *)
Definition month_map (es : list Entry) : gmap string Entry :=
  foldl (fun acc e => <[dateKey e := e]> acc) ∅ es.

Definition on_loaded (es : list Entry) (c : Client) : Client :=
  set_monthData (month_map es) c.

(** The answer to [loadData]'s fetch: a month's entries replace
    [monthData]; any other answer (the error object of a 500) makes
    [entries.reduce] throw, which [loadData] catches without touching
    [monthData] (lines 129-137). *)
Definition on_month_response (r : outcome DbError Response) (c : Client) : Client :=
  match r with
  | Ok (mkResponse _ (PEntries es)) => on_loaded es c
  | _ => c
  end.

(** The month and year selectors (lines 379-387). *)
Definition on_month_change (m : Z) (c : Client) : Client * list Request :=
  let c' := set_curMonth m c in (c', [render_request c']).

Definition on_year_change (y : Z) (c : Client) : Client * list Request :=
  let c' := set_curYear y c in (c', [render_request c']).

(** ** Edits (lines 422-440, 443-474 and 479-498) *)

Definition set_field (f : Field) (v : string) (e : Entry) : Entry :=
  match f with
  | FName => mkEntry (entry_id e) (dateKey e) (Some v) (address e) (phone e) (editor e) (imageUrls e)
  | FAddress => mkEntry (entry_id e) (dateKey e) (name e) (Some v) (phone e) (editor e) (imageUrls e)
  | FPhone => mkEntry (entry_id e) (dateKey e) (name e) (address e) (Some v) (editor e) (imageUrls e)
  end.

Definition set_editor (n : string) (e : Entry) : Entry :=
  mkEntry (entry_id e) (dateKey e) (name e) (address e) (phone e) (Some n) (imageUrls e).

Definition set_imageUrls (us : list string) (e : Entry) : Entry :=
  mkEntry (entry_id e) (dateKey e) (name e) (address e) (phone e) (editor e) us.

(** [JSON.stringify(dayData)] of an entry held in [monthData]: its fields
    ([_id] and [__v] aside, see [Store]). *)
Definition entry_body (e : Entry) : EntryBody :=
  mkBody (Some (dateKey e)) (name e) (address e) (phone e) (editor e) (Some (imageUrls e)).

(** The object [{ dateKey, name: '', address: '', phone: '', imageUrls: [] }]
    used for a day with no entry in [monthData], after the handler has set
    its field, its images and its editor. *)
Definition fresh_body (k : string) (f : option (Field * string)) (urls : list string)
    (ed : string) : EntryBody :=
  let v g := match f with Some (g', x) => if decide (g = g') then x else "" | None => "" end in
  mkBody (Some k) (Some (v FName)) (Some (v FAddress)) (Some (v FPhone)) (Some ed) (Some urls).

(** The [blur] listener on a cell's content div of key [k] and field [f]
    holding [text]: viewers and cells without a [data-date] are ignored; an entry of [monthData] is changed
    in place (the object is shared with [monthData]) and sent; a day with no
    entry sends a fresh object that is not kept. *)
Definition on_blur (k : string) (f : Field) (text : string) (c : Client)
    : Client * list Request :=
  if decide (user_role (me c) = Viewer) then (c, [])
  else if String.eqb k "" then (c, [])
  else match monthData c !! k with
       | Some e =>
           let e' := set_editor (user_name (me c)) (set_field f text e) in
           (set_monthData (<[k := e']> (monthData c)) c, [ReqPutEntry k (entry_body e')])
       | None =>
           (c, [ReqPutEntry k (fresh_body k (Some (f, text)) [] (user_name (me c)))])
       end.

(** The [change] listener of the image input, once [/api/upload] answered
    with [url] for the day [k] stored in [imageUploadInput.dataset.date]
    (the listener returns at once when that key is empty). *)
Definition on_image_uploaded (k url : string) (c : Client) : Client * list Request :=
  if String.eqb k "" then (c, []) else
  match monthData c !! k with
  | Some e =>
      let e' := set_editor (user_name (me c)) (set_imageUrls (imageUrls e ++ [url]) e) in
      (set_monthData (<[k := e']> (monthData c)) c, [ReqPutEntry k (entry_body e')])
  | None => (c, [ReqPutEntry k (fresh_body k None [url] (user_name (me c)))])
  end.

(** [deleteImage(dateKey, url)]: [confirmed] is the answer to [confirm]. *)
Definition on_delete_image (k url : string) (confirmed : bool) (c : Client)
    : Client * list Request :=
  if decide (user_role (me c) = Viewer) then (c, [])
  else if negb confirmed then (c, [])
  else match monthData c !! k with
       | None => (c, [])
       | Some e =>
           let e' := set_editor (user_name (me c))
                       (set_imageUrls (List.filter (fun u => negb (String.eqb u url)) (imageUrls e)) e) in
           (set_monthData (<[k := e']> (monthData c)) c, [ReqPutEntry k (entry_body e')])
       end.

(** ** User management (lines 100-124, 389-420) *)

(** [String.prototype.trim] on the UTF-8 bytes of the text.  JavaScript's
    white space and line terminators are, below code 128, tab, line feed,
    vertical tab, form feed, carriage return and space ([Ascii.is_space]);
    above it U+00A0, U+1680, U+2000 to U+200A, U+2028, U+2029, U+202F,
    U+205F, U+3000 and U+FEFF, whose UTF-8 encodings are [js_space_seqs]. *)
Definition js_space_seqs : list (list N) :=
  ([[194; 160]; [225; 154; 128]] ++
  map (fun x => [226; 128; x]) [128; 129; 130; 131; 132; 133; 134; 135; 136; 137; 138; 168; 169; 175] ++
  [[226; 129; 159]; [227; 128; 128]; [239; 187; 191]])%N.

(** Drops the leading white space of [s], the multi-byte characters being
    those of [seqs]. *)
Fixpoint strip_ws (seqs : list (list N)) (s : string) : string :=
  match s with
  | EmptyString => EmptyString
  | String a r =>
      if Ascii.is_space a then strip_ws seqs r else
      match r with
      | EmptyString => s
      | String b r2 =>
          if bool_decide ([Ascii.N_of_ascii a; Ascii.N_of_ascii b] ∈ seqs) then strip_ws seqs r2 else
          match r2 with
          | EmptyString => s
          | String c r3 =>
              if bool_decide ([Ascii.N_of_ascii a; Ascii.N_of_ascii b; Ascii.N_of_ascii c] ∈ seqs)
              then strip_ws seqs r3 else s
          end
      end
  end.

Definition trim_start (s : string) : string := strip_ws js_space_seqs s.

(** The trailing white space, read backwards on the reversed bytes. *)
Definition trim (s : string) : string :=
  String.rev (strip_ws (map (@List.rev N) js_space_seqs) (String.rev (trim_start s))).

(** The [Añadir] button: both fields are required after trimming. *)
Definition on_add_user (nm ident role : string) (c : Client) : Client * list Request :=
  let n := trim nm in
  let i := trim ident in
  if String.eqb n "" || String.eqb i "" then (c, [])
  else (c, [ReqPostUser (mkUserBody (Some n) (Some i) (Some role))]).

(** [handleLogin]: an empty identifier is refused before any request. *)
Definition login_request (input : string) : option Request :=
  let i := trim input in
  if String.eqb i "" then None else Some (ReqLogin i).

(** ** Lemmas *)

Lemma Day_local_midnight tz D :
  0 <= tz < 1440 -> Day (LocalTime tz (MakeDate D 0)) = D.
Proof.
  intros Htz. unfold Day, LocalTime, MakeDate, msPerDay, msPerMinute.
  replace (D * 86400000 + 0 + tz * 60000) with (tz * 60000 + D * 86400000) by lia.
  rewrite Z.div_add by lia. rewrite Z.div_small by lia. lia.
Qed.

Lemma Day_local_midnight_west tz D :
  -1440 < tz < 0 -> Day (LocalTime tz (MakeDate D 0)) = D - 1.
Proof.
  intros Htz. unfold Day, LocalTime, MakeDate, msPerDay, msPerMinute.
  replace (D * 86400000 + 0 + tz * 60000) with ((86400000 + tz * 60000) + (D - 1) * 86400000)
    by lia.
  rewrite Z.div_add by lia. rewrite Z.div_small by lia. lia.
Qed.

(** The [blur] listener of an editor on a cell with a key. *)
Lemma on_blur_editor c k f text :
  user_role (me c) <> Viewer -> k <> "" ->
  on_blur k f text c =
    match monthData c !! k with
    | Some e =>
        let e' := set_editor (user_name (me c)) (set_field f text e) in
        (set_monthData (<[k := e']> (monthData c)) c, [ReqPutEntry k (entry_body e')])
    | None => (c, [ReqPutEntry k (fresh_body k (Some (f, text)) [] (user_name (me c)))])
    end.
Proof. intros Hr Hk. unfold on_blur. rewrite decide_False by done. by case_test. Qed.

(** ** The month filter of the socket listeners *)

(** East of UTC (or at UTC), [new Date(dateKey)] read with the local
    getters gives the key's own year and month: the listeners keep exactly
    the keys of the displayed month. *)
Theorem in_view_key_east c y m d :
  0 <= tz c < 1440 ->
  1000 <= y <= 9999 -> 0 <= m <= 11 -> 1 <= d <= days_in_month y m ->
  in_view c (client_dateKey y m d) = (y =? curYear c) && (m =? curMonth c).
Proof.
  intros Htz Hy Hm Hd. unfold in_view. rewrite parse_date_only_key by done.
  unfold getFullYear, getMonth, local_civil. rewrite Day_local_midnight by done.
  by rewrite civil_of_MakeDay.
Qed.

(** West of UTC, midnight UTC of the first of a month is still the previous
    day in local time: the entry of the first of month [m] is taken as one of
    month [m - 1], so viewers of its own month ignore its updates and
    deletions, and viewers of the month before apply them. *)
Theorem in_view_first_west c y m :
  -1440 < tz c < 0 ->
  1000 <= y <= 9999 -> 1 <= m <= 11 ->
  in_view c (client_dateKey y m 1) = (y =? curYear c) && (m - 1 =? curMonth c).
Proof.
  intros Htz Hy Hm. pose proof (days_in_month_bounds y m ltac:(lia)).
  pose proof (days_in_month_bounds y (m - 1) ltac:(lia)).
  unfold in_view. rewrite parse_date_only_key by lia.
  unfold getFullYear, getMonth, local_civil. rewrite Day_local_midnight_west by done.
  replace (MakeDay y m 1 - 1) with (MakeDay y (m - 1 + 1) 0)
    by (unfold MakeDay; replace (m - 1 + 1) with m by lia; lia).
  rewrite MakeDay_day_zero by lia. rewrite civil_of_MakeDay by lia. reflexivity.
Qed.

(** C6: West of UTC, new Date(dateKey) of the first day of a month, read with
    local getters, falls in the previous month: the listeners take the key
    of day 1 of month m for month m-1 (the New York client viewing September
    applies the broadcast for 2025-10-01). *)
Theorem in_view_first_day_west c y m :
  -1440 < tz c < 0 ->
  1000 <= y <= 9999 -> 1 <= m <= 11 ->
  in_view c (client_dateKey y m 1) = (y =? curYear c) && (m - 1 =? curMonth c).
Proof. intros; eapply in_view_first_west; eassumption. Qed.

(** ** What the client asks of the server *)

(** A viewer's blur and image-delete actions change nothing locally and
    send no request. *)
Theorem viewer_edits_inert c k f text url confirmed :
  user_role (me c) = Viewer ->
  on_blur k f text c = (c, []) /\ on_delete_image k url confirmed c = (c, []).
Proof. intros Hv. unfold on_blur, on_delete_image. by split; rewrite decide_True. Qed.

Definition edit_step (c : Client) (res : Client * list Request) : Prop :=
  entries_keyed (monthData (fst res)) /\ Forall well_behaved (snd res).

Lemma entry_body_keeps_key k e : dateKey e = k -> keeps_key k (entry_body e).
Proof. intros <-. by right. Qed.

Lemma edit_entry_well_behaved c k e :
  entries_keyed (monthData c) -> k <> "" -> user_name (me c) <> "" -> dateKey e = k ->
  edit_step c (set_monthData (<[k := set_editor (user_name (me c)) e]> (monthData c)) c,
               [ReqPutEntry k (entry_body (set_editor (user_name (me c)) e))]).
Proof.
  intros Hw Hne Hn He. split; simpl.
  - apply entries_keyed_insert; [done|]. by destruct e; simpl in *.
  - constructor; [|constructor]. split; [|split; [done|]].
    + right. simpl. by rewrite He.
    + by exists (user_name (me c)).
Qed.

(** The edit listeners (blur, image upload, image delete) keep the local
    monthData keyed by dateKey and send only PUTs that keep their non-empty
    key and name a non-empty editor, the requests under which the server
    keeps its change log faithful. *)
Theorem edits_well_behaved c k f text url confirmed :
  entries_keyed (monthData c) -> monthData c !! "" = None -> user_name (me c) <> "" ->
  edit_step c (on_blur k f text c) /\
  edit_step c (on_image_uploaded k url c) /\
  edit_step c (on_delete_image k url confirmed c).
Proof.
  intros Hw H0 Hn.
  assert (Hfresh : forall o urls, k <> "" -> Forall well_behaved
            [ReqPutEntry k (fresh_body k o urls (user_name (me c)))]).
  { intros o urls Hk. constructor; [|constructor]. split; [by right|]. split; [done|].
    by exists (user_name (me c)). }
  split; [|split].
  - unfold on_blur. case_decide; [split; [done|constructor]|].
    case_test; [split; [done|constructor]|].
    destruct (monthData c !! k) as [e|] eqn:E; [|split; [done|by apply Hfresh]].
    change (set_editor _ (set_field f text e)) with (set_editor (user_name (me c)) (set_field f text e)).
    apply (edit_entry_well_behaved c k (set_field f text e)); [done|done|done|].
    destruct f; simpl; exact (Hw k e E).
  - unfold on_image_uploaded. case_test; [split; [done|constructor]|].
    destruct (monthData c !! k) as [e|] eqn:E; [|split; [done|by apply Hfresh]].
    apply (edit_entry_well_behaved c k (set_imageUrls (imageUrls e ++ [url]) e)); try done.
    simpl. exact (Hw k e E).
  - unfold on_delete_image. case_decide; [split; [done|constructor]|].
    destruct confirmed; simpl; [|split; [done|constructor]].
    destruct (monthData c !! k) as [e|] eqn:E; [|split; [done|constructor]].
    apply (edit_entry_well_behaved c k (set_imageUrls (List.filter _ (imageUrls e)) e)); try done.
    + intros ->. congruence.
    + simpl. exact (Hw k e E).
Qed.

(** ** Witnesses *)

Definition gustavo : User := mkUser 0 "Gustavo" "3434" Admin.

(** A session in Madrid (UTC+2 in September) showing September 2025, and
    the same session in New York (UTC-4). *)
Definition madrid_sept : Client := mkClient gustavo [] 8 2025 ∅ false 120.
Definition newyork_sept : Client := mkClient gustavo [] 8 2025 ∅ false (-240).

Lemma in_view_key_east_witness :
  in_view madrid_sept (client_dateKey 2025 8 18) = true /\
  in_view madrid_sept (client_dateKey 2025 9 1) = false.
Proof.
  split.
  - rewrite (in_view_key_east madrid_sept 2025 8 18) by by_compute. reflexivity.
  - rewrite (in_view_key_east madrid_sept 2025 9 1) by by_compute. reflexivity.
Defined.

(** The specification's scenario: a client viewing September receives the
    broadcast of ["2025-10-01"]; in New York it takes it for September. *)
Lemma in_view_first_day_west_witness :
  in_view newyork_sept (client_dateKey 2025 9 1) = true.
Proof. rewrite (in_view_first_day_west newyork_sept 2025 9) by by_compute. reflexivity. Defined.

Lemma viewer_edits_inert_witness :
  let c := mkClient (mkUser 1 "Eva" "77" Viewer) [] 8 2025 ∅ false 120 in
  on_blur "2025-09-18" FName "Ana" c = (c, []) /\
  on_delete_image "2025-09-18" "/uploads/a.png" true c = (c, []).
Proof. apply viewer_edits_inert. reflexivity. Defined.

Lemma edits_well_behaved_witness :
  edit_step madrid_sept (on_blur "2025-09-18" FName "Ana" madrid_sept) /\
  edit_step madrid_sept (on_image_uploaded "2025-09-18" "/uploads/a.png" madrid_sept) /\
  edit_step madrid_sept (on_delete_image "2025-09-18" "/uploads/a.png" true madrid_sept).
Proof. apply edits_well_behaved; [apply map_Forall_empty | reflexivity | discriminate]. Defined.

End Client.
