(* ===== verification/Sync.v ===== *)
(** * Synchronisation: the server's broadcasts and the clients' month views

    The server emits an event for every acknowledged write ([io.emit], the
    [outbox] of [Store]); every connected client receives every event and
    applies it to its [monthData] only when the key falls in the displayed
    month ([Client.on_event]).  The relation [view_ok s c] says that a
    client's [monthData] is exactly the store restricted to the keys its
    filter [in_view] accepts.  This file proves that loading a month
    establishes the relation (east of UTC), that handling a request and
    delivering the events it emitted preserves it, and shows the ways the
    code loses it: a write without editor, a client west of UTC, an edit of
    an empty day made twice before the first broadcast arrives, and two
    clients editing different fields of the same day. *)

From stdpp Require Import base gmap strings list.
From Stdlib Require Import ZArith Lia String.
From S2P Require Import Prelude JsDate DateKey Store Client.

Module Sync.
Import JsDate DateKey Store Client.
Local Open Scope Z_scope.

(** The client's view mirrors the store on the keys of its month. *)
Definition view_ok (s : Server) (c : Client) : Prop :=
  forall k, monthData c !! k = if in_view c k then entries s !! k else None.

(** Delivery of events, in emission order, to one client; the reload each
    listener starts is a further [ReqGetMonth] (the loading theorem below). *)
Definition apply_events (evs : list Event) (c : Client) : Client :=
  fold_left (fun c ev => fst (on_event ev c)) evs c.

(** The events a request added to the outbox. *)
Definition new_events (s s' : Server) : list Event := drop (List.length (outbox s)) (outbox s').

Definition is_user_event (ev : Event) : bool :=
  match ev with EvUserAdded _ | EvUserDeleted _ => true | _ => false end.

(** A stored key is one the client builds for a real day. *)
Definition key_wf (k : string) : Prop :=
  exists y m d, 1000 <= y <= 9999 /\ 0 <= m <= 11 /\ 1 <= d <= days_in_month y m /\
                k = client_dateKey y m d.

(** ** Lemmas on delivery *)

Lemma in_view_set_monthData c md k : in_view (set_monthData md c) k = in_view c k.
Proof. reflexivity. Qed.

Lemma in_view_set_c_users c us k : in_view (set_c_users us c) k = in_view c k.
Proof. reflexivity. Qed.

Lemma apply_user_events evs c :
  Forall (fun ev => is_user_event ev = true) evs ->
  monthData (apply_events evs c) = monthData c /\
  (forall k, in_view (apply_events evs c) k = in_view c k).
Proof.
  revert c. induction evs as [|ev evs IH]; intros c Hall; [done|].
  inversion Hall as [|? ? Hev Hrest]; subst. simpl.
  destruct (IH (fst (on_event ev c)) Hrest) as [H1 H2]. rewrite H1.
  split; [|intros k; rewrite H2]; destruct ev; try discriminate; reflexivity.
Qed.

Lemma view_ok_updated s c e :
  view_ok s c ->
  view_ok (set_entries (<[dateKey e := e]> (entries s)) s) (fst (on_entryUpdated e c)).
Proof.
  intros Hv j. unfold on_entryUpdated. simpl.
  destruct (in_view c (dateKey e)) eqn:Hin; simpl; rewrite ?in_view_set_monthData.
  - destruct (decide (j = dateKey e)) as [->|Hne].
    + by rewrite Hin, !lookup_insert_eq.
    + rewrite !lookup_insert_ne by congruence. apply Hv.
  - destruct (decide (j = dateKey e)) as [->|Hne].
    + rewrite Hin. specialize (Hv (dateKey e)). by rewrite Hin in Hv.
    + rewrite lookup_insert_ne by congruence. apply Hv.
Qed.

Lemma view_ok_deleted s c k :
  view_ok s c ->
  view_ok (set_entries (delete k (entries s)) s) (fst (on_entryDeleted k c)).
Proof.
  intros Hv j. unfold on_entryDeleted. simpl.
  destruct (in_view c k) eqn:Hin; simpl; rewrite ?in_view_set_monthData.
  - destruct (decide (j = k)) as [->|Hne].
    + rewrite Hin, !lookup_delete_eq. done.
    + rewrite !lookup_delete_ne by congruence. apply Hv.
  - destruct (decide (j = k)) as [->|Hne].
    + rewrite Hin. specialize (Hv k). by rewrite Hin in Hv.
    + rewrite lookup_delete_ne by congruence. apply Hv.
Qed.

Lemma view_ok_same_entries s s' c :
  entries s' = entries s -> view_ok s c -> view_ok s' c.
Proof. intros He Hv k. rewrite He. apply Hv. Qed.

Lemma new_events_snoc s s' ev :
  outbox s' = outbox s ++ [ev] -> new_events s s' = [ev].
Proof. unfold new_events. intros ->. apply drop_app_length. Qed.

Lemma new_events_same s s' : outbox s' = outbox s -> new_events s s' = [].
Proof. unfold new_events. intros ->. apply drop_all. Qed.

(** What the user and read routes do to the outbox: they add user events
    only, and leave the entries alone. *)
Definition user_outbox (O : list Event) (E : gmap string Entry) (s : Server) : Prop :=
  entries s = E /\ exists l, outbox s = O ++ l /\ Forall (fun ev => is_user_event ev = true) l.

Lemma emit_user_outbox O E ev :
  is_user_event ev = true -> se_preserves (user_outbox O E) (emit ev).
Proof.
  intros Hev. apply se_modify_preserves. intros s [He (l & Hl & Hf)]. split; [done|].
  exists (l ++ [ev]). simpl. rewrite Hl, app_assoc. split; [done|].
  apply Forall_app. split; [done|]. by constructor.
Qed.

Lemma user_routes_outbox tz now r O E :
  is_entry_write r = false -> se_preserves (user_outbox O E) (handle tz now r).
Proof.
  assert (Hr : forall code p, se_preserves (user_outbox O E) (respond code p))
    by (intros; apply respond_preserves).
  assert (Hq : forall p v, se_preserves (user_outbox O E) (required p v)).
  { intros p v. unfold required. destruct v; [case_match|]; auto with cuad. }
  assert (Hv : forall id b, se_preserves (user_outbox O E) (user_validate id b)).
  { intros id b. unfold user_validate. preserve; auto with cuad. }
  destruct r; simpl; intros Hw; try discriminate.
  - intros s Hs. unfold login. by destruct (List.find _ _).
  - intros s Hs. exact Hs.
  - unfold post_user. preserve; auto; [intros s Hs; exact Hs| |].
    + intros s Hs. unfold user_insert. by repeat case_match.
    + by apply emit_user_outbox.
  - intros s Hs. unfold delete_user. destruct (List.find _ _); [|done].
    apply (emit_user_outbox O E (EvUserDeleted _)); [done|]. exact Hs.
  - intros s Hs. exact Hs.
  - unfold get_entry. preserve; auto; intros s Hs; exact Hs.
  - intros s Hs. exact Hs.
  - unfold upload. destruct f; auto.
Qed.

Lemma view_ok_ext s s' c c' :
  entries s' = entries s -> monthData c' = monthData c ->
  (forall k, in_view c' k = in_view c k) -> view_ok s c -> view_ok s' c'.
Proof. intros He Hm Hi Hv k. rewrite He, Hm, Hi. apply Hv. Qed.

Lemma view_ok_entries_eq s s' c :
  entries s' = entries s -> view_ok s c -> view_ok s' c.
Proof. intros He. apply view_ok_ext; auto. Qed.

Lemma apply_one_updated s s' c e :
  view_ok s c -> outbox s' = outbox s ++ [EvEntryUpdated e] ->
  entries s' = <[dateKey e := e]> (entries s) ->
  view_ok s' (apply_events (new_events s s') c).
Proof.
  intros Hv Ho He. rewrite (new_events_snoc s s' _ Ho). simpl.
  eapply view_ok_entries_eq; [|apply (view_ok_updated s c e Hv)]. by rewrite He.
Qed.

Lemma apply_one_deleted s s' c k :
  view_ok s c -> outbox s' = outbox s ++ [EvEntryDeleted k] ->
  entries s' = delete k (entries s) ->
  view_ok s' (apply_events (new_events s s') c).
Proof.
  intros Hv Ho He. rewrite (new_events_snoc s s' _ Ho). simpl.
  eapply view_ok_entries_eq; [|apply (view_ok_deleted s c k Hv)]. by rewrite He.
Qed.

Lemma apply_none s s' c :
  view_ok s c -> outbox s' = outbox s -> entries s' = entries s ->
  view_ok s' (apply_events (new_events s s') c).
Proof. intros Hv Ho He. rewrite (new_events_same s s' Ho). by apply (view_ok_entries_eq s). Qed.

(** ** Broadcast keeps the views in sync *)

(** A client whose month view mirrors the store still mirrors it after the
    server handles any request the client side sends and the client receives
    the events that request broadcast: every acknowledged entry write is
    broadcast with the entry as stored and the listeners apply exactly the
    keys of the displayed month. *)
Theorem sync_step tz now r s c :
  wf s -> view_ok s c -> well_behaved r ->
  view_ok (snd (handle tz now r s)) (apply_events (new_events s (snd (handle tz now r s))) c).
Proof.
  intros [Hw Hu] Hv Hr. destruct (is_entry_write r) eqn:Ew.
  - destruct r; try discriminate; simpl in Hr |- *.
    + destruct Hr as (u & He & Hu').
      destruct (b_dateKey b) as [k|] eqn:Ek; [destruct (String.eqb_spec k "") as [->|Hk]|].
      * rewrite post_calendar_no_key by auto. by apply apply_none.
      * destruct (entries s !! k) as [e|] eqn:E.
        -- rewrite (post_calendar_taken now b k e) by done. by apply apply_none.
        -- rewrite (post_calendar_fresh now b k u) by done.
           eapply apply_one_updated; [done|reflexivity|reflexivity].
      * rewrite post_calendar_no_key by auto. by apply apply_none.
    + destruct Hr as (Hk & Hne & u & He & Hu').
      rewrite (put_calendar_ok now k b u) by done.
      eapply apply_one_updated; [done|reflexivity|]. rewrite upserted_keyed by done. reflexivity.
    + destruct (entries s !! k) as [e|] eqn:E.
      * rewrite (delete_calendar_some now k e) by done.
        eapply apply_one_deleted; [done|reflexivity|reflexivity].
      * rewrite delete_calendar_none by done. by apply apply_none.
  - assert (H0 : user_outbox (outbox s) (entries s) s).
    { split; [done|]. exists []. split; [by rewrite app_nil_r | constructor]. }
    destruct (user_routes_outbox tz now r (outbox s) (entries s) Ew s H0) as [HE (l & Hl & Hf)].
    unfold new_events. rewrite Hl, drop_app_length.
    destruct (apply_user_events l c Hf) as [Hm Hi].
    eapply view_ok_ext; [exact HE|exact Hm|exact Hi|exact Hv].
Qed.

(** ** Loading a month establishes the view *)

Lemma month_map_find (es : list Entry) (acc : gmap string Entry) (k : string) :
  (forall e1 e2, In e1 es -> In e2 es -> dateKey e1 = dateKey e2 -> e1 = e2) ->
  foldl (fun acc e => <[dateKey e := e]> acc) acc es !! k =
  match List.find (fun e => String.eqb (dateKey e) k) es with
  | Some e => Some e
  | None => acc !! k
  end.
Proof.
  revert acc. induction es as [|e es IH]; intros acc Hu; simpl; [done|].
  rewrite IH by (intros e1 e2 H1 H2; apply Hu; by right).
  destruct (String.eqb_spec (dateKey e) k) as [<-|Hne].
  - destruct (List.find _ es) as [e'|] eqn:F; [|by rewrite lookup_insert_eq].
    apply List.find_some in F as [Hin Heq]. apply String.eqb_eq in Heq.
    f_equal. apply Hu; [by right|by left|done].
  - destruct (List.find _ es); [done|]. by rewrite lookup_insert_ne.
Qed.

Lemma entries_of_month_stored tz year month es e :
  entries_keyed es -> In e (entries_of_month tz year month es) -> es !! dateKey e = Some e.
Proof.
  intros Hw Hin. apply entries_of_month_spec in Hin as [[k Hk] _].
  by rewrite (Hw k e Hk).
Qed.

Lemma entries_of_month_unique tz year month es e1 e2 :
  entries_keyed es -> In e1 (entries_of_month tz year month es) ->
  In e2 (entries_of_month tz year month es) -> dateKey e1 = dateKey e2 -> e1 = e2.
Proof.
  intros Hw H1 H2 Hk. apply (entries_of_month_stored _ _ _ _ _ Hw) in H1, H2.
  rewrite Hk in H1. congruence.
Qed.

(** The [monthData] built from the month's answer is the store on the keys
    of the displayed month. *)
Lemma month_map_view tzs s c k :
  entries_keyed (entries s) -> (forall k e, entries s !! k = Some e -> key_wf k) ->
  0 <= tz c < 1440 -> 1000 <= curYear c <= 9999 -> 0 <= curMonth c <= 11 ->
  month_map (entries_of_month tzs (curYear c) (curMonth c + 1) (entries s)) !! k =
    if in_view c k then entries s !! k else None.
Proof.
  intros Hw Hkeys Htz Hy Hm. unfold month_map.
  set (L := entries_of_month tzs (curYear c) (curMonth c + 1) (entries s)).
  rewrite month_map_find by (intros; eapply entries_of_month_unique; eauto).
  rewrite lookup_empty.
  assert (Hmember : forall e, entries s !! k = Some e ->
            (In e L <-> in_view c k = true)).
  { intros e He. destruct (Hkeys k e He) as (y & m & d & Hy' & Hm' & Hd & ->).
    unfold L. rewrite entries_of_month_spec, (Hw _ e He).
    rewrite in_month_range_key, in_view_key_east by (auto; lia).
    rewrite !andb_true_iff, !Z.eqb_eq. split.
    - intros [_ [H1 H2]]. split; [done|lia].
    - intros [H1 H2]. split; [by eauto|]. split; [done|lia]. }
  destruct (List.find _ L) as [e'|] eqn:F.
  - apply List.find_some in F as [Hin Heq]. apply String.eqb_eq in Heq. subst k.
    pose proof (entries_of_month_stored _ _ _ _ _ Hw Hin) as Hs.
    by rewrite (proj1 (Hmember e' Hs) Hin), Hs.
  - destruct (in_view c k) eqn:Hiv; [|done].
    destruct (entries s !! k) as [e|] eqn:He; [|done].
    pose proof (proj2 (Hmember e eq_refl) eq_refl) as Hin.
    pose proof (List.find_none _ _ F e Hin) as Hf. simpl in Hf.
    rewrite (Hw k e He) in Hf. by rewrite String.eqb_refl in Hf.
Qed.

(** C8: East of UTC, loading the displayed month (GET of year/month+1, then
    monthData built from the answer) makes the view mirror exactly the
    stored entries whose keys the socket listeners count as the displayed
    month. *)
Theorem load_view_ok tzs s c :
  entries_keyed (entries s) -> (forall k e, entries s !! k = Some e -> key_wf k) ->
  0 <= tz c < 1440 -> 1000 <= curYear c <= 9999 -> 0 <= curMonth c <= 11 ->
  view_ok s (on_loaded (entries_of_month tzs (curYear c) (curMonth c + 1) (entries s)) c).
Proof.
  intros Hw Hkeys Htz Hy Hm k. unfold on_loaded. rewrite in_view_set_monthData.
  by apply month_map_view.
Qed.

(** Loading the displayed month makes the view mirror the store. *)
Lemma month_reload_view_ok tzs s c :
  entries_keyed (entries s) -> (forall k e, entries s !! k = Some e -> key_wf k) ->
  0 <= tz c < 1440 -> 1000 <= curYear c <= 9999 -> 0 <= curMonth c <= 11 ->
  view_ok s (on_loaded (entries_of_month tzs (curYear c) (curMonth c + 1) (entries s)) c).
Proof.
  intros Hw Hkeys Htz Hy Hm k. unfold on_loaded. rewrite in_view_set_monthData.
  by apply month_map_view.
Qed.

(** ** How the views drift *)

Lemma client_dateKey_nonempty y m d :
  1000 <= y <= 9999 -> 0 <= m <= 11 -> 1 <= d <= 31 -> client_dateKey y m d <> "".
Proof. intros. rewrite client_dateKey_key_of by done. unfold key_of. by rewrite digits_w_4. Qed.

Lemma month_map_lookup_in es e :
  (forall e1 e2, In e1 es -> In e2 es -> dateKey e1 = dateKey e2 -> e1 = e2) ->
  In e es -> month_map es !! dateKey e = Some e.
Proof.
  intros Hu Hin. unfold month_map. rewrite month_map_find by done.
  destruct (List.find _ es) as [e'|] eqn:F.
  - apply List.find_some in F as [Hin' Heq]. apply String.eqb_eq in Heq. f_equal. by apply Hu.
  - pose proof (List.find_none _ _ F e Hin) as Hf. simpl in Hf.
    by rewrite String.eqb_refl in Hf.
Qed.

(** A stored entry of a client key of the month is in the loaded view. *)
Lemma loaded_entry tzs s c y m d e :
  entries_keyed (entries s) -> 1000 <= y <= 9999 -> 0 <= m <= 11 -> 1 <= d <= days_in_month y m ->
  entries s !! client_dateKey y m d = Some e ->
  monthData (on_loaded (entries_of_month tzs y (m + 1) (entries s)) c) !! client_dateKey y m d = Some e.
Proof.
  intros Hw Hy Hm Hd He. simpl. rewrite <- (Hw _ e He) at 1. apply month_map_lookup_in.
  - intros e1 e2. by apply entries_of_month_unique.
  - apply entries_of_month_spec. split; [by eauto|]. rewrite (Hw _ e He).
    rewrite in_month_range_key by lia. rewrite !Z.eqb_refl. done.
Qed.

(** C25: West of UTC, a client that loaded a month holding an entry on its first
    day keeps showing that entry after another session deletes it: the
    deletion is broadcast but the listener counts the key as the previous
    month and ignores it. *)
Theorem west_deleted_entry_stays tzs now s c0 y m e :
  entries_keyed (entries s) -> -1440 < tz c0 < 0 ->
  1000 <= y <= 9999 -> 1 <= m <= 11 -> curYear c0 = y -> curMonth c0 = m ->
  entries s !! client_dateKey y m 1 = Some e ->
  let c := on_loaded (entries_of_month tzs y (m + 1) (entries s)) c0 in
  let s' := snd (handle tzs now (ReqDeleteEntry (client_dateKey y m 1)) s) in
  monthData c !! client_dateKey y m 1 = Some e /\
  entries s' !! client_dateKey y m 1 = None /\
  monthData (apply_events (new_events s s') c) !! client_dateKey y m 1 = Some e.
Proof.
  intros Hw Htz Hy Hm Hcy Hcm He c s'.
  pose proof (days_in_month_bounds y m ltac:(lia)).
  pose proof (client_dateKey_nonempty y m 1 ltac:(lia) ltac:(lia) ltac:(lia)) as Hne.
  assert (Hc : monthData c !! client_dateKey y m 1 = Some e)
    by (subst c; apply loaded_entry; auto; lia).
  assert (Hs' : s' = set_outbox (outbox s ++ [EvEntryDeleted (client_dateKey y m 1)])
                  (set_logs (logs s ++ [mkLog now "unknown" ADelete (client_dateKey y m 1)
                                          (Some e) None])
                     (set_entries (delete (client_dateKey y m 1) (entries s)) s))).
  { subst s'. simpl. by rewrite (delete_calendar_some now _ e s He Hne). }
  split; [done|]. split; [rewrite Hs'; apply lookup_delete_eq|].
  rewrite (new_events_snoc s s' _) by (rewrite Hs'; reflexivity). simpl.
  unfold on_entryDeleted.
  replace (in_view c (client_dateKey y m 1)) with false; [done|].
  subst c. unfold on_loaded. rewrite in_view_set_monthData, in_view_first_west by lia.
  rewrite Hcy, Hcm, Z.eqb_refl. symmetry. apply Z.eqb_neq. lia.
Qed.

(** C26: If the user switches month before the first month's answer arrived and
    the answers arrive in reverse order, the session shows the new month
    with the old month's entries and its view no longer mirrors the store. *)
Theorem out_of_order_loads tzs now1 now2 s c mB d e :
  entries_keyed (entries s) -> 0 <= tz c < 1440 ->
  1000 <= curYear c <= 9999 -> 0 <= curMonth c <= 11 -> curMonth c <> mB ->
  1 <= d <= days_in_month (curYear c) (curMonth c) ->
  entries s !! client_dateKey (curYear c) (curMonth c) d = Some e ->
  let c1 := fst (on_month_change mB c) in
  let c2 := on_month_response (fst (handle tzs now2 (render_request c1) s)) c1 in
  let c3 := on_month_response (fst (handle tzs now1 (render_request c) s)) c2 in
  curMonth c3 = mB /\
  monthData c3 !! client_dateKey (curYear c) (curMonth c) d = Some e /\
  ~ view_ok s c3.
Proof.
  intros Hw Htz Hy Hm Hne Hd He c1 c2 c3.
  assert (Hc3 : monthData c3 !! client_dateKey (curYear c) (curMonth c) d = Some e)
    by (apply loaded_entry; auto).
  split; [reflexivity|]. split; [exact Hc3|]. intros Hv.
  specialize (Hv (client_dateKey (curYear c) (curMonth c) d)). rewrite Hc3 in Hv.
  subst c3 c2 c1. simpl in Hv. rewrite in_view_key_east in Hv by (simpl; auto; lia).
  simpl in Hv. rewrite Z.eqb_refl in Hv. simpl in Hv.
  destruct (Z.eqb_spec (curMonth c) mB); [done|discriminate].
Qed.

(** C31: On a day with no entry, blurring the name and then the phone sends two
    fresh records, the second with an empty name, so the stored entry ends
    with name '' and the name typed first is lost. *)
Theorem empty_day_edits_overwrite tzs now1 now2 s c k n p :
  entries_keyed (entries s) -> k <> "" -> monthData c !! k = None ->
  user_role (me c) <> Viewer -> user_name (me c) <> "" ->
  exists b1 b2,
    on_blur k FName n c = (c, [ReqPutEntry k b1]) /\
    on_blur k FPhone p c = (c, [ReqPutEntry k b2]) /\
    exists e, entries (run tzs [(now1, ReqPutEntry k b1); (now2, ReqPutEntry k b2)] s) !! k = Some e /\
              name e = Some "" /\ phone e = Some p.
Proof.
  intros Hw Hk Hnone Hrole Hname.
  set (b1 := fresh_body k (Some (FName, n)) [] (user_name (me c))).
  set (b2 := fresh_body k (Some (FPhone, p)) [] (user_name (me c))).
  exists b1, b2. rewrite !on_blur_editor by done. rewrite Hnone.
  split; [reflexivity|]. split; [reflexivity|]. unfold run. simpl.
  rewrite (put_calendar_ok now1 k b1 (user_name (me c))) by (done || by right). simpl.
  rewrite (put_calendar_ok now2 k b2 (user_name (me c))).
  - simpl. eexists. split; [apply lookup_insert_eq|]. split; reflexivity.
  - simpl. apply entries_keyed_insert; [done|]. by apply upserted_keyed; [|right].
  - by right.
  - done.
  - reflexivity.
  - done.
Qed.

(** C24: Two editors showing the same entry edit different fields: each blur
    sends its whole cached record, so after both PUTs the stored entry has
    the second editor's field and the first editor's change is lost (the old
    value is back). *)
Theorem concurrent_edits_lose_field tzs now1 now2 s ca cb k e n0 na pb :
  entries_keyed (entries s) -> k <> "" -> entries s !! k = Some e ->
  monthData ca !! k = Some e -> monthData cb !! k = Some e -> name e = Some n0 ->
  user_role (me ca) <> Viewer -> user_role (me cb) <> Viewer ->
  user_name (me ca) <> "" -> user_name (me cb) <> "" ->
  exists ra rb ca' cb',
    on_blur k FName na ca = (ca', [ra]) /\ on_blur k FPhone pb cb = (cb', [rb]) /\
    exists e', entries (run tzs [(now1, ra); (now2, rb)] s) !! k = Some e' /\
               name e' = Some n0 /\ phone e' = Some pb.
Proof.
  intros Hw Hk He Ha Hb Hn Hra Hrb Hna Hnb.
  pose proof (Hw k e He) as Hke.
  rewrite !on_blur_editor by done. rewrite Ha, Hb.
  do 4 eexists. split; [reflexivity|]. split; [reflexivity|].
  unfold run. simpl.
  rewrite (put_calendar_ok now1 k _ (user_name (me ca))); [|done|by right; simpl; rewrite Hke|done|done|done].
  simpl. rewrite (put_calendar_ok now2 k _ (user_name (me cb))).
  - simpl. eexists. split; [apply lookup_insert_eq|].
    unfold upserted, upsert_base_of. simpl. rewrite lookup_insert_eq. simpl.
    by rewrite Hn.
  - simpl. apply entries_keyed_insert; [done|]. apply upserted_keyed; [done|]. right. simpl. by rewrite Hke.
  - right. simpl. by rewrite Hke.
  - done.
  - reflexivity.
  - done.
Qed.

(** ** Witnesses *)

(** The server after one client created ["2025-09-18"], and a Madrid
    session that loaded it. *)
Definition s_ana : Server := snd (put_calendar 1000 key_0918 body_ana initial_server).
Definition entry_ana : Entry := upserted initial_server key_0918 body_ana.
Definition madrid_loaded : Client :=
  mkClient gustavo [] 8 2025 {[key_0918 := entry_ana]} false 120.

Lemma s_ana_entries : entries s_ana = {[key_0918 := entry_ana]}.
Proof. reflexivity. Qed.

Lemma s_ana_keyed : entries_keyed (entries s_ana).
Proof. rewrite s_ana_entries. apply map_Forall_singleton. reflexivity. Qed.

Lemma view_ok_initial c : monthData c = ∅ -> view_ok initial_server c.
Proof. intros Hc k. rewrite Hc. simpl. rewrite !lookup_empty. by destruct (in_view c k). Qed.

Lemma sync_step_witness :
  view_ok (snd (handle 120 1000 (ReqPutEntry key_0918 body_ana) initial_server))
    (apply_events (new_events initial_server
       (snd (handle 120 1000 (ReqPutEntry key_0918 body_ana) initial_server))) madrid_sept).
Proof.
  apply sync_step.
  - split; [apply entries_keyed_empty | split; constructor].
  - by apply view_ok_initial.
  - split; [right; reflexivity|]. split; [discriminate|]. exists "Bob". split; [reflexivity|discriminate].
Defined.

Lemma load_view_ok_witness :
  view_ok s_ana (on_loaded (entries_of_month 120 (curYear madrid_sept) (curMonth madrid_sept + 1)
                              (entries s_ana)) madrid_sept).
Proof.
  apply load_view_ok; [apply s_ana_keyed | | by_compute ..].
  intros k e. rewrite s_ana_entries, lookup_singleton_Some. intros [<- _].
  exists 2025, 8, 18. repeat split; try lia. vm_compute. discriminate.
Defined.

(** The specification's scenario in New York: the entry of ["2025-10-01"]
    is loaded into the October view and survives its deletion. *)
Definition body_oct : EntryBody :=
  mkBody (Some "2025-10-01") (Some "Ana") None None (Some "Bob") None.
Definition s_oct : Server := snd (put_calendar 1000 "2025-10-01" body_oct initial_server).
Definition newyork_oct : Client := mkClient gustavo [] 9 2025 ∅ false (-240).

Lemma west_deleted_entry_stays_witness :
  let c := on_loaded (entries_of_month 120 2025 (9 + 1) (entries s_oct)) newyork_oct in
  let s' := snd (handle 120 2000 (ReqDeleteEntry (client_dateKey 2025 9 1)) s_oct) in
  monthData c !! client_dateKey 2025 9 1 = Some (upserted initial_server "2025-10-01" body_oct) /\
  entries s' !! client_dateKey 2025 9 1 = None /\
  monthData (apply_events (new_events s_oct s') c) !! client_dateKey 2025 9 1 =
    Some (upserted initial_server "2025-10-01" body_oct).
Proof.
  apply west_deleted_entry_stays; try by_compute.
  change (entries s_oct) with ({["2025-10-01" := upserted initial_server "2025-10-01" body_oct]} : gmap string Entry).
  apply map_Forall_singleton. reflexivity.
Defined.

Lemma empty_day_edits_overwrite_witness :
  exists b1 b2,
    on_blur key_0918 FName "Ana" madrid_sept = (madrid_sept, [ReqPutEntry key_0918 b1]) /\
    on_blur key_0918 FPhone "555" madrid_sept = (madrid_sept, [ReqPutEntry key_0918 b2]) /\
    exists e, entries (run 120 [(1000, ReqPutEntry key_0918 b1); (2000, ReqPutEntry key_0918 b2)]
                         initial_server) !! key_0918 = Some e /\
              name e = Some "" /\ phone e = Some "555".
Proof.
  apply empty_day_edits_overwrite; [apply entries_keyed_empty | discriminate | reflexivity
                                   | discriminate | discriminate].
Defined.

Lemma concurrent_edits_lose_field_witness :
  exists ra rb ca' cb',
    on_blur key_0918 FName "Eva" madrid_loaded = (ca', [ra]) /\
    on_blur key_0918 FPhone "555" madrid_loaded = (cb', [rb]) /\
    exists e', entries (run 120 [(1000, ra); (2000, rb)] s_ana) !! key_0918 = Some e' /\
               name e' = Some "Ana" /\ phone e' = Some "555".
Proof.
  apply (concurrent_edits_lose_field 120 1000 2000 s_ana madrid_loaded madrid_loaded key_0918 entry_ana);
    first [apply s_ana_keyed | reflexivity | discriminate].
Defined.

(** Madrid, September 2025 showing the entry of the 18th; the user picks
    October and the September answer arrives last. *)
Lemma out_of_order_loads_witness :
  let c1 := fst (on_month_change 9 madrid_sept) in
  let c2 := on_month_response (fst (handle 120 2000 (render_request c1) s_ana)) c1 in
  let c3 := on_month_response (fst (handle 120 1000 (render_request madrid_sept) s_ana)) c2 in
  curMonth c3 = 9 /\ monthData c3 !! client_dateKey 2025 8 18 = Some entry_ana /\
  ~ view_ok s_ana c3.
Proof.
  apply (out_of_order_loads 120 1000 2000 s_ana madrid_sept 9 18 entry_ana);
    first [apply s_ana_keyed | reflexivity | by_compute].
Defined.

End Sync.
