(* ===== verification/Report.v ===== *)
(** * The change report ([showReport], [src/public/cuadrante.js] 319-356)

    The admin's report button fetches [/api/logs/${year}/${month + 1}] and
    renders one line per change-log record; an ['update'] record lists
    every key of [newData] whose value differs from [previousData]'s.  The
    records arrive as JSON, so the stored snapshots are plain objects:
    [entry_json] is the object of a stored entry, [strict_eq] is [===] on
    parsed values (every parsed array is a new object), and reading a key of
    a [null] [previousData] throws.  [show_report] is the view the modal
    ends up showing: the message for no changes, the list of items, or the
    error message of the [catch]. *)

From stdpp Require Import base strings list.
From Stdlib Require Import ZArith Lia String.
From S2P Require Import Prelude JsDate DateKey Store Client.

Module Report.
Import JsDate DateKey Store Client.
Local Open Scope Z_scope.

(** Values of the parsed snapshots: strings, numbers, arrays of strings
    ([imageUrls]) and [undefined] (a key the object does not have). *)
Inductive jsval :=
  | JStr (s : string)
  | JNum (n : Z)
  | JArr (xs : list string)
  | JUndef.

(** [a === b]: strings and numbers by value, [undefined === undefined], and
    two arrays never, since [JSON.parse] builds a new object for each. *)
Definition strict_eq (a b : jsval) : bool :=
  match a, b with
  | JStr x, JStr y => String.eqb x y
  | JNum x, JNum y => Z.eqb x y
  | JUndef, JUndef => true
  | _, _ => false
  end.

Definition opt_field (k : string) (o : option string) : list (string * jsval) :=
  match o with Some v => [(k, JStr v)] | None => [] end.

(** The stored document as the client receives it: [_id] (its ObjectId
    string, here the decimal of the model's id), the schema's paths that are
    set, in schema order, and the version key [__v].  An unset path is not a
    key of the object. *)
Definition entry_json (e : Entry) : list (string * jsval) :=
  [("_id", JStr (js_string_of_int (Z.of_nat (entry_id e)))); ("dateKey", JStr (dateKey e))] ++
  opt_field "name" (name e) ++ opt_field "address" (address e) ++
  opt_field "phone" (phone e) ++ opt_field "editor" (editor e) ++
  [("imageUrls", JArr (imageUrls e)); ("__v", JNum 0)].

(** [obj[key]]. *)
Definition get_key (o : list (string * jsval)) (k : string) : jsval :=
  match List.find (fun p => String.eqb (fst p) k) o with
  | Some (_, v) => v
  | None => JUndef
  end.

(** One line [- key: de "before" a "after"] of an update. *)
Record Change := mkChange { ch_key : string; ch_before : jsval; ch_after : jsval }.

Inductive Described :=
  | DCreated (k : string)
  | DDeleted (k : string)
  | DUpdated (k : string) (changes : list Change).

Record Item := mkItem {
  it_date : Z;
  it_user : string;
  it_action : Action;
  it_text : Described
}.

Inductive View :=
  | VNoChanges
  | VItems (items : list Item)
  | VError.

(** The loop [for (const key in log.newData)] of lines 340-344 over the
    keys of [newData]; [prev] is [log.previousData], [None] for [null], and
    reading [null[key]] throws ([None]). *)
Fixpoint diff_fields (fields : list (string * jsval)) (prev : option (list (string * jsval)))
    : option (list Change) :=
  match fields with
  | [] => Some []
  | (k, v) :: rest =>
      if String.eqb k "_id" || String.eqb k "__v" then diff_fields rest prev
      else match prev with
           | None => None
           | Some p =>
               match diff_fields rest prev with
               | Some cs => Some (if strict_eq v (get_key p k) then cs else mkChange k (get_key p k) v :: cs)
               | None => None
               end
           end
  end.

(** The text of one record (lines 334-345); [for ... in undefined] runs no
    iteration. *)
Definition describe (l : ChangeLog) : option Described :=
  match log_action l with
  | ACreate => Some (DCreated (log_entryDateKey l))
  | ADelete => Some (DDeleted (log_entryDateKey l))
  | AUpdate =>
      match log_newData l with
      | None => Some (DUpdated (log_entryDateKey l) [])
      | Some n =>
          match diff_fields (entry_json n) (option_map entry_json (log_previousData l)) with
          | Some cs => Some (DUpdated (log_entryDateKey l) cs)
          | None => None
          end
      end
  end.

Definition report_item (l : ChangeLog) : option Item :=
  match describe l with
  | Some d => Some (mkItem (log_date l) (log_user l) (log_action l) d)
  | None => None
  end.

(** [for (const log of logs)]: the first record that throws aborts the
    whole report. *)
Fixpoint report_items (ls : list ChangeLog) : option (list Item) :=
  match ls with
  | [] => Some []
  | l :: rest =>
      match report_item l, report_items rest with
      | Some it, Some its => Some (it :: its)
      | _, _ => None
      end
  end.

(** [showReport(year, month)] once the answer arrived: an array of records,
    or the error object of a 500, whose [for ... of] throws. *)
Definition show_report (r : outcome DbError Response) : View :=
  match r with
  | Ok (mkResponse _ (PLogs ls)) =>
      match ls with
      | [] => VNoChanges
      | _ => match report_items ls with Some its => VItems its | None => VError end
      end
  | _ => VError
  end.

(** The report button (lines 398-401) of a session showing [year]/[month]
    (0-based) asks for the month [month + 1]. *)
Definition report_request (year month : Z) : Request := ReqGetLogs year (month + 1).

(** ** The diff, field by field *)

Definition js_of_opt (o : option string) : jsval :=
  match o with Some v => JStr v | None => JUndef end.

Definition change_if (k : string) (before after : jsval) : list Change :=
  if strict_eq after before then [] else [mkChange k before after].

Definition opt_change (k : string) (before after : option string) : list Change :=
  match after with Some v => change_if k (js_of_opt before) (JStr v) | None => [] end.

(** What the report says of an update from [p] to [n]: the key if it
    changed, each text field set in [n] and different in [p], and the
    images, always. *)
Definition entry_diff (p n : Entry) : list Change :=
  change_if "dateKey" (JStr (dateKey p)) (JStr (dateKey n)) ++
  opt_change "name" (name p) (name n) ++ opt_change "address" (address p) (address n) ++
  opt_change "phone" (phone p) (phone n) ++ opt_change "editor" (editor p) (editor n) ++
  [mkChange "imageUrls" (JArr (imageUrls p)) (JArr (imageUrls n))].

(** ** Lemmas *)

Lemma diff_fields_app a b prev :
  diff_fields (a ++ b) prev =
  match diff_fields a prev, diff_fields b prev with
  | Some x, Some y => Some (x ++ y)
  | _, _ => None
  end.
Proof.
  induction a as [|[k v] a IH]; simpl; [by destruct (diff_fields b prev)|].
  destruct (String.eqb k "_id" || String.eqb k "__v"); [exact IH|].
  destruct prev as [p|]; [|done].
  rewrite IH. destruct (diff_fields a (Some p)), (diff_fields b (Some p)); try done.
  by destruct (strict_eq _ _).
Qed.

Lemma diff_fields_opt k o P :
  (String.eqb k "_id" || String.eqb k "__v") = false ->
  diff_fields (opt_field k o) (Some P) =
  Some (match o with Some v => change_if k (get_key P k) (JStr v) | None => [] end).
Proof. intros Hk. destruct o; simpl; [rewrite Hk|]; reflexivity. Qed.

Lemma get_key_entry_json e :
  get_key (entry_json e) "dateKey" = JStr (dateKey e) /\
  get_key (entry_json e) "name" = js_of_opt (name e) /\
  get_key (entry_json e) "address" = js_of_opt (address e) /\
  get_key (entry_json e) "phone" = js_of_opt (phone e) /\
  get_key (entry_json e) "editor" = js_of_opt (editor e) /\
  get_key (entry_json e) "imageUrls" = JArr (imageUrls e).
Proof. destruct e as [i k [] [] [] [] us]; repeat split. Qed.

(** The loop of lines 340-344 against a stored [previousData] computes
    [entry_diff]. *)
Lemma diff_fields_entry p n :
  diff_fields (entry_json n) (Some (entry_json p)) = Some (entry_diff p n).
Proof.
  destruct (get_key_entry_json p) as (Hd & Hn & Ha & Hp & He & Hi).
  unfold entry_json at 1. rewrite !diff_fields_app, !diff_fields_opt by reflexivity.
  simpl. rewrite Hd, Hn, Ha, Hp, He, Hi. unfold entry_diff, opt_change, change_if.
  destruct (name n), (address n), (phone n), (editor n); simpl;
    repeat case_match; try reflexivity.
Qed.

Lemma describe_update_eq l p n :
  log_action l = AUpdate -> log_previousData l = Some p -> log_newData l = Some n ->
  describe l = Some (DUpdated (log_entryDateKey l) (entry_diff p n)).
Proof. intros Ha Hp Hn. unfold describe. rewrite Ha, Hn, Hp. cbn [option_map]. by rewrite diff_fields_entry. Qed.

(** A stored [newData] always has the key [dateKey], which a [null]
    [previousData] cannot be read at. *)
Lemma describe_null_previous l n :
  log_action l = AUpdate -> log_previousData l = None -> log_newData l = Some n ->
  describe l = None.
Proof. intros Ha Hp Hn. unfold describe. by rewrite Ha, Hn, Hp. Qed.

Lemma report_items_none ls l : In l ls -> describe l = None -> report_items ls = None.
Proof.
  induction ls as [|l' ls IH]; intros Hin Hd; [done|]. simpl.
  destruct Hin as [->|Hin].
  - unfold report_item. by rewrite Hd.
  - rewrite (IH Hin Hd). by destruct (report_item l').
Qed.

Lemma entry_diff_same e : entry_diff e e = [mkChange "imageUrls" (JArr (imageUrls e)) (JArr (imageUrls e))].
Proof.
  destruct e as [i k nm ad ph ed us]. unfold entry_diff, opt_change, change_if.
  destruct nm, ad, ph, ed; simpl; rewrite ?String.eqb_refl; reflexivity.
Qed.

Lemma describe_some l :
  (log_action l = AUpdate -> log_newData l <> None -> log_previousData l <> None) ->
  exists d, describe l = Some d.
Proof.
  intros H. destruct (log_action l) eqn:Ha; [by eexists; unfold describe; rewrite Ha| |
    by eexists; unfold describe; rewrite Ha].
  destruct (log_newData l) as [n|] eqn:Hn; [|by eexists; unfold describe; rewrite Ha, Hn].
  destruct (log_previousData l) as [p|] eqn:Hp; [|by exfalso; apply H].
  eexists. by apply (describe_update_eq l p n).
Qed.

Lemma report_items_some ls :
  Forall (fun l => log_action l = AUpdate -> log_newData l <> None -> log_previousData l <> None) ls ->
  exists its, report_items ls = Some its /\
    map it_date its = map log_date ls /\ map it_user its = map log_user ls /\
    map it_action its = map log_action ls.
Proof.
  induction 1 as [|l ls Hl Hls IH]; [by exists []|].
  destruct IH as (its & Hits & H1 & H2 & H3). destruct (describe_some l Hl) as [d Hd].
  exists (mkItem (log_date l) (log_user l) (log_action l) d :: its).
  simpl. unfold report_item. rewrite Hd, Hits. simpl. by rewrite H1, H2, H3.
Qed.

(** A record of the month's window is in the answer of [GET /api/logs]. *)
Lemma in_logs_query tz year month ls l :
  In l ls -> log_in_window tz year month l = true -> In l (logs_query tz year month ls).
Proof.
  intros Hin Hw. unfold logs_query. destruct (sort_desc_spec (List.filter (log_in_window tz year month) ls)) as [_ Hp].
  apply (Permutation_in _ (Permutation_sym Hp)). by apply List.filter_In.
Qed.

Lemma show_report_null_previous st ls l n :
  In l ls -> log_action l = AUpdate -> log_previousData l = None -> log_newData l = Some n ->
  show_report (Ok (mkResponse st (PLogs ls))) = VError.
Proof.
  intros Hin Ha Hp Hn. unfold show_report. destruct ls as [|l0 ls']; [done|].
  by rewrite (report_items_none _ l Hin (describe_null_previous l n Ha Hp Hn)).
Qed.

(** C27: A single update record with a null previousData in the answer makes
    showReport throw, so the whole report shows the error message instead of
    any record. *)
Theorem report_fails_on_null_previous st ls l n :
  In l ls -> log_action l = AUpdate -> log_previousData l = None -> log_newData l = Some n ->
  show_report (Ok (mkResponse st (PLogs ls))) = VError.
Proof. intros; eapply show_report_null_previous; eassumption. Qed.

(** When every update record has its previousData, the report shows one
    item per record of the answer, in the answer's order, with its date,
    user and action. *)
Theorem report_lists_every_record st ls :
  ls <> [] ->
  Forall (fun l => log_action l = AUpdate -> log_newData l <> None -> log_previousData l <> None) ls ->
  exists its, show_report (Ok (mkResponse st (PLogs ls))) = VItems its /\
    map it_date its = map log_date ls /\ map it_user its = map log_user ls /\
    map it_action its = map log_action ls.
Proof.
  intros Hne Hall. destruct (report_items_some ls Hall) as (its & Hits & H).
  exists its. split; [|exact H]. unfold show_report. destruct ls; [done|]. by rewrite Hits.
Qed.

(** For an update record with both snapshots, the report lists the dateKey
    if it changed, each text field set in the new snapshot whose value
    differs from the old (undefined when the old lacked it), and imageUrls,
    always. *)
Theorem describe_update l p n :
  log_action l = AUpdate -> log_previousData l = Some p -> log_newData l = Some n ->
  describe l = Some (DUpdated (log_entryDateKey l) (entry_diff p n)).
Proof. intros; eapply describe_update_eq; eassumption. Qed.

(** An update record whose two snapshots are equal is still reported with
    one change, of imageUrls, because === compares two parsed arrays by
    identity. *)
Theorem unchanged_write_reports_images now u k e :
  describe (mkLog now u AUpdate k (Some e) (Some e)) =
  Some (DUpdated k [mkChange "imageUrls" (JArr (imageUrls e)) (JArr (imageUrls e))]).
Proof. rewrite (describe_update_eq _ e e) by reflexivity. by rewrite entry_diff_same. Qed.

(** C5: The first edit of a day without entry, made through the grid, is a PUT
    that upserts the entry and logs an 'update' with previousData null; from
    then on, after any further requests, the report of the month in which it
    was made shows only the error message. *)
Theorem first_edit_breaks_report tzs now now' s c k f text year month :
  entries_keyed (entries s) -> entries s !! k = None -> monthData c !! k = None -> k <> "" ->
  user_role (me c) <> Viewer -> user_name (me c) <> "" ->
  new_Date_local tzs year (month - 1) 1 <= now <= new_Date_local tzs year month 0 ->
  exists b, on_blur k f text c = (c, [ReqPutEntry k b]) /\
    forall reqs,
      show_report (fst (handle tzs now' (ReqGetLogs year month)
                          (run tzs reqs (snd (handle tzs now (ReqPutEntry k b) s))))) = VError.
Proof.
  intros Hw Hs Hc Hk Hr Hn Hnow.
  set (b := fresh_body k (Some (f, text)) [] (user_name (me c))).
  exists b. rewrite on_blur_editor by done. rewrite Hc. split; [reflexivity|]. intros reqs.
  simpl. rewrite (put_calendar_ok now k b (user_name (me c))) by (done || by right). simpl.
  set (s1 := set_outbox _ _).
  destruct (run_logs_grow tzs reqs s1) as [l' Hl'].
  change (show_report (Ok (mkResponse 200 (PLogs (logs_query tzs year month (logs (run tzs reqs s1))))))
          = VError).
  apply (show_report_null_previous 200 _
           (mkLog now (user_name (me c)) AUpdate k (entries s !! k) (Some (upserted s k b)))
           (upserted s k b)); [|reflexivity|exact Hs|reflexivity].
  apply in_logs_query.
  - rewrite Hl'. apply in_or_app. left. simpl. apply in_or_app. right. by left.
  - unfold log_in_window. simpl. apply andb_true_iff. split; apply Z.leb_le; lia.
Qed.

(** ** Witnesses *)

Definition ana_entry : Entry := upserted initial_server key_0918 body_ana.
Definition ana_phone : Entry := apply_set body_phone ana_entry.

Lemma report_fails_on_null_previous_witness :
  show_report (Ok (mkResponse 200 (PLogs [mkLog 1000 "Bob" AUpdate key_0918 None (Some ana_entry)])))
  = VError.
Proof. apply (report_fails_on_null_previous 200 _ (mkLog 1000 "Bob" AUpdate key_0918 None (Some ana_entry)) ana_entry);
  [by left | reflexivity | reflexivity | reflexivity]. Defined.

Lemma report_lists_every_record_witness :
  exists its,
    show_report (Ok (mkResponse 200 (PLogs [mkLog 2000 "Bob" AUpdate key_0918 (Some ana_entry) (Some ana_phone);
                                            mkLog 1000 "Bob" ACreate key_0918 None (Some ana_entry)]))) = VItems its /\
    map it_date its = [2000; 1000] /\ map it_user its = ["Bob"; "Bob"] /\
    map it_action its = [AUpdate; ACreate].
Proof.
  apply report_lists_every_record; [discriminate|].
  repeat constructor; simpl; discriminate.
Defined.

(** The spec's scenario: adding the phone to Ana's entry is reported as the
    phone and the images. *)
Lemma describe_update_witness :
  describe (mkLog 2000 "Bob" AUpdate key_0918 (Some ana_entry) (Some ana_phone)) =
  Some (DUpdated key_0918 (entry_diff ana_entry ana_phone)) /\
  entry_diff ana_entry ana_phone =
  [mkChange "phone" JUndef (JStr "555-1234"); mkChange "imageUrls" (JArr []) (JArr [])].
Proof.
  split; [apply (describe_update (mkLog 2000 "Bob" AUpdate key_0918 (Some ana_entry) (Some ana_phone))
                  ana_entry ana_phone); reflexivity | reflexivity].
Defined.

Lemma first_edit_breaks_report_witness :
  exists b, on_blur key_0918 FName "Ana" madrid_sept = (madrid_sept, [ReqPutEntry key_0918 b]) /\
    forall reqs,
      show_report (fst (handle 120 5000 (ReqGetLogs 2025 9)
                          (run 120 reqs (snd (handle 120 (new_Date_local 120 2025 8 18)
                                                (ReqPutEntry key_0918 b) initial_server))))) = VError.
Proof.
  apply first_edit_breaks_report;
    first [apply map_Forall_empty | reflexivity | discriminate | by_compute].
Defined.

End Report.
