(* ===== verification/Grid.v ===== *)
(** * The calendar grid ([renderCalendar], [src/public/cuadrante.js] 205-316)

    The grid has five columns, Monday to Friday.  [renderCalendar] puts
    [startingBlanks] empty cells in the first row ([dayOfWeek - 1], Sunday
    counted as 7), then walks the days of the month: a weekday cell is
    appended to the current row, after flushing the row when it already has
    five cells; on a Friday or on the last day the row is padded to five
    cells and flushed.  [Cell] is a [<td>]: [COther] the empty
    [other-month] cell, [CDay d] the cell of day [d], whose [data-date] is
    [client_dateKey year month d] (line 229) and whose content is
    [monthData] at that key.  The [while] loop runs [daysInMonth] times: it
    is a recursion on fuel that also keeps the loop's test. *)

From stdpp Require Import base list.
From Stdlib Require Import ZArith Lia.
From S2P Require Import Prelude JsDate DateKey.

Module Grid.
Import JsDate DateKey.
Local Open Scope Z_scope.

Inductive Cell := COther | CDay (d : Z).

#[export] Instance Cell_eq_dec : EqDecision Cell.
Proof. solve_decision. Defined.

(** [while (weekRow.children.length > 0 && weekRow.children.length < 5)]
    (lines 307-309). *)
Definition pad_row (row : list Cell) : list Cell :=
  if Nat.eqb (length row) 0 then row else row ++ repeat COther (5 - length row).

(** The body of the [while] loop (lines 219-313) for day [d] whose
    [getDay()] is [wd]; [last] is [dayCounter === daysInMonth]. *)
Definition place_day (wd : Z) (last : bool) (d : Z) (st : list Cell * list (list Cell))
    : list Cell * list (list Cell) :=
  let '(row, body) := st in
  let '(row1, body1) :=
    if negb (wd =? 0) && negb (wd =? 6) then
      if Nat.eqb (length row) 5 then ([CDay d], body ++ [row]) else (row ++ [CDay d], body)
    else (row, body) in
  if (wd =? 5) || last then ([], body1 ++ [pad_row row1]) else (row1, body1).

Definition grid_step (tz y m dim d : Z) (st : list Cell * list (list Cell))
    : list Cell * list (list Cell) :=
  place_day (getDay tz (new_Date_local tz y m d)) (d =? dim) d st.

Fixpoint grid_loop (tz y m dim : Z) (fuel : nat) (d : Z) (st : list Cell * list (list Cell))
    : list (list Cell) :=
  match fuel with
  | O => snd st
  | S f => if d <=? dim then grid_loop tz y m dim f (d + 1) (grid_step tz y m dim d st) else snd st
  end.

(** Lines 209-211. *)
Definition starting_blanks (tz y m : Z) : nat :=
  let w := getDay tz (new_Date_local tz y m 1) in
  let dow := if w =? 0 then 7 else w in
  Z.to_nat (dow - 1).

(** [new Date(year, month + 1, 0).getDate()] (line 207). *)
Definition daysInMonth (tz y m : Z) : Z := getDate tz (new_Date_local tz y (m + 1) 0).

(** The rows of [tbody] for [year] and the 0-based [month]. *)
Definition render_grid (tz y m : Z) : list (list Cell) :=
  let dim := daysInMonth tz y m in
  grid_loop tz y m dim (Z.to_nat dim) 1 (repeat COther (starting_blanks tz y m), []).

(** ** The grid a Monday-to-Friday calendar should have

    Weeks are Monday-aligned: the row of the Monday [x] holds the days
    [x .. x + 4] that belong to the month and empty cells elsewhere. *)

Definition cell (dim z : Z) : Cell := if (1 <=? z) && (z <=? dim) then CDay z else COther.

Definition cells (dim x : Z) (n : nat) : list Cell :=
  map (fun i => cell dim (x + Z.of_nat i)) (seq 0 n).

Arguments cells : simpl never.

Definition week_row (dim x : Z) : list Cell := cells dim x 5.

(** The weekday of day [d] of the month, 0 for Sunday. *)
Definition wday (y m d : Z) : Z := WeekDay (MakeDay y m d).

Definition is_weekday (w : Z) : bool := (1 <=? w) && (w <=? 5).

Definition expected_grid (y m : Z) : list (list Cell) :=
  let dim := days_in_month y m in
  let w0 := wday y m 1 in
  let wl := wday y m dim in
  let k := (dim + w0) / 7 + (if is_weekday wl then 1 else 0) in
  map (fun j => week_row dim (2 - w0 + 7 * Z.of_nat j)) (seq 0 (Z.to_nat k)) ++
  (if is_weekday wl then [] else [[]]).

(** ** Lemmas on the cells *)

Lemma cells_S dim x n : cells dim x (S n) = cells dim x n ++ [cell dim (x + Z.of_nat n)].
Proof. unfold cells. by rewrite seq_S, map_app. Qed.

Lemma length_cells dim x n : length (cells dim x n) = n.
Proof. unfold cells. by rewrite length_map, length_seq. Qed.

(** Cells before the first day are empty. *)
Lemma cells_blanks dim x n : x + Z.of_nat n <= 1 -> cells dim x n = repeat COther n.
Proof.
  induction n as [|n IH]; intros Hx; [done|].
  rewrite cells_S, IH by lia. cbn [repeat]. rewrite repeat_cons. f_equal. f_equal.
  unfold cell. case_test; [lia|]. done.
Qed.

(** Cells after the last day are empty. *)
Lemma cells_after dim x n k :
  dim < x + Z.of_nat n -> cells dim x (n + k) = cells dim x n ++ repeat COther k.
Proof.
  intros Hx. induction k as [|k IH]; [by rewrite Nat.add_0_r, app_nil_r|].
  rewrite Nat.add_succ_r, cells_S, IH. cbn [repeat]. rewrite repeat_cons, app_assoc. f_equal. f_equal.
  unfold cell. rewrite andb_false_intro2; [done|]. apply Z.leb_gt. lia.
Qed.

Lemma cells_next dim x n : 1 <= x + Z.of_nat n <= dim ->
  cells dim x (S n) = cells dim x n ++ [CDay (x + Z.of_nat n)].
Proof.
  intros Hx. rewrite cells_S. f_equal. f_equal. unfold cell.
  rewrite (proj2 (Z.leb_le _ _)), (proj2 (Z.leb_le _ _)) by lia. done.
Qed.

Lemma grid_loop_S tz y m dim f d st :
  d <= dim -> grid_loop tz y m dim (S f) d st = grid_loop tz y m dim f (d + 1) (grid_step tz y m dim d st).
Proof. intros Hd. simpl. by rewrite (proj2 (Z.leb_le _ _) Hd). Qed.

(** The loop only appends rows to [tbody]. *)
Lemma grid_loop_prefix tz y m dim f d row body :
  exists rest, grid_loop tz y m dim f d (row, body) = body ++ rest.
Proof.
  revert d row body. induction f as [|f IH]; intros d row body; simpl.
  - exists []. by rewrite app_nil_r.
  - destruct (d <=? dim); [|exists []; by rewrite app_nil_r].
    unfold grid_step, place_day.
    destruct (negb _ && negb _); [destruct (Nat.eqb _ 5)|]; destruct (_ || _);
      match goal with
      | |- exists rest, grid_loop _ _ _ _ _ _ (?r, ?b) = _ =>
          destruct (IH (d + 1) r b) as [rest Hr]; rewrite Hr
      end;
      eexists; rewrite <- ?app_assoc; reflexivity.
Qed.

(** The day loop of renderCalendar runs daysInMonth iterations: any fuel at
    least the number of remaining days gives the same rows. *)
Theorem grid_loop_fuel tz y m dim f d st :
  (Z.to_nat (dim - d + 1) <= f)%nat ->
  grid_loop tz y m dim f d st = grid_loop tz y m dim (Z.to_nat (dim - d + 1)) d st.
Proof.
  revert d st. induction f as [|f IH]; intros d st Hf.
  - by replace (Z.to_nat (dim - d + 1)) with 0%nat by lia.
  - destruct (Z.leb_spec d dim) as [Hd|Hd].
    + replace (Z.to_nat (dim - d + 1)) with (S (Z.to_nat (dim - (d + 1) + 1))) by lia.
      rewrite !grid_loop_S by done. apply IH. lia.
    + replace (Z.to_nat (dim - d + 1)) with 0%nat by lia. simpl.
      by rewrite (proj2 (Z.leb_gt _ _) Hd).
Qed.

(** ** The rows built so far, day by day *)

Section Month.
Variables (tz y m : Z).
Hypothesis Hm : 0 <= m <= 11.

Lemma wday_bounds d : 0 <= wday y m d < 7.
Proof. unfold wday, WeekDay. apply Z.mod_pos_bound. lia. Qed.

Lemma wday_succ d : wday y m d = (wday y m 1 + d - 1) mod 7.
Proof.
  unfold wday, WeekDay.
  replace (MakeDay y m d + 4) with ((MakeDay y m 1 + 4) + (d - 1)) by (unfold MakeDay; lia).
  replace ((MakeDay y m 1 + 4) mod 7 + d - 1) with ((MakeDay y m 1 + 4) mod 7 + (d - 1)) by lia.
  by rewrite Z.add_mod_idemp_l.
Qed.

Lemma wday_next d : wday y m (d + 1) = (wday y m d + 1) mod 7.
Proof.
  rewrite (wday_succ (d + 1)), (wday_succ d), Z.add_mod_idemp_l by lia. f_equal. lia.
Qed.

Lemma getDay_day d : getDay tz (new_Date_local tz y m d) = wday y m d.
Proof. unfold getDay, new_Date_local. by rewrite Day_LocalTime_UTC. Qed.

Lemma daysInMonth_eq : daysInMonth tz y m = days_in_month y m.
Proof. unfold daysInMonth. rewrite getDate_end_of_month by lia. f_equal. lia. Qed.

(** Entering the iteration of day [d], the current row holds the days of
    the week of [d] before it, and [tbody] the weeks whose Friday is before
    [d]. *)
Definition row_at (d : Z) : list Cell :=
  let w := wday y m d in
  if is_weekday w then cells (days_in_month y m) (d - w + 1) (Z.to_nat (w - 1)) else [].

Definition body_at (d : Z) : list (list Cell) :=
  map (fun j => week_row (days_in_month y m) (2 - wday y m 1 + 7 * Z.of_nat j))
    (seq 0 (Z.to_nat ((d + wday y m 1) / 7))).

Lemma body_at_same d : wday y m d <> 5 -> body_at (d + 1) = body_at d.
Proof.
  intros H5. rewrite wday_succ in H5. pose proof (wday_bounds 1).
  unfold body_at. do 3 f_equal. zlia.
Qed.

Lemma body_at_flush d : 1 <= d -> wday y m d = 5 ->
  body_at (d + 1) = body_at d ++ [week_row (days_in_month y m) (d - 4)].
Proof.
  intros Hd H5. rewrite wday_succ in H5. pose proof (wday_bounds 1).
  unfold body_at.
  replace (Z.to_nat ((d + 1 + wday y m 1) / 7)) with (S (Z.to_nat ((d + wday y m 1) / 7))) by zlia.
  rewrite seq_S, map_app. simpl. do 4 f_equal. rewrite Z2Nat.id by zlia. zlia.
Qed.

#[local] Opaque cells.

Lemma is_weekday_true w : 1 <= w <= 5 -> is_weekday w = true.
Proof. intros. unfold is_weekday. by zbool. Qed.

Lemma is_weekday_false w : w = 0 \/ w = 6 -> is_weekday w = false.
Proof. by intros [-> | ->]. Qed.

(** One iteration of a day before the last keeps the description. *)
Lemma grid_step_at d : 1 <= d < days_in_month y m ->
  grid_step tz y m (days_in_month y m) d (row_at d, body_at d) = (row_at (d + 1), body_at (d + 1)).
Proof.
  intros Hd. unfold grid_step, place_day, row_at. rewrite getDay_day, wday_next.
  pose proof (wday_bounds d) as Hb. remember (wday y m d) as W eqn:HW.
  destruct (Z.eq_dec W 6) as [->|H6]; [|rewrite (Z.mod_small (W + 1) 7) by lia].
  { rewrite is_weekday_false, (is_weekday_false ((6 + 1) mod 7)) by (compute; tauto).
    zbool. simpl. rewrite body_at_same by lia. reflexivity. }
  destruct (Z.eq_dec W 0) as [->|H0].
  { rewrite is_weekday_false, is_weekday_true by lia. zbool. simpl. rewrite body_at_same by lia.
    reflexivity. }
  rewrite is_weekday_true by lia. rewrite length_cells. zbool.
  destruct (Z.eq_dec W 5) as [->|H5]; zbool; simpl.
  - rewrite body_at_flush by lia. unfold pad_row, week_row. rewrite length_app, length_cells.
    replace (Z.to_nat (5 - 1)) with 4%nat by reflexivity. replace (d - 5 + 1) with (d - 4) by lia.
    simpl. rewrite app_nil_r, (cells_next _ _ 4) by lia.
    by replace (d - 4 + Z.of_nat 4) with d by lia.
  - rewrite ?is_weekday_true by lia. rewrite body_at_same by lia.
    replace (Z.to_nat (W + 1 - 1)) with (S (Z.to_nat (W - 1))) by lia.
    replace (d + 1 - (W + 1) + 1) with (d - W + 1) by lia.
    rewrite cells_next by lia.
    replace (d - W + 1 + Z.of_nat (Z.to_nat (W - 1))) with d by lia. reflexivity.
Qed.

(** The iteration of the last day flushes the last row. *)
Lemma grid_step_last :
  grid_step tz y m (days_in_month y m) (days_in_month y m)
    (row_at (days_in_month y m), body_at (days_in_month y m)) = ([], expected_grid y m).
Proof.
  pose proof (days_in_month_bounds y m Hm) as Hdim.
  set (dim := days_in_month y m) in *.
  unfold grid_step, place_day, row_at, expected_grid. fold dim. rewrite getDay_day.
  pose proof (wday_bounds dim) as Hb. pose proof (wday_bounds 1) as Hb1.
  pose proof (wday_succ dim) as Hs.
  remember (wday y m dim) as W eqn:HW. rewrite Z.eqb_refl, orb_true_r.
  destruct (Z.eq_dec W 0) as [->|H0]; [|destruct (Z.eq_dec W 6) as [->|H6]].
  1,2: rewrite is_weekday_false by lia; zbool; simpl; rewrite Z.add_0_r; reflexivity.
  rewrite is_weekday_true by lia. rewrite length_cells. zbool. simpl.
  unfold pad_row. rewrite length_app, length_cells. zbool. simpl.
  f_equal. unfold body_at. fold dim.
  replace (Z.to_nat ((dim + wday y m 1) / 7 + 1)) with (S (Z.to_nat ((dim + wday y m 1) / 7))) by zlia.
  rewrite seq_S, map_app, app_nil_r. f_equal. simpl. f_equal.
  unfold week_row.
  replace (2 - wday y m 1 + 7 * Z.of_nat (Z.to_nat ((dim + wday y m 1) / 7))) with (dim - W + 1) by zlia.
  zbool. replace (CDay dim) with (CDay (dim - W + 1 + Z.of_nat (Z.to_nat (W - 1)))) by (f_equal; lia).
  rewrite <- (cells_next dim (dim - W + 1) (Z.to_nat (W - 1))) by lia.
  rewrite <- (cells_after dim (dim - W + 1) (S (Z.to_nat (W - 1)))) by lia.
  f_equal. lia.
Qed.

Lemma grid_loop_at n d :
  1 <= d <= days_in_month y m -> Z.of_nat n = days_in_month y m - d + 1 ->
  grid_loop tz y m (days_in_month y m) n d (row_at d, body_at d) = expected_grid y m.
Proof.
  revert d. induction n as [|n IH]; intros d Hd Hn; [lia|].
  rewrite grid_loop_S by lia.
  destruct (Z.eq_dec d (days_in_month y m)) as [->|Hne].
  - rewrite grid_step_last. replace n with 0%nat by lia. reflexivity.
  - rewrite grid_step_at by lia. apply IH; lia.
Qed.

(** The first row before the loop: the blanks before the first day. *)
Lemma grid_start : 1 <= wday y m 1 <= 5 ->
  (repeat COther (starting_blanks tz y m), []) = (row_at 1, body_at 1).
Proof.
  intros Hw. unfold starting_blanks, row_at, body_at. rewrite getDay_day.
  rewrite is_weekday_true by done. zbool. rewrite cells_blanks by lia.
  replace ((1 + wday y m 1) / 7) with 0 by zlia. reflexivity.
Qed.

End Month.

(** C9: For a month whose first day is Monday to Friday, the rows
    renderCalendar's loop builds are exactly those of the direct definition
    expected_grid: the Monday-aligned weeks of the month, Monday to Friday,
    with empty cells before the first and after the last day (and an empty
    row when the month ends on a weekend). *)
Theorem render_grid_weekday_start tz y m :
  0 <= m <= 11 -> 1 <= wday y m 1 <= 5 -> render_grid tz y m = expected_grid y m.
Proof.
  intros Hm Hw. pose proof (days_in_month_bounds y m Hm).
  unfold render_grid. rewrite daysInMonth_eq by done. rewrite grid_start by done.
  apply grid_loop_at; [done|lia|lia].
Qed.

(** The first days of a month whose first weekday [w0] is known: one
    iteration of the loop per day, with its weekday computed, and the state
    they reach evaluated. *)
Ltac grid_day H0 :=
  rewrite grid_loop_S by lia; unfold grid_step at 1;
  rewrite getDay_day, wday_succ, H0; zbool.

Ltac grid_eval :=
  match goal with
  | |- context [grid_loop _ _ _ _ _ _ ?st] => let v := eval vm_compute in st in change st with v
  end.

Ltac grid_rest :=
  match goal with
  | |- exists rest, grid_loop ?a ?b ?c ?d ?e ?f (?r, ?bd) = _ =>
      destruct (grid_loop_prefix a b c d e f r bd) as [rest ->]; by exists rest
  end.

(** C36: For a month that starts on a Sunday, renderCalendar counts the Sunday
    as 7 and puts six empty cells before Monday: the first row has eleven
    cells (six empty, then days 2 to 6) in a five-column table. *)
Theorem grid_sunday_start tz y m :
  0 <= m <= 11 -> wday y m 1 = 0 ->
  exists rest, render_grid tz y m =
    (repeat COther 6 ++ [CDay 2; CDay 3; CDay 4; CDay 5; CDay 6]) :: rest.
Proof.
  intros Hm H0. pose proof (days_in_month_bounds y m Hm).
  unfold render_grid, starting_blanks. rewrite daysInMonth_eq, getDay_day, H0 by done.
  replace (Z.to_nat (days_in_month y m))
    with (S (S (S (S (S (S (Z.to_nat (days_in_month y m) - 6))))))) by lia.
  do 6 grid_day H0. grid_eval.
  grid_rest.
Qed.

(** For a month that starts on a Saturday, the first row holds only five
    empty cells and the first week is the second row. *)
Theorem grid_saturday_start tz y m :
  0 <= m <= 11 -> wday y m 1 = 6 ->
  exists rest, render_grid tz y m =
    repeat COther 5 :: [CDay 3; CDay 4; CDay 5; CDay 6; CDay 7] :: rest.
Proof.
  intros Hm H0. pose proof (days_in_month_bounds y m Hm).
  unfold render_grid, starting_blanks. rewrite daysInMonth_eq, getDay_day, H0 by done.
  replace (Z.to_nat (days_in_month y m))
    with (S (S (S (S (S (S (S (Z.to_nat (days_in_month y m) - 7)))))))) by lia.
  do 7 grid_day H0. grid_eval.
  grid_rest.
Qed.

(** ** Witnesses *)

(** September 2025 starts on a Monday, October 2025 on a Wednesday. *)
Lemma render_grid_weekday_start_witness :
  render_grid 120 2025 9 = expected_grid 2025 9 /\
  expected_grid 2025 9 =
    [[COther; COther; CDay 1; CDay 2; CDay 3]; [CDay 6; CDay 7; CDay 8; CDay 9; CDay 10];
     [CDay 13; CDay 14; CDay 15; CDay 16; CDay 17]; [CDay 20; CDay 21; CDay 22; CDay 23; CDay 24];
     [CDay 27; CDay 28; CDay 29; CDay 30; CDay 31]].
Proof. split; [apply render_grid_weekday_start; [lia | vm_compute; split; discriminate] | reflexivity]. Defined.

(** June 2025 starts on a Sunday. *)
Lemma grid_sunday_start_witness :
  exists rest, render_grid 120 2025 5 =
    (repeat COther 6 ++ [CDay 2; CDay 3; CDay 4; CDay 5; CDay 6]) :: rest.
Proof. apply grid_sunday_start; [lia | reflexivity]. Defined.

(** November 2025 starts on a Saturday. *)
Lemma grid_saturday_start_witness :
  exists rest, render_grid 120 2025 10 =
    repeat COther 5 :: [CDay 3; CDay 4; CDay 5; CDay 6; CDay 7] :: rest.
Proof. apply grid_saturday_start; [lia | reflexivity]. Defined.

Lemma grid_loop_fuel_witness :
  grid_loop 120 2025 8 30 45 1 (repeat COther 0, []) = grid_loop 120 2025 8 30 30 1 (repeat COther 0, []).
Proof. apply (grid_loop_fuel 120 2025 8 30 45 1). vm_compute. lia. Defined.

End Grid.
