(* ===== verification/Interleave.v ===== *)
(** * Concurrent requests ([src/server.js], the [async] entry routes)

    Node runs one handler at a time, but a handler gives way at each
    [await]: between [CalendarEntry.findOne], [findOneAndUpdate] and
    [log.save()] of one PUT, other requests run.  [Prog] is a handler cut at
    its awaits: [Await m k h] performs the store call [m] atomically and
    continues with [k] on its result, or with the [catch] block [h] on a
    rejection; the code between two awaits (building the log record,
    [io.emit], [res.json]) runs with the step that resumes it.  A pool of
    handlers runs under a schedule (the index of the handler that resumes
    at each step) or under the step relation [pool_step], which lets any
    pending handler resume.

    [run_prog] runs one handler alone; the refinement lemmas show it is
    the atomic handler of [Store], and the schedule [serial] that never
    overlaps two requests gives the sequential server.  Invariants of
    every store call hold in every reachable state of any pool
    ([pool_invariant]); the change log is not one of them
    ([concurrent_puts_break_log]).  No handler waits on more than three
    store calls ([awaits_within]): every interleaving terminates
    ([pool_acc]) and three round-robin passes answer every request. *)

From stdpp Require Import base gmap strings list.
From Stdlib Require Import ZArith Lia String.
From S2P Require Import Prelude JsDate DateKey Store Schema Client.

Module Interleave.
Import Store Schema Client.
Local Open Scope Z_scope.

Inductive Prog :=
  | Done (r : Response)
  | Await {B : Type} (m : Db B) (k : B -> Prog) (h : DbError -> Prog).
Arguments Await {B} m k h.

(** Resuming a handler: its pending store call runs and the handler moves
    to its continuation or to its [catch] block. *)
Definition resume {B} (m : Db B) (k : B -> Prog) (h : DbError -> Prog) (s : Server) : Prog * Server :=
  match m s with
  | (Ok b, s') => (k b, s')
  | (Throw e, s') => (h e, s')
  end.

(** A handler run alone to its response. *)
Fixpoint run_prog (p : Prog) (s : Server) : Response * Server :=
  match p with
  | Done r => (r, s)
  | Await m k h =>
      match m s with
      | (Ok b, s') => run_prog (k b) s'
      | (Throw e, s') => run_prog (h e) s'
      end
  end.

Definition reply (code : Z) (p : Payload) : Prog := Done (mkResponse code p).

(** [POST /api/calendar] (lines 190-206): [entry.save()], then
    [log.save()]; [io.emit] and the answer run synchronously when the
    handler resumes after [log.save()], in the same step. *)
Definition post_prog (now : Z) (b : EntryBody) : Prog :=
  let h := fun err => reply 400 (PError err) in
  Await (entry_create b) (fun e =>
  Await (se_bind (log_save now (b_editor b) ACreate (b_dateKey b) None (Some e))
                 (fun _ => emit (EvEntryUpdated e)))
        (fun _ => reply 201 (PEntry e)) h) h.

(** [PUT /api/calendar/:dateKey] (lines 208-229). *)
Definition put_prog (now : Z) (k : string) (b : EntryBody) : Prog :=
  let h := fun err => reply 400 (PError err) in
  Await (find_entry k) (fun old =>
  Await (find_one_and_update k b) (fun upd =>
  Await (se_bind (log_save now (b_editor b) AUpdate (Some k) old (Some upd))
                 (fun _ => emit (EvEntryUpdated upd)))
        (fun _ => reply 200 (PEntry upd)) h) h) h.

(** [DELETE /api/calendar/:dateKey] (lines 231-249). *)
Definition delete_prog (now : Z) (k : string) : Prog :=
  let h := fun err => reply 500 (PError err) in
  Await (find_one_and_delete k) (fun old =>
  match old with
  | None => reply 404 (PMessage "Entrada no encontrada")
  | Some e =>
      Await (se_bind (log_save now (Some "unknown") ADelete (Some k) (Some e) None)
                     (fun _ => emit (EvEntryDeleted k)))
            (fun _ => reply 200 (PMessage "Entrada eliminada")) h
  end) h.

(** The other routes make at most one store call each and run as one
    step. *)
Definition atomic_prog (m : Db Response) : Prog :=
  Await m Done (fun err => reply 500 (PError err)).

Definition prog_of (tz now : Z) (r : Request) : Prog :=
  match r with
  | ReqPostEntry b => post_prog now b
  | ReqPutEntry k b => put_prog now k b
  | ReqDeleteEntry k => delete_prog now k
  | _ => atomic_prog (handle tz now r)
  end.

(** ** Pools of handlers *)

Definition step_at (i : nat) (ps : list Prog) (s : Server) : list Prog * Server :=
  match ps !! i with
  | Some (Await m k h) => let '(p', s') := resume m k h s in (<[i := p']> ps, s')
  | _ => (ps, s)
  end.

(** A schedule: the handler that resumes at each step. *)
Fixpoint exec (sched : list nat) (ps : list Prog) (s : Server) : list Prog * Server :=
  match sched with
  | [] => (ps, s)
  | i :: rest => let '(ps', s') := step_at i ps s in exec rest ps' s'
  end.

Inductive pool_step : list Prog * Server -> list Prog * Server -> Prop :=
  | PoolStep i ps s B (m : Db B) k h :
      ps !! i = Some (Await m k h) -> pool_step (ps, s) (step_at i ps s).

(** Every store call a handler can still make preserves [P]. *)
Fixpoint prog_pres (P : Server -> Prop) (p : Prog) : Prop :=
  match p with
  | Done _ => True
  | Await m k h => se_preserves P m /\ (forall b, prog_pres P (k b)) /\ (forall e, prog_pres P (h e))
  end.

(** The server running the requests one after the other, each handler to
    its response. *)
Definition run_seq (tz : Z) (reqs : list (Z * Request)) (s : Server) : Server :=
  fold_left (fun s '(now, r) => snd (run_prog (prog_of tz now r) s)) reqs s.

(** The schedule that never overlaps two requests: each handler is
    resumed three times, enough for it to answer, before the next one
    starts. *)
Definition serial (n : nat) : list nat := List.concat (map (fun i => repeat i 3%nat) (seq 0 n)).

(** ** A handler alone is the atomic handler *)

Definition implements (p : Prog) (m : Db Response) : Prop :=
  forall s, m s = (Ok (fst (run_prog p s)), snd (run_prog p s)).

(** At most [n] more awaits on every path of a handler. *)
Fixpoint awaits_within (n : nat) (p : Prog) : Prop :=
  match p with
  | Done _ => True
  | Await _ k h =>
      match n with
      | O => False
      | S n => (forall b, awaits_within n (k b)) /\ (forall e, awaits_within n (h e))
      end
  end.

Definition answered (p : Prog) : bool := match p with Done _ => true | Await _ _ _ => false end.

(** [rounds] passes over [n] handlers, each resumed once per pass. *)
Fixpoint round_robin (n rounds : nat) : list nat :=
  match rounds with O => [] | S r => seq 0 n ++ round_robin n r end.

Lemma implements_reply code p : implements (reply code p) (respond code p).
Proof. intros s. reflexivity. Qed.

Lemma implements_reply_catch code p H : implements (reply code p) (se_catch (respond code p) H).
Proof. intros s. reflexivity. Qed.

Lemma implements_await {B} (m : Db B) k h rest H :
  (forall b, implements (k b) (se_catch (rest b) H)) -> (forall e, implements (h e) (H e)) ->
  implements (Await m k h) (se_catch (se_bind m rest) H).
Proof.
  intros Hk Hh s. unfold se_catch, se_bind. simpl. destruct (m s) as [[b|e] s'].
  - specialize (Hk b s'). unfold se_catch in Hk. exact Hk.
  - apply Hh.
Qed.

Lemma implements_atomic m :
  (forall s, exists r s', m s = (Ok r, s')) -> implements (atomic_prog m) m.
Proof. intros Hm s. destruct (Hm s) as (r & s' & E). simpl. by rewrite E. Qed.

(** The step that resumes after [log.save()] also runs [io.emit]. *)
Lemma implements_await_emit {B} (m : Db B) ev k h rest H :
  (forall u, implements (k u) (se_catch (rest u) H)) -> (forall e, implements (h e) (H e)) ->
  implements (Await (se_bind m (fun _ => emit ev)) k h)
    (se_catch (se_bind m (fun _ => se_bind (emit ev) rest)) H).
Proof.
  intros Hk Hh s. pose proof (implements_await (se_bind m (fun _ => emit ev)) k h rest H Hk Hh s) as E.
  unfold se_catch in *. by rewrite se_bind_assoc in E.
Qed.

Ltac refine_prog :=
  repeat (cbv beta; first
    [ match goal with
      | |- implements (Await (se_bind _ (fun _ => emit _)) _ _) _ => apply implements_await_emit; intros
      end
    | apply implements_await; intros
    | apply implements_reply_catch
    | apply implements_reply
    | match goal with |- implements (match ?x with _ => _ end) _ => destruct x end ]).

Lemma post_prog_refines now b : implements (post_prog now b) (post_calendar now b).
Proof. unfold post_prog, post_calendar. cbv zeta. refine_prog. Qed.

Lemma put_prog_refines now k b : implements (put_prog now k b) (put_calendar now k b).
Proof. unfold put_prog, put_calendar. cbv zeta. refine_prog. Qed.

Lemma delete_prog_refines now k : implements (delete_prog now k) (delete_calendar now k).
Proof. unfold delete_prog, delete_calendar. cbv zeta. refine_prog. Qed.

(** The routes other than the entry writes always answer. *)
Lemma handle_answers tz now r s :
  is_entry_write r = false -> exists r' s', handle tz now r s = (Ok r', s').
Proof.
  destruct r; simpl; intros Hw; try discriminate;
    unfold login, get_users, post_user, delete_user, get_month, get_entry, get_logs, upload,
      respond, se_catch, se_bind, se_ret, find_entry, fresh_id, emit, se_modify;
    repeat (case_match; simplify_eq/=); eauto.
Qed.

Lemma prog_refines tz now r : implements (prog_of tz now r) (handle tz now r).
Proof.
  destruct (is_entry_write r) eqn:Ew.
  - destruct r; try discriminate; simpl.
    + apply post_prog_refines.
    + apply put_prog_refines.
    + apply delete_prog_refines.
  - replace (prog_of tz now r) with (atomic_prog (handle tz now r)) by (destruct r; done).
    apply implements_atomic. intros s. by apply handle_answers.
Qed.

Lemma run_seq_run tz reqs s : run_seq tz reqs s = run tz reqs s.
Proof.
  revert s. induction reqs as [|[now r] reqs IH]; intros s; [done|]. simpl.
  rewrite <- IH. f_equal. by rewrite (prog_refines tz now r s).
Qed.

(** Run one after the other, each to its response, the handlers cut at their
    awaits compute exactly what the atomic route handlers compute on any
    sequence of requests. *)
Theorem run_seq_refines tz reqs s : run_seq tz reqs s = run tz reqs s.
Proof. apply run_seq_run. Qed.

(** ** Invariants under every interleaving *)

Lemma pool_step_pres P c c' :
  pool_step c c' -> P (snd c) -> Forall (prog_pres P) (fst c) ->
  P (snd c') /\ Forall (prog_pres P) (fst c').
Proof.
  intros [i ps s B m k h Hi] Hs Hps. simpl in *. unfold step_at. rewrite Hi.
  pose proof (proj1 (Forall_lookup _ _) Hps i _ Hi) as (Hm & Hk & Hh).
  unfold resume. specialize (Hm s Hs). destruct (m s) as [[b|e] s']; simpl in *;
    (split; [done|]); apply Forall_insert; auto.
Qed.

(** If every store call of every pending handler preserves [P], [P] holds
    in every state any interleaving of them reaches. *)
Lemma pool_invariant P c c' :
  rtc pool_step c c' -> P (snd c) -> Forall (prog_pres P) (fst c) ->
  P (snd c') /\ Forall (prog_pres P) (fst c').
Proof.
  induction 1 as [c|c1 c2 c3 H12 H23 IH]; [done|]. intros H1 Hf.
  destruct (pool_step_pres P c1 c2 H12 H1 Hf). by apply IH.
Qed.

(** Split [prog_pres] along a handler, discharging each store call with
    [tac]. *)
Ltac prog_pres_by tac :=
  repeat (cbn [prog_pres reply]; first
    [ exact I
    | match goal with |- se_preserves _ _ => solve [tac] end
    | split | intro
    | case_match ]).

Lemma prog_of_wf tz now r : prog_pres wf (prog_of tz now r).
Proof.
  destruct r; try (split; [apply handle_wf | split; intros; exact I]);
    cbn [prog_of post_prog put_prog delete_prog];
    prog_pres_by ltac:(auto using entry_create_wf, log_save_wf, emit_wf, se_bind_preserves, find_entry_wf,
                         find_one_and_update_wf, find_one_and_delete_wf).
Qed.

Lemma prog_of_schema tz now r : prog_pres schema_ok (prog_of tz now r).
Proof.
  destruct r; try (split; [apply handle_schema | split; intros; exact I]);
    cbn [prog_of post_prog put_prog delete_prog];
    prog_pres_by ltac:(first [solve [apply se_bind_preserves; [schema_call | intros; schema_call]] | schema_call]).
Qed.

Lemma prog_of_pres P tz (reqs : list (Z * Request)) :
  (forall now r, prog_pres P (prog_of tz now r)) ->
  Forall (prog_pres P) (map (fun '(now, r) => prog_of tz now r) reqs).
Proof. intros H. induction reqs as [|[now r] reqs IH]; simpl; constructor; [apply H | exact IH]. Qed.

(** C19: Under any interleaving of the handlers of any requests at their awaits,
    every entry stays stored under its own dateKey, user names and
    identifiers stay distinct, and the users and change-log records keep
    their schemas. *)
Theorem interleaved_wf tz (reqs : list (Z * Request)) s c' :
  wf s -> schema_ok s -> rtc pool_step (map (fun '(now, r) => prog_of tz now r) reqs, s) c' ->
  wf (snd c') /\ schema_ok (snd c').
Proof.
  intros Hw Hs Hr. split.
  - apply (pool_invariant wf _ _ Hr Hw), prog_of_pres, prog_of_wf.
  - apply (pool_invariant schema_ok _ _ Hr Hs), prog_of_pres, prog_of_schema.
Qed.

(** ** Every request is answered *)

Lemma within_done n r : awaits_within n (Done r).
Proof. by destruct n. Qed.

Lemma within_await {B} n (m : Db B) k h :
  (forall b, awaits_within n (k b)) -> (forall e, awaits_within n (h e)) ->
  awaits_within (S n) (Await m k h).
Proof. by split. Qed.

Lemma prog_of_within tz now r : awaits_within 3 (prog_of tz now r).
Proof.
  destruct r; unfold prog_of, post_prog, put_prog, delete_prog, atomic_prog;
    repeat first [apply within_done | apply within_await; intro | case_match].
Qed.

Lemma exec_cons i rest ps s :
  exec (i :: rest) ps s = let '(ps', s') := step_at i ps s in exec rest ps' s'.
Proof. reflexivity. Qed.

Lemma exec_app a b ps s :
  exec (a ++ b) ps s = let '(ps', s') := exec a ps s in exec b ps' s'.
Proof.
  revert ps s. induction a as [|i a IH]; intros ps s; [done|]. simpl.
  destruct (step_at i ps s). apply IH.
Qed.

Lemma step_at_length i ps s : List.length (fst (step_at i ps s)) = List.length ps.
Proof.
  unfold step_at. destruct (ps !! i) as [[|B m k h]|]; [done| |done].
  unfold resume. destruct (m s) as [[]]; apply length_insert.
Qed.

Lemma exec_length sched ps s : List.length (fst (exec sched ps s)) = List.length ps.
Proof.
  revert ps s. induction sched as [|i sched IH]; intros ps s; [done|]. simpl.
  destruct (step_at i ps s) as [ps' s'] eqn:E. rewrite IH.
  change ps' with (fst (ps', s')). rewrite <- E. exact (step_at_length i ps s).
Qed.

(** Resuming a handler with at most [S n] awaits left leaves one with at
    most [n], and the others as they were. *)
Lemma step_at_within n i ps s p :
  ps !! i = Some p -> awaits_within (S n) p ->
  exists p', fst (step_at i ps s) = <[i := p']> ps /\ awaits_within n p'.
Proof.
  intros Hi Hp. unfold step_at. rewrite Hi. destruct p as [r|B m k h].
  - exists (Done r). split; [by rewrite list_insert_id|apply within_done].
  - destruct Hp as [Hk Hh]. unfold resume. destruct (m s) as [[b|e] s'].
    + by exists (k b). + by exists (h e).
Qed.

(** One pass over the handlers [j], ..., [j + m - 1] when those before [j]
    have at most [n] awaits left and the others at most [S n]. *)
Lemma pass_within (n m : nat) : forall (j : nat) ps s,
  (j + m)%nat = List.length ps ->
  (forall i p, ps !! i = Some p -> awaits_within (if decide (i < j)%nat then n else S n) p) ->
  Forall (awaits_within n) (fst (exec (seq j m) ps s)).
Proof.
  induction m as [|m IH]; intros j ps s Hl Hps; simpl.
  - apply Forall_lookup. intros i p Hi. specialize (Hps i p Hi).
    apply lookup_lt_Some in Hi. by rewrite decide_True in Hps by lia.
  - destruct (lookup_lt_is_Some_2 ps j ltac:(lia)) as [p Hj].
    pose proof (Hps j p Hj) as Hp. rewrite decide_False in Hp by lia.
    destruct (step_at_within n j ps s p Hj Hp) as [p' [Hs Hp']].
    destruct (step_at j ps s) as [ps' s'] eqn:E. simpl in Hs. subst ps'.
    apply IH; [rewrite length_insert; lia|]. intros i q Hi.
    destruct (decide (i = j)) as [->|Hne].
    + rewrite list_lookup_insert_eq in Hi by lia. injection Hi as <-.
      by rewrite decide_True by lia.
    + rewrite list_lookup_insert_ne in Hi by done. specialize (Hps i q Hi).
      destruct (decide (i < j)%nat), (decide (i < S j)%nat); try lia; done.
Qed.

Lemma rounds_answer n ps s :
  Forall (awaits_within n) ps ->
  Forall (fun p => answered p = true) (fst (exec (round_robin (List.length ps) n) ps s)).
Proof.
  revert ps s. induction n as [|n IH]; intros ps s Hps; simpl.
  - eapply Forall_impl; [exact Hps|]. by intros [].
  - rewrite exec_app. destruct (exec (seq 0 (List.length ps)) ps s) as [ps' s'] eqn:E.
    assert (Hw : Forall (awaits_within n) ps').
    { change ps' with (fst (ps', s')). rewrite <- E. apply pass_within; [lia|].
      intros i p Hi. rewrite decide_False by lia. exact (proj1 (Forall_lookup _ _) Hps i p Hi). }
    assert (Hl : List.length ps' = List.length ps).
    { change ps' with (fst (ps', s')). rewrite <- E. apply exec_length. }
    rewrite <- Hl. by apply IH.
Qed.

(** Whatever requests are pending together, three round-robin passes over
    their handlers leave every one of them answered: no route waits on more
    than three store calls. *)
Theorem round_robin_answers tz (reqs : list (Z * Request)) s :
  Forall (fun p => answered p = true)
    (fst (exec (round_robin (List.length reqs) 3) (map (fun '(now, r) => prog_of tz now r) reqs) s)).
Proof.
  rewrite <- (length_map (fun '(now, r) => prog_of tz now r) reqs). apply rounds_answer.
  apply Forall_forall. intros p Hp. apply list_elem_of_fmap in Hp as [[now r] [-> _]].
  apply prog_of_within.
Qed.

Lemma sum_insert_lt (ns : list nat) i n :
  ns !! i = Some (S n) -> (sum_list (<[i := n]> ns) < sum_list ns)%nat.
Proof.
  revert i. induction ns as [|x ns IH]; intros [|i] Hi; simpl in *; try discriminate.
  - injection Hi as ->. lia.
  - specialize (IH i Hi). lia.
Qed.

(** A pool whose handlers have at most [ns] awaits left has no infinite
    interleaving: each step uses up one await of one handler. *)
Lemma pool_acc (N : nat) : forall ns ps s,
  Forall2 awaits_within ns ps -> (sum_list ns < N)%nat -> Acc (fun y x => pool_step x y) (ps, s).
Proof.
  induction N as [|N IH]; intros ns ps s Hns HN; [lia|]. constructor. intros [ps' s'] Hstep.
  inversion Hstep as [i ? ? B m k h Hi]; subst.
  destruct (Forall2_lookup_r _ _ _ _ _ Hns Hi) as [[|n] [Hn Hb]]; [done|].
  destruct (step_at_within n i ps s _ Hi Hb) as [p' [Hs Hp']].
  destruct (step_at i ps s) as [ps1 s1]. simpl in Hs. subst ps1.
  apply (IH (<[i := n]> ns)).
  - by apply Forall2_insert.
  - pose proof (sum_insert_lt ns i n Hn). lia.
Qed.

(** No interleaving of the handlers of any set of requests goes on forever:
    resuming one pending handler at a time is a well-founded relation from
    every pool of requests. *)
Theorem interleavings_terminate tz (reqs : list (Z * Request)) s :
  Acc (fun y x => pool_step x y) (map (fun '(now, r) => prog_of tz now r) reqs, s).
Proof.
  apply (pool_acc (S (sum_list (map (fun _ => 3%nat) reqs))) (map (fun _ => 3%nat) reqs)); [|lia].
  induction reqs as [|[now r] reqs IH]; simpl; constructor; [apply prog_of_within|exact IH].
Qed.

(** In a pool where no handler can resume, every request has its
    answer. *)
Lemma stuck_answered ps s :
  (forall c, ~ pool_step (ps, s) c) -> Forall (fun p => answered p = true) ps.
Proof.
  intros Hs. apply Forall_lookup. intros i [r|B m k h] Hi; [done|].
  exfalso. apply (Hs (step_at i ps s)). by econstructor.
Qed.

(** ** Requests that do not overlap *)

(** Resuming one handler [k] times, when it has at most [k] awaits left,
    runs it to its answer. *)
Lemma exec_repeat i k : forall p ps s,
  ps !! i = Some p -> awaits_within k p ->
  exec (repeat i k) ps s = (<[i := Done (fst (run_prog p s))]> ps, snd (run_prog p s)).
Proof.
  induction k as [|k IH]; intros p ps s Hi Hp.
  - destruct p as [r|]; [|done]. simpl. by rewrite list_insert_id.
  - change (repeat i (S k)) with (i :: repeat i k). rewrite exec_cons. unfold step_at. rewrite Hi. destruct p as [r|B m kk h].
    + rewrite (IH (Done r)); [|done|apply within_done]. simpl. by rewrite list_insert_id.
    + destruct Hp as [Hk Hh]. unfold resume. simpl.
      assert (Hlt : (i < List.length ps)%nat) by (by apply lookup_lt_Some in Hi).
      destruct (m s) as [[b|e] s'];
        [rewrite (IH (kk b)) | rewrite (IH (h e))];
        by rewrite ?list_insert_insert_eq, ?list_lookup_insert_eq.
Qed.

Lemma exec_serial n : forall j ps s,
  (j + n <= List.length ps)%nat -> Forall (awaits_within 3) ps ->
  snd (exec (List.concat (map (fun i => repeat i 3%nat) (seq j n))) ps s) =
    fold_left (fun s p => snd (run_prog p s)) (take n (drop j ps)) s.
Proof.
  induction n as [|n IH]; intros j ps s Hl Hps; [by rewrite take_0|].
  destruct (lookup_lt_is_Some_2 ps j ltac:(lia)) as [p Hj].
  cbn [seq map List.concat]. rewrite exec_app, (exec_repeat j 3 p ps s Hj).
  2: exact (proj1 (Forall_lookup _ _) Hps j p Hj).
  rewrite IH; [|rewrite length_insert; lia|].
  - rewrite (drop_S ps p j Hj), drop_insert_lt by lia. reflexivity.
  - apply Forall_insert; [done|apply within_done].
Qed.

(** When no two requests overlap (each handler, cut at its awaits, is
    resumed until it answers before the next one starts), the interleaved
    server computes the same store as the sequential route handlers of Store
    on any sequence of requests. *)
Theorem serial_schedule_equiv tz (reqs : list (Z * Request)) s :
  snd (exec (serial (List.length reqs)) (map (fun '(now, r) => prog_of tz now r) reqs) s) =
    run tz reqs s.
Proof.
  rewrite <- run_seq_run. unfold serial.
  rewrite <- (length_map (fun '(now, r) => prog_of tz now r) reqs).
  rewrite exec_serial; [|lia|].
  - rewrite drop_0, firstn_all. unfold run_seq. clear.
    revert s. induction reqs as [|[now r] reqs IH]; intros s; [done|]. apply IH.
  - apply Forall_forall. intros p Hp. apply list_elem_of_fmap in Hp as [[now r] [-> _]].
    apply prog_of_within.
Qed.

(** ** Two PUTs of one key interleaved *)

Lemma step_at_ok i ps s {B} (m : Db B) k h b s' :
  ps !! i = Some (Await m k h) -> m s = (Ok b, s') -> step_at i ps s = (<[i := k b]> ps, s').
Proof. intros Hi Hm. unfold step_at, resume. by rewrite Hi, Hm. Qed.

Lemma find_entry_some k s e : entries s !! k = Some e -> find_entry k s = (Ok (Some e), s).
Proof. intros He. unfold find_entry. by rewrite He. Qed.

Lemma upserted_stored s k b e : entries s !! k = Some e -> upserted s k b = apply_set b e.
Proof. intros He. unfold upserted, upsert_base_of. by rewrite He. Qed.

Lemma find_one_and_update_stored k b s e :
  entries_keyed (entries s) -> keeps_key k b -> entries s !! k = Some e ->
  find_one_and_update k b s = (Ok (apply_set b e), set_entries (<[k := apply_set b e]> (entries s)) s).
Proof.
  intros Hw Hk He. rewrite find_one_and_update_ok by done. unfold upsert_state.
  rewrite (upserted_stored s k b e He), He. reflexivity.
Qed.

Lemma replay_app m l1 l2 :
  replay m (l1 ++ l2) = match replay m l1 with Some m' => replay m' l2 | None => None end.
Proof.
  revert m. induction l1 as [|l l1 IH]; intros m; [done|]. simpl.
  destruct (replay_step m l); [apply IH|done].
Qed.

(** Resume handler [i], whose pending call answers [Ok]. *)
Ltac resume_ok i tac :=
  rewrite exec_cons; erewrite (step_at_ok i); [cbv beta | reflexivity | tac].

(** Both handlers read the stored entry; then the first one writes, logs
    and answers; then the second. *)
Definition race_schedule : list nat := [0; 1; 0; 0; 1; 1]%nat.

Lemma puts_race now1 now2 k b1 b2 u1 u2 s e0 :
  entries_keyed (entries s) -> entries s !! k = Some e0 -> k <> "" ->
  keeps_key k b1 -> keeps_key k b2 -> b_editor b1 = Some u1 -> u1 <> "" ->
  b_editor b2 = Some u2 -> u2 <> "" ->
  exists s',
    exec race_schedule [put_prog now1 k b1; put_prog now2 k b2] s =
      ([reply 200 (PEntry (apply_set b1 e0)); reply 200 (PEntry (apply_set b2 (apply_set b1 e0)))], s') /\
    logs s' = logs s ++ [mkLog now1 u1 AUpdate k (Some e0) (Some (apply_set b1 e0));
                         mkLog now2 u2 AUpdate k (Some e0) (Some (apply_set b2 (apply_set b1 e0)))] /\
    entries s' = <[k := apply_set b2 (apply_set b1 e0)]> (entries s).
Proof.
  intros Hw He Hk Hk1 Hk2 Hb1 Hu1 Hb2 Hu2. unfold race_schedule.
  resume_ok 0%nat ltac:(by apply find_entry_some).
  resume_ok 1%nat ltac:(by apply find_entry_some).
  resume_ok 0%nat ltac:(by apply find_one_and_update_stored).
  resume_ok 0%nat ltac:(rewrite Hb1; erewrite se_bind_ok; [reflexivity | by apply log_save_ok]).
  resume_ok 1%nat ltac:(apply find_one_and_update_stored; [| done | simpl; apply lookup_insert_eq];
                        simpl; apply entries_keyed_insert; [done|];
                        rewrite <- (upserted_stored s k b1 e0 He); by apply upserted_keyed).
  resume_ok 1%nat ltac:(rewrite Hb2; erewrite se_bind_ok; [reflexivity | by apply log_save_ok]).
  simpl. eexists. split; [reflexivity|]. simpl. rewrite <- app_assoc. split; [reflexivity|].
  apply insert_insert_eq.
Qed.

(** A log ending in two updates of [k] from the same stale [previousData]
    no longer replays, once the first one changed the entry. *)
Lemma stale_log_not_faithful s s' k e0 e1 e2 now1 now2 u1 u2 :
  log_faithful s -> entries s !! k = Some e0 -> e1 <> e0 ->
  logs s' = logs s ++ [mkLog now1 u1 AUpdate k (Some e0) (Some e1);
                       mkLog now2 u2 AUpdate k (Some e0) (Some e2)] ->
  ~ log_faithful s'.
Proof.
  unfold log_faithful. intros Hf He Hne Hl H. rewrite Hl in H.
  change [mkLog now1 u1 AUpdate k (Some e0) (Some e1); mkLog now2 u2 AUpdate k (Some e0) (Some e2)]
    with ([mkLog now1 u1 AUpdate k (Some e0) (Some e1)] ++ [mkLog now2 u2 AUpdate k (Some e0) (Some e2)])
    in H.
  rewrite app_assoc, !replay_snoc, Hf in H. unfold replay_step in H. simpl in H.
  rewrite decide_True in H by done. simpl in H. rewrite decide_False in H; [done|].
  rewrite lookup_insert_eq. congruence.
Qed.

(** C10: Two PUTs of one key that both read the entry before either writes both
    answer 200, but the second record's previousData is the entry before the
    first write, so the change log no longer replays to the store. *)
Theorem concurrent_puts_break_log now1 now2 k b1 b2 u1 u2 s e0 :
  wf s -> log_faithful s -> entries s !! k = Some e0 -> k <> "" ->
  keeps_key k b1 -> keeps_key k b2 -> b_editor b1 = Some u1 -> u1 <> "" ->
  b_editor b2 = Some u2 -> u2 <> "" -> apply_set b1 e0 <> e0 ->
  exists s',
    exec race_schedule [put_prog now1 k b1; put_prog now2 k b2] s =
      ([reply 200 (PEntry (apply_set b1 e0)); reply 200 (PEntry (apply_set b2 (apply_set b1 e0)))], s') /\
    In (mkLog now2 u2 AUpdate k (Some e0) (Some (apply_set b2 (apply_set b1 e0)))) (logs s') /\
    ~ log_faithful s'.
Proof.
  intros [Hw _] Hf He Hk Hk1 Hk2 Hb1 Hu1 Hb2 Hu2 Hne.
  destruct (puts_race now1 now2 k b1 b2 u1 u2 s e0) as (s' & Hx & Hl & _); try done.
  exists s'. split; [done|]. split.
  - rewrite Hl. apply in_or_app. right. right. by left.
  - by apply (stale_log_not_faithful s s' k e0 (apply_set b1 e0) (apply_set b2 (apply_set b1 e0)) now1 now2 u1 u2).
Qed.



(** ** Witnesses *)

(** The store after Bob created Ana's entry of ["2025-09-18"]. *)
Definition s_ana : Server := snd (put_calendar 1000 key_0918 body_ana initial_server).
Definition entry_ana : Entry := upserted initial_server key_0918 body_ana.
Definition body_eva : EntryBody := mkBody (Some key_0918) (Some "Eva") None None (Some "Carla") None.

Lemma s_ana_wf : wf s_ana.
Proof. split; [apply map_Forall_singleton; reflexivity | split; constructor]. Qed.

Lemma s_ana_faithful : log_faithful s_ana.
Proof. reflexivity. Qed.

Lemma s_ana_schema : schema_ok s_ana.
Proof. split; repeat constructor; try discriminate. by eexists. Qed.

Lemma interleaved_wf_witness :
  let c' := step_at 0 [prog_of 120 2000 (ReqPutEntry key_0918 body_eva);
                       prog_of 120 2001 (ReqPutEntry key_0918 body_phone)] s_ana in
  wf (snd c') /\ schema_ok (snd c').
Proof.
  apply (interleaved_wf 120 [(2000, ReqPutEntry key_0918 body_eva); (2001, ReqPutEntry key_0918 body_phone)] s_ana);
    [apply s_ana_wf | apply s_ana_schema | apply rtc_once; econstructor; reflexivity].
Defined.

(** Carla renames Ana to Eva while Bob adds the phone. *)
Lemma concurrent_puts_break_log_witness :
  exists s',
    exec race_schedule [put_prog 2000 key_0918 body_eva; put_prog 2001 key_0918 body_phone] s_ana =
      ([reply 200 (PEntry (apply_set body_eva entry_ana));
        reply 200 (PEntry (apply_set body_phone (apply_set body_eva entry_ana)))], s') /\
    In (mkLog 2001 "Bob" AUpdate key_0918 (Some entry_ana)
          (Some (apply_set body_phone (apply_set body_eva entry_ana)))) (logs s') /\
    ~ log_faithful s'.
Proof.
  apply (concurrent_puts_break_log 2000 2001 key_0918 body_eva body_phone "Carla" "Bob" s_ana entry_ana);
    first [apply s_ana_wf | apply s_ana_faithful | reflexivity | discriminate | (right; reflexivity)].
Defined.



End Interleave.
