(* ===== verification/Session.v ===== *)
(** * Login and application start ([src/public/cuadrante.js], lines 46-124, 148-176, 357-420)

    Before login the page shows the login modal; [handleLogin] trims the
    identifier, refuses an empty one, posts it to [/api/login] and, on an ok
    answer, stores [loggedInUser], hides the modal and runs [mainAppInit].
    [mainAppInit] greets the user, hides the administration buttons of a
    non-admin ([applyPermissions]), awaits [loadUsers], fills the year
    selector from the current year to [MAX_YEAR] and renders the month.
    [renderUserList] gives a delete button to every user but the logged-in
    one.

    The record [Session] adds to the [Client] state of [Client.v] what these
    functions change: whether a user is logged in, the login error shown,
    the visibility of the login modal, of the main container and of the two
    buttons [applyPermissions] hides, the greeting and the year options.
    Before login the [me] field of the client is not read (the listeners
    that read [loggedInUser] are attached by [mainAppInit]).  The two halves
    of [mainAppInit], before and after its [await loadUsers()], are two
    functions; the answer of a request is an argument of the continuation,
    as in [Client.v]. *)

From stdpp Require Import base gmap strings list.
From Stdlib Require Import ZArith Lia String.
From S2P Require Import Prelude Store Schema Client Sync.

Module Session.
Import Store Schema Client Sync.
Local Open Scope Z_scope.

Record Session := mkSession {
  client : Client;
  logged_in : bool;
  login_error : option string;
  login_modal : bool;
  main_shown : bool;
  greeting : string;
  admin_hidden : bool;
  year_options : list Z
}.

Definition MAX_YEAR : Z := 2030.

Definition show_login_error (msg : string) (ss : Session) : Session :=
  mkSession (client ss) (logged_in ss) (Some msg) (login_modal ss) (main_shown ss)
    (greeting ss) (admin_hidden ss) (year_options ss).

(** The [click] of the login button: [handleLogin] up to its [fetch]. *)
Definition handle_login (input : string) (ss : Session) : Session * list Request :=
  match login_request input with
  | None => (show_login_error "El identificador no puede estar vacío." ss, [])
  | Some r => (ss, [r])
  end.

Definition set_me (u : User) (c : Client) : Client :=
  mkClient u (c_users c) (curMonth c) (curYear c) (monthData c) (userModalOpen c) (tz c).

(** [applyPermissions]: the two buttons are hidden for a non-admin. *)
Definition applyPermissions (ss : Session) : bool :=
  admin_hidden ss || negb (bool_decide (user_role (me (client ss)) = Admin)).

(** [mainAppInit] up to [await loadUsers()]: the request of [loadUsers]. *)
Definition mainAppInit (ss : Session) : Session * list Request :=
  (mkSession (client ss) (logged_in ss) (login_error ss) (login_modal ss) true
     ("Hola, " +:+ user_name (me (client ss))) (applyPermissions ss) (year_options ss),
   [ReqGetUsers]).

(** The answer to [/api/login]: a status outside 200-299 is an error
    message (404 and any other); an ok answer carries the user.  The
    server's ok answer to a login is always a user ([Store.login]); a
    request the server does not answer ([Throw]) leaves the page
    waiting. *)
Definition on_login_response (r : outcome DbError Response) (ss : Session)
    : Session * list Request :=
  match r with
  | Ok (mkResponse st p) =>
      if (200 <=? st) && (st <=? 299) then
        match p with
        | PUser u =>
            mainAppInit (mkSession (set_me u (client ss)) true (login_error ss) false
                           (main_shown ss) (greeting ss) (admin_hidden ss) (year_options ss))
        | _ => (ss, [])
        end
      else if st =? 404 then (show_login_error "Identificador no encontrado." ss, [])
      else (show_login_error "Error en el servidor." ss, [])
  | Throw _ => (ss, [])
  end.

(** [for (let y = startYear; y <= MAX_YEAR; y++)]. *)
Fixpoint year_range (y : Z) (n : nat) : list Z :=
  match n with
  | O => []
  | S n => y :: year_range (y + 1) n
  end.

Definition years_from (startYear : Z) : list Z :=
  year_range startYear (Z.to_nat (MAX_YEAR - startYear + 1)).

(** [loadUsers]: [users] becomes the answer's list ([GET /api/users]
    always answers a list, [Store.get_users]); a failed request keeps the
    old list. *)
Definition loadUsers_response (r : outcome DbError Response) (c : Client) : Client :=
  match r with
  | Ok (mkResponse _ (PUsers us)) => set_c_users us c
  | _ => c
  end.

(** [mainAppInit] after [await loadUsers()]: the year options are
    appended and [renderCalendar] asks for the month. *)
Definition after_loadUsers (startYear : Z) (r : outcome DbError Response) (ss : Session)
    : Session * list Request :=
  let c := loadUsers_response r (client ss) in
  (mkSession c (logged_in ss) (login_error ss) (login_modal ss) (main_shown ss)
     (greeting ss) (admin_hidden ss) (year_options ss ++ years_from startYear),
   [render_request c]).

(** [renderUserList]: each user with whether its row has a delete
    button. *)
Definition renderUserList (c : Client) : list (User * bool) :=
  map (fun u => (u, negb (Nat.eqb (user_id (me c)) (user_id u)))) (c_users c).

Definition set_userModalOpen (b : bool) (c : Client) : Client :=
  mkClient (me c) (c_users c) (curMonth c) (curYear c) (monthData c) b (tz c).

(** The [Gestionar usuarios] button renders the list and opens the modal;
    the close button hides it. *)
Definition on_manage_users_click (c : Client) : Client * list (User * bool) :=
  (set_userModalOpen true c, renderUserList c).

Definition on_close_modal (c : Client) : Client := set_userModalOpen false c.

(** The [keypress] listener of the identifier input. *)
Definition on_login_keypress (key input : string) (ss : Session) : Session * list Request :=
  if String.eqb key "Enter" then handle_login input ss else (ss, []).

(** The delete button of a user, once [confirm] answered. *)
Definition on_delete_user_click (u : User) (confirmed : bool) : list Request :=
  if confirmed then [ReqDeleteUser (user_id u)] else [].

(** The login seen end to end: the click, the server's handling of the
    request it sends, and the page's handling of the answer. *)
Definition login_exchange (tzs now : Z) (input : string) (ss : Session) (s : Server)
    : Session * list Request * Server :=
  match handle_login input ss with
  | (ss1, [r]) =>
      let '(o, s1) := handle tzs now r s in
      let '(ss2, rs) := on_login_response o ss1 in (ss2, rs, s1)
  | (ss1, _) => (ss1, [], s)
  end.

(** The page before login: the login modal is shown and nothing else. *)
Definition initial (c : Client) : Session := mkSession c false None true false "" false [].

(** The session's user list is the store's ([users] of cuadrante.js after
    [loadUsers], kept by the [userAdded]/[userDeleted] listeners). *)
Definition users_ok (s : Server) (c : Client) : Prop := c_users c = users s.

(** A state reached from one with users [U] and outbox [O] by calls that
    wrote no user and broadcast no user event. *)
Definition entry_outbox (U : list User) (O : list Event) (s : Server) : Prop :=
  users s = U /\ exists l, outbox s = O ++ l /\ Forall (fun ev => is_user_event ev = false) l.

(** ** Lemmas *)

Lemma NoDup_map_inj_on {A B} (f : A -> B) (l : list A) x y :
  NoDup (map f l) -> x ∈ l -> y ∈ l -> f x = f y -> x = y.
Proof.
  induction l as [|z l IH]; simpl; intros Hnd Hx Hy Hf; [by apply elem_of_nil in Hx|].
  apply NoDup_cons in Hnd as [Hz Hnd].
  apply elem_of_cons in Hx as [->|Hx]; apply elem_of_cons in Hy as [->|Hy]; try done.
  - exfalso. apply Hz. rewrite Hf. by apply (list_elem_of_fmap_2 f).
  - exfalso. apply Hz. rewrite <- Hf. by apply (list_elem_of_fmap_2 f).
  - by apply IH.
Qed.

(** With distinct identifiers, [findOne({ identifier })] finds the user of
    that identifier. *)
Lemma login_found s u :
  users_unique (users s) -> u ∈ users s ->
  login (user_identifier u) s = (Ok (mkResponse 200 (PUser u)), s).
Proof.
  intros [_ Hnd] Hu. unfold login.
  destruct (List.find _ (users s)) as [v|] eqn:E.
  - apply List.find_some in E as [Hv Hid]. apply String.eqb_eq in Hid.
    apply list_elem_of_In in Hv. by rewrite (NoDup_map_inj_on user_identifier (users s) v u).
  - apply list_elem_of_In, (List.find_none _ _ E) in Hu. by rewrite String.eqb_refl in Hu.
Qed.

Lemma login_missing s i :
  (forall v, v ∈ users s -> user_identifier v <> i) ->
  login i s = (Ok (mkResponse 404 (PMessage "Identificador no encontrado")), s).
Proof.
  intros H. unfold login. destruct (List.find _ (users s)) as [v|] eqn:E; [|done].
  apply List.find_some in E as [Hv Hid]. apply String.eqb_eq in Hid.
  exfalso. apply (H v); [by apply list_elem_of_In|done].
Qed.

Lemma handle_login_sent input ss :
  trim input <> "" -> handle_login input ss = (ss, [ReqLogin (trim input)]).
Proof. intros H. unfold handle_login, login_request. by rewrite (proj2 (String.eqb_neq _ _) H). Qed.

Lemma year_range_elem a n y : y ∈ year_range a n <-> a <= y < a + Z.of_nat n.
Proof.
  revert a. induction n as [|n IH]; intros a; simpl.
  - split; [by intros ?%elem_of_nil|lia].
  - rewrite elem_of_cons, IH. lia.
Qed.

(** ** Login *)

(** C22: Submitting the identifier of a stored user (identifiers distinct), with
    or without surrounding white space, logs that user in end to end: the
    server answers 200 with the user, the login modal is hidden, the main
    container is shown with the greeting, the administration buttons are
    hidden unless the user is an admin, and loadUsers is requested. *)
Theorem login_as_user tzs now input ss s u :
  wf s -> u ∈ users s -> trim input = user_identifier u -> user_identifier u <> "" ->
  login_exchange tzs now input ss s =
    (mkSession (set_me u (client ss)) true (login_error ss) false true ("Hola, " +:+ user_name u)
       (admin_hidden ss || negb (bool_decide (user_role u = Admin))) (year_options ss),
     [ReqGetUsers], s).
Proof.
  intros [_ Hu] Hin Hi Hne. unfold login_exchange.
  rewrite handle_login_sent by congruence. rewrite Hi.
  change (handle tzs now (ReqLogin (user_identifier u)) s) with (login (user_identifier u) s).
  by rewrite (login_found s u Hu Hin).
Qed.

(** C37: When no stored user has the trimmed identifier, the login shows the
    empty-identifier error without sending anything, or the 404 answer's
    message 'Identificador no encontrado.', and changes nothing else in the
    page or the store. *)
Theorem login_refused tzs now input ss s :
  (forall v, v ∈ users s -> user_identifier v <> trim input) ->
  login_exchange tzs now input ss s =
    (show_login_error (if String.eqb (trim input) "" then "El identificador no puede estar vacío."
                       else "Identificador no encontrado.") ss, [], s).
Proof.
  intros H. unfold login_exchange. destruct (String.eqb_spec (trim input) "") as [He|He].
  - unfold handle_login, login_request. by rewrite He.
  - rewrite handle_login_sent by done.
    change (handle tzs now (ReqLogin (trim input)) s) with (login (trim input) s).
    by rewrite (login_missing s (trim input) H).
Qed.



(** ** The year selector and the user list *)

(** The year selector offers exactly the years from the current one to
    MAX_YEAR = 2030: past years are never offered and from 2031 on the list
    is empty. *)
Theorem years_from_range startYear y :
  y ∈ years_from startYear <-> startYear <= y <= MAX_YEAR.
Proof. unfold years_from, MAX_YEAR. rewrite year_range_elem. lia. Qed.

(** In the user list every user but the logged-in one, and only those,
    has a delete button. *)
Theorem delete_buttons_others c u b :
  (u, b) ∈ renderUserList c -> (b = true <-> user_id u <> user_id (me c)).
Proof.
  unfold renderUserList. intros Hin. apply (list_elem_of_fmap_1 _) in Hin as [v [Hv _]].
  injection Hv as -> ->. destruct (Nat.eqb_spec (user_id (me c)) (user_id v)); simpl;
    split; congruence.
Qed.

(** ** The user list follows the store *)

Lemma apply_entry_events evs c :
  Forall (fun ev => is_user_event ev = false) evs -> c_users (apply_events evs c) = c_users c.
Proof.
  revert c. induction evs as [|ev evs IH]; intros c Hall; [done|].
  inversion Hall as [|? ? Hev Hrest]; subst. simpl. rewrite IH by done.
  destruct ev; try discriminate; simpl; [unfold on_entryUpdated|unfold on_entryDeleted]; by case_match.
Qed.

Lemma entry_outbox_frame {A} U O (m : Db A) :
  (forall L U O, se_preserves (docs_at L U O) m) -> se_preserves (entry_outbox U O) m.
Proof. intros H. apply (docs_frame _ _ H). intros s s' _ Hu Ho. unfold entry_outbox. by rewrite Hu, Ho. Qed.

Lemma emit_entry_outbox U O ev :
  is_user_event ev = false -> se_preserves (entry_outbox U O) (emit ev).
Proof.
  intros Hev. apply se_modify_preserves. intros s [Hu (l & Hl & Hf)]. split; [done|].
  exists (l ++ [ev]). simpl. rewrite Hl, app_assoc. split; [done|].
  apply Forall_app. split; [done|]. by constructor.
Qed.

Lemma log_save_entry_outbox U O now u a k p n :
  se_preserves (entry_outbox U O) (log_save now u a k p n).
Proof.
  unfold log_save. preserve; [apply entry_outbox_frame; intros ???; auto with cuad..|].
  intros s Hs. exact Hs.
Qed.

(** The calendar routes and the reads write no user and broadcast only
    entry events. *)
Lemma entry_routes_outbox tz now r U O :
  (forall b, r <> ReqPostUser b) -> (forall id, r <> ReqDeleteUser id) ->
  se_preserves (entry_outbox U O) (handle tz now r).
Proof.
  intros Hp Hd. destruct r; simpl; try (exfalso; by eapply Hp); try (exfalso; by eapply Hd).
  all: try (intros s Hs; unfold login; by repeat case_match).
  all: repeat first [ progress unfold get_entry, post_calendar, put_calendar, delete_calendar, upload
                    | progress preserve
                    | apply log_save_entry_outbox
                    | (apply emit_entry_outbox; done)
                    | (apply entry_outbox_frame; intros ???; auto with cuad)
                    | apply respond_preserves
                    | (destruct f) ].
Qed.

Lemma fold_entry_outbox s s' c :
  entry_outbox (users s) (outbox s) s' -> users_ok s c -> users_ok s' (apply_events (new_events s s') c).
Proof.
  intros [Hu (l & Hl & Hf)] Hc. unfold users_ok, new_events. rewrite Hl, drop_app_length, Hu.
  by rewrite apply_entry_events.
Qed.

Lemma post_user_users s c b :
  users_ok s c -> users_ok (snd (post_user b s)) (apply_events (new_events s (snd (post_user b s))) c).
Proof.
  intros Hc. unfold post_user, se_bind, se_catch, fresh_id. simpl.
  set (s1 := set_next_id (S (next_id s)) s).
  pose proof (user_validate_state (next_id s) b s1) as Hst.
  destruct (user_validate (next_id s) b s1) as [[u|e] s2] eqn:E; simpl in Hst; subst s2; simpl.
  - unfold user_insert.
    destruct (List.existsb _ (users s1)); [unfold users_ok, new_events; simpl; by rewrite drop_all|].
    destruct (List.existsb _ (users s1)); [unfold users_ok, new_events; simpl; by rewrite drop_all|].
    unfold users_ok, new_events. simpl. rewrite drop_app_length. simpl. by rewrite Hc.
  - unfold new_events. simpl. by rewrite drop_all.
Qed.

Lemma delete_user_users s c id :
  users_ok s c -> users_ok (snd (delete_user id s)) (apply_events (new_events s (snd (delete_user id s))) c).
Proof.
  intros Hc. unfold delete_user. destruct (List.find _ (users s)) as [u|] eqn:E; simpl.
  - apply List.find_some in E as [_ Hid]. apply Nat.eqb_eq in Hid.
    unfold users_ok, new_events. simpl. rewrite drop_app_length. simpl. by rewrite Hc, Hid.
  - unfold new_events. by rewrite drop_all.
Qed.

(** C23: A session whose user list is the store's keeps it so after the server
    handles any request and the session receives the events that request
    broadcast: a created user is appended on both sides, a deleted one
    removed from both, and no other route changes either. *)
Theorem users_sync tz now r s c :
  users_ok s c ->
  users_ok (snd (handle tz now r s)) (apply_events (new_events s (snd (handle tz now r s))) c).
Proof.
  intros Hc.
  assert (Hothers : (forall b, r <> ReqPostUser b) -> (forall id, r <> ReqDeleteUser id) ->
            users_ok (snd (handle tz now r s)) (apply_events (new_events s (snd (handle tz now r s))) c)).
  { intros Hp Hd. apply fold_entry_outbox; [|done]. apply (entry_routes_outbox tz now r _ _ Hp Hd).
    split; [done|]. exists []. by rewrite app_nil_r. }
  destruct r; try (apply Hothers; intros ??; discriminate).
  - by apply post_user_users.
  - by apply delete_user_users.
Qed.

(** ** Witnesses *)

Definition eva : User := mkUser 1 "Eva" "7777" Viewer.
Definition admin_server : Server := mkServer [gustavo; eva] ∅ [] 2 [].
Definition eva_session : Session := initial (mkClient eva [] 8 2025 ∅ false 120).

Lemma admin_server_wf : wf admin_server.
Proof. split; [apply map_Forall_empty|split; apply (bool_decide_unpack _); by vm_compute]. Qed.

Lemma login_as_user_witness :
  login_exchange 120 0 " 7777 " eva_session admin_server =
    (mkSession (set_me eva (client eva_session)) true None false true "Hola, Eva" true [],
     [ReqGetUsers], admin_server).
Proof.
  rewrite (login_as_user 120 0 " 7777 " eva_session admin_server eva admin_server_wf);
    [reflexivity|set_solver|reflexivity|discriminate].
Defined.

Lemma login_refused_witness :
  login_exchange 120 0 "1234" eva_session admin_server =
    (show_login_error "Identificador no encontrado." eva_session, [], admin_server).
Proof.
  rewrite (login_refused 120 0 "1234" eva_session admin_server); [reflexivity|].
  intros v Hv. repeat (apply elem_of_cons in Hv as [->|Hv]; [discriminate|]). by apply elem_of_nil in Hv.
Defined.



Lemma years_from_range_witness :
  2030 ∈ years_from 2025 /\ ~ 2031 ∈ years_from 2025 /\ years_from 2031 = [].
Proof.
  split; [apply years_from_range; unfold MAX_YEAR; lia|].
  split; [rewrite years_from_range; unfold MAX_YEAR; lia|reflexivity].
Defined.

Lemma delete_buttons_others_witness :
  let c := set_c_users [gustavo; eva] (client eva_session) in
  (gustavo, true) ∈ renderUserList c /\ (true = true <-> user_id gustavo <> user_id (me c)).
Proof.
  split; [vm_compute; set_solver|].
  apply (delete_buttons_others _ gustavo true). vm_compute. set_solver.
Defined.

(** Eva's session holds both users; the admin deletes Eva. *)
Lemma users_sync_witness :
  let c := set_c_users [gustavo; eva] (client eva_session) in
  let s' := snd (handle 120 0 (ReqDeleteUser 1) admin_server) in
  users_ok admin_server c /\ users_ok s' (apply_events (new_events admin_server s') c) /\
  c_users (apply_events (new_events admin_server s') c) = [gustavo].
Proof.
  split; [reflexivity|]. split; [apply users_sync; reflexivity|]. reflexivity.
Defined.

End Session.
