(* ===== verification/ServiceWorker.v ===== *)
(** * The service worker ([src/public/service-worker.js])

    The worker has two listeners.  [install] opens the cache
    [CACHE_NAME] and stores, with [cache.addAll], the five files of
    [urlsToCache] resolved against the worker's own URL; [event.waitUntil]
    makes the installation fail when that promise rejects.  [fetch] answers
    each request of the page with [caches.match(request)] and, when nothing
    matches, with [fetch(request)].

    The browser's Cache Storage is modelled as the Service Worker
    specification describes it: an ordered map from cache names to caches
    (creation order, which [caches.match] follows), each cache an ordered
    list of request URLs and responses.  [addAll] fetches every URL and
    writes them all or none: a network failure or a status outside
    200-299 (or 206) rejects with a [TypeError] and no entry is written.
    [match] only answers [GET] requests.  The network is a function from
    requests to responses, [None] being a failed [fetch] (offline).  The
    handlers run in the state monad of [Prelude] over the Cache Storage. *)

From stdpp Require Import base list strings.
From Stdlib Require Import ZArith Lia String.
From S2P Require Import Prelude.

Module ServiceWorker.
Local Open Scope Z_scope.
Local Open Scope cuad_scope.

Record Request := mkRequest { method : string; url : string }.
Record Response := mkResponse { status : Z; body : string }.

(** [fetch(request)]: [None] is the rejected promise of a network error. *)
Definition Network := Request -> option Response.

Inductive SWError := TypeError.

Definition Cache := list (string * Response).
Definition CacheStorage := list (string * Cache).

Definition SW (A : Type) : Type := SE CacheStorage SWError A.

Definition CACHE_NAME : string := "cuadrante-planificador-cache-v1".
Definition urlsToCache : list string :=
  ["index.html"; "cuadrante.css"; "cuadrante.js"; "icon-192.png"; "icon-512.png"].

(** The relative URLs of [urlsToCache] are resolved against the directory
    [scope] of the worker's script ([express.static('public')] serves it at
    the root, so [scope] is the origin followed by ["/"]). *)
Definition resolve (scope u : string) : string := scope +:+ u.

Definition shell (scope : string) : list string := map (resolve scope) urlsToCache.

Definition GET (u : string) : Request := mkRequest "GET" u.

(** ** The Cache API *)

(** [caches.open(name)]: a cache of that name is created, at the end of the
    map, when there is none. *)
Definition caches_open (n : string) (cs : CacheStorage) : CacheStorage :=
  if existsb (fun p => String.eqb (fst p) n) cs then cs else cs ++ [(n, [])].

(** The [ok] status test of [addAll]: 200-299, partial content excluded. *)
Definition ok_status (r : Response) : bool :=
  (200 <=? status r) && (status r <=? 299) && negb (status r =? 206).

(** The fetches of [addAll]: every URL must answer with an ok status. *)
Fixpoint fetch_all (net : Network) (us : list string) : option (list (string * Response)) :=
  match us with
  | [] => Some []
  | u :: us' =>
      match net (GET u) with
      | Some r => if ok_status r then option_map (cons (u, r)) (fetch_all net us') else None
      | None => None
      end
  end.

(** A put replaces the entries of the same URL and appends the new one. *)
Definition cache_put (u : string) (r : Response) (c : Cache) : Cache :=
  List.filter (fun p => negb (String.eqb (fst p) u)) c ++ [(u, r)].

Definition cache_put_all (kvs : list (string * Response)) (c : Cache) : Cache :=
  foldl (fun c p => cache_put (fst p) (snd p) c) c kvs.

Fixpoint storage_update (n : string) (f : Cache -> Cache) (cs : CacheStorage) : CacheStorage :=
  match cs with
  | [] => []
  | (m, c) :: cs' => if String.eqb m n then (m, f c) :: cs' else (m, c) :: storage_update n f cs'
  end.

(** [cache.addAll(urls)] on the cache [n]: all the puts or none. *)
Definition cache_addAll (net : Network) (n : string) (us : list string) : SW unit :=
  fun cs => match fetch_all net us with
            | Some kvs => (Ok tt, storage_update n (cache_put_all kvs) cs)
            | None => (Throw TypeError, cs)
            end.

Definition cache_lookup (u : string) (c : Cache) : option Response :=
  option_map snd (List.find (fun p => String.eqb (fst p) u) c).

(** [cache.match(request)]: only [GET] requests match. *)
Definition cache_match (q : Request) (c : Cache) : option Response :=
  if String.eqb (method q) "GET" then cache_lookup (url q) c else None.

(** [caches.match(request)]: the first cache, in creation order, that
    matches. *)
Fixpoint caches_match (q : Request) (cs : CacheStorage) : option Response :=
  match cs with
  | [] => None
  | (_, c) :: cs' =>
      match cache_match q c with Some r => Some r | None => caches_match q cs' end
  end.

(** The promise of [fetch(request)]. *)
Definition net_outcome (o : option Response) : outcome SWError Response :=
  match o with Some r => Ok r | None => Throw TypeError end.

(** ** The two listeners *)

(** [install] (lines 11-19): open the cache, then [addAll]; the result is
    the promise given to [event.waitUntil]. *)
Definition on_install (scope : string) (net : Network) : SW unit :=
  se_modify (caches_open CACHE_NAME) ;;;
  cache_addAll net CACHE_NAME (shell scope).

(** [fetch] (lines 22-27): [response || fetch(event.request)]; the result
    is the promise given to [event.respondWith]. *)
Definition on_fetch (net : Network) (q : Request) : SW Response :=
  fun cs => match caches_match q cs with
            | Some r => (Ok r, cs)
            | None => (net_outcome (net q), cs)
            end.

(** The Cache Storage of an origin after any number of installations
    of this worker (a new version of the script installs again), each
    under whatever network it met; [fetch] events do not write. *)
Inductive reachable (scope : string) : CacheStorage -> Prop :=
  | reach_init : reachable scope []
  | reach_install net cs : reachable scope cs -> reachable scope (snd (on_install scope net cs)).

(** What the page receives from the installed worker: the answer of
    [net0], the network met at installation, for a [GET] of a file of the
    shell, and the current network's answer for anything else. *)
Definition served (scope : string) (net0 net : Network) (q : Request) : outcome SWError Response :=
  if String.eqb (method q) "GET" && bool_decide (url q ∈ shell scope)
  then net_outcome (net0 (GET (url q)))
  else net_outcome (net q).

(** Every file of the shell answers with an ok status. *)
Definition shell_ok (scope : string) (net : Network) : bool :=
  forallb (fun u => match net (GET u) with Some r => ok_status r | None => false end) (shell scope).

(** A sequence of [fetch] events, each under the network of its moment. *)
Fixpoint serve (evs : list (Network * Request)) : SW (list (outcome SWError Response)) :=
  fun cs => match evs with
            | [] => (Ok [], cs)
            | (net, q) :: evs' =>
                let '(o, cs1) := on_fetch net q cs in
                let '(os, cs2) := serve evs' cs1 in
                match os with Ok l => (Ok (o :: l), cs2) | Throw e => (Throw e, cs2) end
            end.

(** The shape of a reachable Cache Storage: nothing, or the one cache
    [CACHE_NAME] whose URLs are files of the shell. *)
Definition sw_inv (scope : string) (cs : CacheStorage) : Prop :=
  cs = [] \/ exists c, cs = [(CACHE_NAME, c)] /\ Forall (fun p => fst p ∈ shell scope) c.

(** ** Lemmas *)

Lemma on_install_eq scope net cs :
  on_install scope net cs =
    match fetch_all net (shell scope) with
    | Some kvs => (Ok tt, storage_update CACHE_NAME (cache_put_all kvs) (caches_open CACHE_NAME cs))
    | None => (Throw TypeError, caches_open CACHE_NAME cs)
    end.
Proof. reflexivity. Qed.

Lemma fetch_all_some net us kvs :
  fetch_all net us = Some kvs ->
  map fst kvs = us /\ Forall (fun p => net (GET (fst p)) = Some (snd p)) kvs.
Proof.
  revert kvs. induction us as [|u us IH]; simpl; intros kvs H.
  - by injection H as <-.
  - destruct (net (GET u)) as [r|] eqn:E; [|done].
    destruct (ok_status r); [|done].
    destruct (fetch_all net us) as [l|]; simpl in H; [|done].
    injection H as <-. destruct (IH l eq_refl) as [H1 H2]. simpl. rewrite H1.
    split; [done|]. by constructor.
Qed.

Lemma fetch_all_ok net us :
  forallb (fun u => match net (GET u) with Some r => ok_status r | None => false end) us = true ->
  exists kvs, fetch_all net us = Some kvs.
Proof.
  induction us as [|u us IH]; simpl; [by eexists|].
  destruct (net (GET u)) as [r|]; [|done]. destruct (ok_status r); [|done].
  simpl. intros H. destruct (IH H) as [kvs ->]. by eexists.
Qed.

Lemma fetch_all_fails net us :
  forallb (fun u => match net (GET u) with Some r => ok_status r | None => false end) us = false ->
  fetch_all net us = None.
Proof.
  induction us as [|u us IH]; simpl; [done|].
  destruct (net (GET u)) as [r|]; [|done]. destruct (ok_status r); [|done].
  simpl. intros H. by rewrite IH.
Qed.

Lemma cache_lookup_put u u' r c :
  cache_lookup u (cache_put u' r c) = if String.eqb u' u then Some r else cache_lookup u c.
Proof.
  unfold cache_lookup, cache_put. induction c as [|[v x] c IH]; simpl.
  - by destruct (String.eqb u' u).
  - destruct (String.eqb_spec v u') as [->|Hne]; simpl.
    + rewrite IH. by destruct (String.eqb_spec u' u).
    + destruct (String.eqb_spec v u); simpl; [|done].
      subst. by rewrite (proj2 (String.eqb_neq u' u)) by congruence.
Qed.

Lemma cache_lookup_put_all u kvs c :
  cache_lookup u (cache_put_all kvs c) =
    match List.find (fun p => String.eqb (fst p) u) (rev kvs) with
    | Some p => Some (snd p)
    | None => cache_lookup u c
    end.
Proof.
  unfold cache_put_all. induction kvs as [|[v r] kvs IH] using rev_ind; [done|].
  rewrite foldl_app, rev_app_distr. simpl. rewrite cache_lookup_put, IH.
  by destruct (String.eqb v u).
Qed.

Lemma find_key_in {B} (u : string) (kvs : list (string * B)) p :
  List.find (fun p => String.eqb (fst p) u) kvs = Some p -> fst p = u /\ p ∈ kvs.
Proof.
  intros H. apply List.find_some in H as [Hin Hu].
  split; [by apply String.eqb_eq | by apply list_elem_of_In].
Qed.

Lemma find_key_none {B} (u : string) (kvs : list (string * B)) :
  u ∉ map fst kvs -> List.find (fun p => String.eqb (fst p) u) kvs = None.
Proof.
  intros Hu. destruct (List.find _ kvs) as [p|] eqn:E; [|done].
  destruct (find_key_in u kvs p E) as [<- Hin]. exfalso. apply Hu.
  by apply (list_elem_of_fmap_2 fst).
Qed.


Lemma find_key_some {B} (u : string) (kvs : list (string * B)) :
  u ∈ map fst kvs -> exists p, List.find (fun p => String.eqb (fst p) u) kvs = Some p.
Proof.
  intros Hu. destruct (List.find _ kvs) as [p|] eqn:E; [by exists p|].
  apply (list_elem_of_fmap_1 fst) in Hu as [x [-> Hx]].
  apply list_elem_of_In, (List.find_none _ _ E) in Hx. by rewrite String.eqb_refl in Hx.
Qed.

(** A cache whose URLs are files of the shell answers nothing else. *)
Lemma lookup_outside scope c u :
  Forall (fun p => fst p ∈ shell scope) c -> u ∉ shell scope -> cache_lookup u c = None.
Proof.
  intros Hc Hu. unfold cache_lookup. rewrite find_key_none; [done|].
  intros Hin. apply (list_elem_of_fmap_1 fst) in Hin as [p [-> Hp]].
  apply Hu. by eapply (proj1 (Forall_forall _ _)) in Hc.
Qed.

Lemma cache_put_all_keys scope kvs c :
  Forall (fun p => fst p ∈ shell scope) c -> Forall (fun p => fst p ∈ shell scope) kvs ->
  Forall (fun p => fst p ∈ shell scope) (cache_put_all kvs c).
Proof.
  unfold cache_put_all. revert c. induction kvs as [|[u r] kvs IH]; intros c Hc Hk; [done|].
  inversion Hk; subst. simpl. apply IH; [|done].
  unfold cache_put. apply Forall_app. split; [|by constructor].
  apply Forall_forall. intros x Hx. apply elem_of_filter_list in Hx as [Hx _].
  by eapply Forall_forall in Hc.
Qed.

Lemma shell_keys scope net kvs :
  fetch_all net (shell scope) = Some kvs -> Forall (fun p => fst p ∈ shell scope) kvs.
Proof.
  intros H. destruct (fetch_all_some _ _ _ H) as [Hk _].
  apply Forall_forall. intros p Hp. rewrite <- Hk. by apply (list_elem_of_fmap_2 fst).
Qed.

(** After a successful [addAll] of the shell, the cache answers each file
    of the shell with the network's response and nothing else. *)
Lemma installed_lookup scope net0 kvs c u :
  fetch_all net0 (shell scope) = Some kvs -> Forall (fun p => fst p ∈ shell scope) c ->
  cache_lookup u (cache_put_all kvs c) =
    if bool_decide (u ∈ shell scope) then net0 (GET u) else None.
Proof.
  intros Hf Hc. destruct (fetch_all_some _ _ _ Hf) as [Hk Hnet].
  rewrite cache_lookup_put_all. case_bool_decide as Hu.
  - destruct (find_key_some u (rev kvs)) as [p Hp].
    { by rewrite map_rev, Hk, elem_of_rev. }
    rewrite Hp. destruct (find_key_in _ _ _ Hp) as [<- Hin].
    rewrite elem_of_rev in Hin.
    by rewrite (proj1 (Forall_forall _ _) Hnet p Hin).
  - rewrite find_key_none; [by apply (lookup_outside scope)|].
    by rewrite map_rev, Hk, elem_of_rev.
Qed.

Lemma caches_match_open q n cs : caches_match q (caches_open n cs) = caches_match q cs.
Proof.
  unfold caches_open. destruct (existsb _ cs); [done|].
  induction cs as [|[m c] cs IH]; simpl.
  - unfold cache_match, cache_lookup. simpl. by destruct (String.eqb _ _).
  - by rewrite IH.
Qed.

(** The storage an installation opens: the one cache [CACHE_NAME]. *)
Lemma open_inv scope cs :
  sw_inv scope cs ->
  exists c, caches_open CACHE_NAME cs = [(CACHE_NAME, c)] /\ Forall (fun p => fst p ∈ shell scope) c.
Proof. intros [->|[c [-> Hc]]]; [by exists []|by exists c]. Qed.

Lemma install_inv scope net cs : sw_inv scope cs -> sw_inv scope (snd (on_install scope net cs)).
Proof.
  intros Hi. destruct (open_inv _ _ Hi) as [c [Ho Hc]].
  rewrite on_install_eq, Ho. destruct (fetch_all net (shell scope)) as [kvs|] eqn:Hf; simpl.
  - right. eexists. split; [done|].
    apply cache_put_all_keys; [done|]. by eapply shell_keys.
  - right. by exists c.
Qed.

Lemma reachable_inv scope cs : reachable scope cs -> sw_inv scope cs.
Proof. induction 1; [by left|by apply install_inv]. Qed.

Lemma on_fetch_one n c net q :
  on_fetch net q [(n, c)] =
    (match cache_match q c with Some r => Ok r | None => net_outcome (net q) end, [(n, c)]).
Proof. unfold on_fetch. simpl. by destruct (cache_match q c). Qed.

(** A storage that every [fetch] leaves as it is answers a sequence of
    events one by one. *)
Lemma serve_read_only (f : Network -> Request -> outcome SWError Response) cs evs :
  (forall net q, on_fetch net q cs = (f net q, cs)) ->
  serve evs cs = (Ok (map (fun e => f (fst e) (snd e)) evs), cs).
Proof.
  intros Hf. induction evs as [|[net q] evs IH]; [done|].
  simpl. rewrite Hf, IH. done.
Qed.

Lemma append_length_str s t : String.length (s +:+ t) = (String.length s + String.length t)%nat.
Proof. induction s as [|a s IH]; simpl; [done|by rewrite IH]. Qed.

(** The worker's directory itself is not a file of the shell. *)
Lemma scope_not_shell scope : scope ∉ shell scope.
Proof.
  intros Hin. apply (list_elem_of_fmap_1 (resolve scope)) in Hin as [x [Hx Hin]].
  assert (Hl : String.length scope = String.length (resolve scope x)) by (by rewrite <- Hx).
  unfold resolve in Hl. rewrite append_length_str in Hl.
  repeat (apply elem_of_cons in Hin as [->|Hin]; [simpl in Hl; lia|]).
  by apply elem_of_nil in Hin.
Qed.

Lemma fetch_outside scope cs net q :
  reachable scope cs ->
  String.eqb (method q) "GET" = false \/ url q ∉ shell scope ->
  fst (on_fetch net q cs) = net_outcome (net q).
Proof.
  intros Hr Hq. destruct (reachable_inv _ _ Hr) as [->|[c [-> Hc]]]; [done|].
  rewrite on_fetch_one. unfold cache_match. simpl.
  destruct Hq as [-> | Hq]; [done|].
  destruct (String.eqb _ _); [|done]. by rewrite (lookup_outside scope c).
Qed.

Lemma shell_ok_get scope net u :
  shell_ok scope net = true -> u ∈ shell scope -> exists r, net (GET u) = Some r.
Proof.
  unfold shell_ok. rewrite forallb_forall. intros H Hu.
  specialize (H u (proj1 (list_elem_of_In _ _) Hu)).
  destruct (net (GET u)) as [r|]; [by exists r|done].
Qed.

(** ** Installation *)

(** C20: After an installation whose network served every file of urlsToCache
    with an ok status, the install promise resolves and every later sequence
    of fetch events is answered as the cache-first contract says: a GET of a
    shell file with the response met at installation (also offline or after
    a new deployment), anything else by the network of its moment. *)
Theorem installed_worker_serves scope cs net0 :
  reachable scope cs -> shell_ok scope net0 = true ->
  fst (on_install scope net0 cs) = Ok tt /\
  forall evs, fst (serve evs (snd (on_install scope net0 cs))) =
              Ok (map (fun e => served scope net0 (fst e) (snd e)) evs).
Proof.
  intros Hr Hok. destruct (fetch_all_ok net0 (shell scope) Hok) as [kvs Hf].
  destruct (open_inv _ _ (reachable_inv _ _ Hr)) as [c [Ho Hc]].
  rewrite on_install_eq, Ho, Hf. simpl. split; [done|]. intros evs.
  rewrite (serve_read_only (served scope net0)); [done|].
  intros net q. rewrite on_fetch_one. f_equal. unfold served, cache_match.
  destruct (String.eqb (method q) "GET"); simpl; [|done].
  rewrite (installed_lookup scope net0 kvs c (url q) Hf Hc).
  case_bool_decide as Hu; [|done].
  by destruct (shell_ok_get scope net0 (url q) Hok Hu) as [r ->].
Qed.

(** C28: An installation during which some file of urlsToCache fails (network
    error or a status that is not ok) rejects with a TypeError, and every
    answer of the Cache Storage stays what it was before. *)
Theorem install_fails_atomically scope cs net :
  shell_ok scope net = false ->
  fst (on_install scope net cs) = Throw TypeError /\
  forall q, caches_match q (snd (on_install scope net cs)) = caches_match q cs.
Proof.
  intros Hbad. rewrite on_install_eq, (fetch_all_fails _ _ Hbad). split; [done|].
  intros q. apply caches_match_open.
Qed.

(** ** Fetches *)

(** In every Cache Storage the worker can produce, a request that is not a
    GET or whose URL is not a file of urlsToCache (every API call and
    upload) is answered by the network, never from the cache. *)
Theorem api_requests_reach_network scope cs net q :
  reachable scope cs ->
  String.eqb (method q) "GET" = false \/ url q ∉ shell scope ->
  fst (on_fetch net q cs) = net_outcome (net q).
Proof. intros; eapply fetch_outside; eassumption. Qed.

(** C29: The directory URL of the worker, at which the server serves index.html,
    is never cached: offline, opening the application at its root fails
    whatever was installed. *)
Theorem offline_root_fails scope cs :
  reachable scope cs -> fst (on_fetch (fun _ => None) (GET scope) cs) = Throw TypeError.
Proof. intros Hr. apply (fetch_outside scope); [done|]. right. apply scope_not_shell. Qed.

(** ** Witnesses *)

(** The server before and after a deployment, offline, and with a missing
    icon. *)
Definition net_v1 : Network := fun q => Some (mkResponse 200 ("v1" +:+ url q)).
Definition net_v2 : Network := fun q => Some (mkResponse 200 ("v2" +:+ url q)).
Definition offline : Network := fun _ => None.
Definition net_no_icon : Network :=
  fun q => if String.eqb (url q) "/icon-512.png" then Some (mkResponse 404 "") else net_v1 q.

Definition installed_v1 : CacheStorage := snd (on_install "/" net_v1 []).

Lemma installed_v1_reachable : reachable "/" installed_v1.
Proof. exact (reach_install "/" net_v1 [] (reach_init "/")). Qed.

(** After a deployment the page still gets the installed [cuadrante.js];
    offline it still gets [index.html]; the API answers from the network. *)
Lemma installed_worker_serves_witness :
  fst (on_install "/" net_v1 []) = Ok tt /\
  fst (serve [(net_v2, GET "/cuadrante.js"); (offline, GET "/index.html");
              (net_v2, GET "/api/calendar/2025/9")] installed_v1) =
    Ok [Ok (mkResponse 200 "v1/cuadrante.js"); Ok (mkResponse 200 "v1/index.html");
        Ok (mkResponse 200 "v2/api/calendar/2025/9")].
Proof.
  destruct (installed_worker_serves "/" [] net_v1 (reach_init "/") eq_refl) as [H1 H2].
  split; [exact H1|]. unfold installed_v1. rewrite H2. vm_compute. reflexivity.
Defined.

Lemma install_fails_atomically_witness :
  fst (on_install "/" net_no_icon installed_v1) = Throw TypeError /\
  forall q, caches_match q (snd (on_install "/" net_no_icon installed_v1)) = caches_match q installed_v1.
Proof. apply install_fails_atomically. reflexivity. Defined.

Lemma reachable_inv_witness : sw_inv "/" installed_v1.
Proof. apply (reachable_inv "/"). exact installed_v1_reachable. Defined.

Lemma api_requests_reach_network_witness :
  fst (on_fetch offline (mkRequest "PUT" "/api/calendar/2025-09-18") installed_v1) = Throw TypeError /\
  fst (on_fetch net_v2 (GET "/api/calendar/2025/9") installed_v1) =
    Ok (mkResponse 200 "v2/api/calendar/2025/9").
Proof.
  split.
  - rewrite (api_requests_reach_network "/" installed_v1 offline); [reflexivity|exact installed_v1_reachable|].
    left. reflexivity.
  - rewrite (api_requests_reach_network "/" installed_v1 net_v2); [reflexivity|exact installed_v1_reachable|].
    right. apply (bool_decide_eq_true _). vm_compute. reflexivity.
Defined.

Lemma offline_root_fails_witness :
  fst (on_fetch offline (GET "/") installed_v1) = Throw TypeError.
Proof. apply (offline_root_fails "/"). exact installed_v1_reachable. Defined.

End ServiceWorker.
