(* ===== verification/Render.v ===== *)
(** * What [renderCalendar] shows ([src/public/cuadrante.js], lines 189-204 and 228-301)

    [Grid.v] places the cells; this file gives each cell its content.  The
    title is [monthNames[month] de year]; the header row holds the five
    [weekDays].  A day cell carries [data-date] (the key of the day), the
    class [today] when the day is the local date of "now", the day number,
    three [contenteditable] divs (editable unless the user is a viewer)
    filled from [monthData[dateKey]] or from an empty record, the text
    [Mod. por: editor] when the entry has a non-empty editor, and one
    thumbnail with its delete button per image URL.  [render_calendar] is
    the whole [tbody] for the session's month.  The DOM nodes themselves,
    class names and placeholders aside, are not modelled. *)

From stdpp Require Import base gmap strings list.
From Stdlib Require Import ZArith Lia String.
From S2P Require Import Prelude JsDate DateKey Store Client Sync Grid.

Module Render.
Import JsDate DateKey Store Client Sync Grid.
Local Open Scope Z_scope.

Definition monthNames : list string :=
  ["Enero"; "Febrero"; "Marzo"; "Abril"; "Mayo"; "Junio"; "Julio"; "Agosto";
   "Septiembre"; "Octubre"; "Noviembre"; "Diciembre"].

Definition weekDays : list string := ["Lunes"; "Martes"; "Miércoles"; "Jueves"; "Viernes"].

(** [printTitle.textContent = `${monthNames[month]} de ${year}`] (line 191);
    an index outside the array reads [undefined]. *)
Definition print_title (y m : Z) : string :=
  (if (0 <=? m) && (m <? 12) then nth (Z.to_nat m) monthNames "" else "undefined")
    +:+ " de " +:+ js_string_of_int y.

(** [createContentDiv(field, placeholder, value)] (lines 244-252). *)
Record ContentDiv := mkContentDiv {
  div_field : Field;
  div_placeholder : string;
  div_editable : bool;
  div_text : string
}.

Record CellView := mkCellView {
  cv_date : string;
  cv_today : bool;
  cv_day : Z;
  cv_fields : list ContentDiv;
  cv_editor : string;
  cv_images : list string
}.

Inductive TdView := TdOther | TdDay (v : CellView).

(** [value || '']: an absent field and the empty string both show ''. *)
Definition shown (v : option string) : string := default "" v.

Definition createContentDiv (c : Client) (f : Field) (placeholder : string) (v : option string)
    : ContentDiv :=
  mkContentDiv f placeholder (negb (bool_decide (user_role (me c) = Viewer))) (shown v).

(** [dayData.editor ? `Mod. por: ${dayData.editor}` : ''] (line 233). *)
Definition editorText (ed : option string) : string :=
  match ed with
  | Some e => if String.eqb e "" then "" else "Mod. por: " +:+ e
  | None => ""
  end.

(** [currentDate.toDateString() === today.toDateString()] (line 236): the
    same local date. *)
Definition same_local_date (tz t1 t2 : Z) : bool :=
  (getFullYear tz t1 =? getFullYear tz t2) && (getMonth tz t1 =? getMonth tz t2) &&
  (getDate tz t1 =? getDate tz t2).

(** [monthData[dateKey] || { name: '', address: '', phone: '', imageUrls: [] }]
    (line 232), read field by field. *)
Definition day_field (f : Entry -> option string) (o : option Entry) : option string :=
  match o with Some e => f e | None => Some "" end.

Definition day_editor (o : option Entry) : option string :=
  match o with Some e => editor e | None => None end.

Definition day_images (o : option Entry) : list string :=
  match o with Some e => imageUrls e | None => [] end.

(** The cell of day [d] (lines 228-301), [o] being [monthData[dateKey]]. *)
Definition day_view (c : Client) (now d : Z) (o : option Entry) : CellView :=
  let y := curYear c in
  let m := curMonth c in
  mkCellView (client_dateKey y m d) (same_local_date (tz c) (new_Date_local (tz c) y m d) now) d
    [createContentDiv c FName "Nombre..." (day_field name o);
     createContentDiv c FAddress "Dirección..." (day_field address o);
     createContentDiv c FPhone "Teléfono..." (day_field phone o)]
    (editorText (day_editor o)) (day_images o).

Definition render_td (c : Client) (now : Z) (x : Cell) : TdView :=
  match x with
  | COther => TdOther
  | CDay d => TdDay (day_view c now d (monthData c !! client_dateKey (curYear c) (curMonth c) d))
  end.

(** [renderCalendar(currentYear, currentMonth)] once [loadData] answered:
    the title, the header and the rows of [tbody]. *)
Definition render_calendar (c : Client) (now : Z) : string * list string * list (list TdView) :=
  (print_title (curYear c) (curMonth c), weekDays,
   map (map (render_td c now)) (render_grid (tz c) (curYear c) (curMonth c))).

(** The day of a placed cell is a day of the month. *)
Definition day_ok (dim : Z) (x : Cell) : Prop :=
  match x with COther => True | CDay d => 1 <= d <= dim end.

(** ** Every placed cell is a day of the month *)

Lemma repeat_other_ok dim n : Forall (day_ok dim) (repeat COther n).
Proof. induction n; simpl; by constructor. Qed.

Lemma pad_row_ok dim row : Forall (day_ok dim) row -> Forall (day_ok dim) (pad_row row).
Proof.
  intros H. unfold pad_row. case_match; [done|]. apply Forall_app. split; [done|].
  apply repeat_other_ok.
Qed.

Lemma place_day_ok dim wd last d row body :
  1 <= d <= dim -> Forall (day_ok dim) row -> Forall (Forall (day_ok dim)) body ->
  Forall (day_ok dim) (fst (place_day wd last d (row, body))) /\
  Forall (Forall (day_ok dim)) (snd (place_day wd last d (row, body))).
Proof.
  intros Hd Hr Hb. unfold place_day.
  destruct (negb (wd =? 0) && negb (wd =? 6)); [destruct (Nat.eqb (List.length row) 5)|];
    destruct ((wd =? 5) || last); simpl; split;
    repeat first [done | lia | apply Forall_app; split | apply pad_row_ok | constructor].
Qed.

Lemma grid_loop_ok tz y m dim fuel : forall d row body,
  1 <= d -> Forall (day_ok dim) row -> Forall (Forall (day_ok dim)) body ->
  Forall (Forall (day_ok dim)) (grid_loop tz y m dim fuel d (row, body)).
Proof.
  induction fuel as [|f IH]; intros d row body Hd Hr Hb; cbn [grid_loop]; [done|].
  destruct (Z.leb_spec d dim); [|done].
  unfold grid_step. destruct (place_day_ok dim (getDay tz (new_Date_local tz y m d)) (d =? dim) d row body)
    as [H1 H2]; [lia|done|done|].
  destruct (place_day _ _ d (row, body)) as [row' body']. apply IH; [lia|done|done].
Qed.

Lemma render_grid_ok tz y m : Forall (Forall (day_ok (daysInMonth tz y m))) (render_grid tz y m).
Proof.
  unfold render_grid. apply grid_loop_ok; [lia|apply repeat_other_ok|constructor].
Qed.

(** Mapping a cell renderer over the rows keeps what it preserves. *)
Lemma Forall_map_map {A B} (P : B -> Prop) (Q : A -> Prop) (f : A -> B) (rows : list (list A)) :
  Forall (Forall Q) rows -> (forall x, Q x -> P (f x)) -> Forall (Forall P) (map (map f) rows).
Proof.
  intros H Hf. induction H as [|r rs Hr _ IH]; simpl; constructor; [|done].
  induction Hr; simpl; constructor; auto.
Qed.

Lemma render_grid_days c :
  0 <= tz c < 1440 -> 1000 <= curYear c <= 9999 -> 0 <= curMonth c <= 11 ->
  Forall (Forall (day_ok (days_in_month (curYear c) (curMonth c))))
    (render_grid (tz c) (curYear c) (curMonth c)).
Proof.
  intros Htz Hy Hm. pose proof (render_grid_ok (tz c) (curYear c) (curMonth c)) as Hg.
  by rewrite daysInMonth_eq in Hg.
Qed.

(** The cell of a day of the displayed month in a session east of UTC
    whose view mirrors the store is built from the stored entry. *)
Lemma render_day_store s c now d :
  view_ok s c -> 0 <= tz c < 1440 -> 1000 <= curYear c <= 9999 -> 0 <= curMonth c <= 11 ->
  1 <= d <= days_in_month (curYear c) (curMonth c) ->
  render_td c now (CDay d) =
    TdDay (day_view c now d (entries s !! client_dateKey (curYear c) (curMonth c) d)).
Proof.
  intros Hv Htz Hy Hm Hd. simpl. rewrite (Hv (client_dateKey _ _ _)).
  rewrite in_view_key_east by done. by rewrite !Z.eqb_refl.
Qed.

(** C14: East of UTC, in a session whose view mirrors the store, every day cell
    renderCalendar draws shows the stored entry of its data-date: its three
    fields (editable unless the user is a viewer), its editor line and its
    images, or empty ones when there is no entry. *)
Theorem rendered_cells_show_store s c now :
  view_ok s c -> 0 <= tz c < 1440 -> 1000 <= curYear c <= 9999 -> 0 <= curMonth c <= 11 ->
  Forall (Forall (fun td => forall v, td = TdDay v -> v = day_view c now (cv_day v) (entries s !! cv_date v)))
    (snd (render_calendar c now)).
Proof.
  intros Hv Htz Hy Hm. apply (Forall_map_map _ _ _ _ (render_grid_days c Htz Hy Hm)).
  intros [|d] Hd v Hx; [done|]. rewrite (render_day_store s c now d) in Hx by done.
  by injection Hx as <-.
Qed.

(** ** Witness *)

(** The September 2025 view of a fresh Madrid session: no day cell shows
    anything, as the store is empty. *)

(** ** Witness *)

(** The September 2025 view of a fresh Madrid session: no day cell shows
    anything, as the store is empty. *)
Lemma rendered_cells_show_store_witness :
  Forall (Forall (fun td => forall v, td = TdDay v ->
                    v = day_view madrid_sept 0 (cv_day v) (entries initial_server !! cv_date v)))
    (snd (render_calendar madrid_sept 0)).
Proof.
  apply (rendered_cells_show_store initial_server madrid_sept 0);
    [by apply view_ok_initial | simpl; lia ..].
Defined.

End Render.
