(* ===== verification/Upload.v ===== *)
(** * Uploading an image ([src/public/cuadrante.js], lines 282-293 and 443-474)

    The [Subir Imagen] button of a cell stores the cell's key in
    [imageUploadInput.dataset.date] and opens the file selector, unless the
    user is a viewer.  The [change] listener of the file input sends the
    chosen file to [/api/upload] (server.js 268-275, [Store.upload]); on an
    ok answer it appends the returned [imageUrl] to the day's record and
    saves it with a PUT ([Client.on_image_uploaded]); a failed upload only
    raises an alert.  The key stored in the input is the only state these
    listeners add to [Client]: it is a separate argument. *)

From stdpp Require Import base gmap strings list.
From Stdlib Require Import ZArith Lia String.
From S2P Require Import Prelude Store Client Sync.

Module Upload.
Import Store Client Sync.
Local Open Scope Z_scope.

(** [uploadImageBtn.onclick] (lines 285-293): [pending] is
    [imageUploadInput.dataset.date]; a viewer gets an alert and the key is
    left as it was. *)
Definition on_upload_click (c : Client) (k pending : string) : string :=
  if decide (user_role (me c) = Viewer) then pending else k.

(** The start of the [change] listener (lines 443-455): no file or no key
    stops it; otherwise the file is posted as the [image] field. *)
Definition on_image_change (file : option Upload) (pending : string) : list Request :=
  match file with
  | Some f => if String.eqb pending "" then [] else [ReqUpload (Some f)]
  | None => []
  end.

(** The rest of the listener (lines 456-473), once [/api/upload] answered:
    a status outside 200-299 throws into the [catch] (an alert); an ok
    answer carries [{ imageUrl }]. *)
Definition on_upload_response (k : string) (r : outcome DbError Response) (c : Client)
    : Client * list Request :=
  match r with
  | Ok (mkResponse st (PImageUrl url)) =>
      if (200 <=? st) && (st <=? 299) then on_image_uploaded k url c else (c, [])
  | _ => (c, [])
  end.

(** The whole upload of [f] for the day [k]: the POST, the page's handling
    of its answer and the PUT it sends. *)
Definition upload_exchange (tzs now : Z) (f : Upload) (k : string) (c : Client) (s : Server)
    : Client * Server :=
  let '(o1, s1) := handle tzs now (ReqUpload (Some f)) s in
  let '(c1, rs) := on_upload_response k o1 c in
  match rs with
  | [r] => (c1, snd (handle tzs now r s1))
  | _ => (c1, s1)
  end.

(** ** Lemmas *)

Lemma apply_set_images e us ed :
  apply_set (entry_body (set_editor ed (set_imageUrls us e))) e = set_editor ed (set_imageUrls us e).
Proof. destruct e as [i k n a p ed0 im]; simpl. by destruct n, a, p. Qed.

(** The server's answer to a file: 200 with its URL under [/uploads/]. *)
Lemma upload_answer tzs now f s :
  handle tzs now (ReqUpload (Some f)) s =
    (Ok (mkResponse 200 (PImageUrl ("/uploads/" +:+ upload_filename f))), s).
Proof. reflexivity. Qed.

(** C15: Uploading a file for a day the session shows as stored: the server
    answers 200 with /uploads/<multer file name>, the page appends that URL
    to the entry's images with the uploader as editor and PUTs it, and the
    store and the session then hold the same entry, with one update record
    of the change. *)
Theorem upload_round_trip tzs now f k c s e :
  entries_keyed (entries s) -> user_name (me c) <> "" -> k <> "" ->
  monthData c !! k = Some e -> entries s !! k = Some e ->
  let e' := set_editor (user_name (me c))
              (set_imageUrls (imageUrls e ++ ["/uploads/" +:+ upload_filename f]) e) in
  exists s',
    upload_exchange tzs now f k c s = (set_monthData (<[k := e']> (monthData c)) c, s') /\
    entries s' = <[k := e']> (entries s) /\
    logs s' = logs s ++ [mkLog now (user_name (me c)) AUpdate k (Some e) (Some e')].
Proof.
  intros Hw Hn Hk Hc He e'. unfold upload_exchange. rewrite upload_answer. simpl.
  unfold on_image_uploaded. rewrite (proj2 (String.eqb_neq k "") Hk), Hc. simpl.
  assert (Hkey : dateKey e = k) by exact (Hw k e He).
  rewrite (put_calendar_ok now k (entry_body e') (user_name (me c))); try done.
  - eexists. split; [reflexivity|]. simpl. unfold upsert_state, upserted, upsert_base_of.
    rewrite He. subst e'. rewrite apply_set_images. by split.
  - right. simpl. by rewrite Hkey.
Qed.

(** ** Witness *)

(** Gustavo adds a photo to Ana's entry of 18 September. *)
Definition photo : Upload := mkUpload "image" "1757000000000-42" "casa.jpg".
Definition gustavo_sept : Client := mkClient gustavo [] 8 2025 {[key_0918 := entry_ana]} false 120.

Lemma upload_round_trip_witness :
  let e' := set_editor "Gustavo" (set_imageUrls ["/uploads/image-1757000000000-42.jpg"] entry_ana) in
  exists s',
    upload_exchange 120 2000 photo key_0918 gustavo_sept s_ana =
      (set_monthData (<[key_0918 := e']> (monthData gustavo_sept)) gustavo_sept, s') /\
    entries s' = <[key_0918 := e']> (entries s_ana) /\
    logs s' = logs s_ana ++ [mkLog 2000 "Gustavo" AUpdate key_0918 (Some entry_ana) (Some e')].
Proof.
  apply (upload_round_trip 120 2000 photo key_0918 gustavo_sept s_ana entry_ana);
    [apply s_ana_keyed | discriminate | discriminate | reflexivity | by rewrite s_ana_entries].
Defined.

End Upload.
