(* ===== verification/Delivery.v ===== *)
(** * Lost broadcasts ([src/public/cuadrante.js], lines 501-533)

    Socket.IO delivers an [io.emit] only to the sockets connected at that
    moment and does not replay it on reconnection; the page's [connect]
    listener only logs.  A client that was disconnected therefore receives
    some of the emitted events only: any list [kept] stands for what it
    got.  The only way back to the store's contents is a reload of the
    month, which every listener of an entry event of the displayed month
    starts ([renderCalendar] calls [loadData]). *)

From stdpp Require Import base gmap strings list.
From Stdlib Require Import ZArith Lia String.
From S2P Require Import Prelude JsDate DateKey Store Client Sync Session.

Module Delivery.
Import JsDate DateKey Store Client Sync Session.
Local Open Scope Z_scope.

(** [socket.on('connect', () => console.log(...))] (lines 501-503). *)
Definition on_connect (c : Client) : Client * list Request := (c, []).

(** The page applying the answer to a request it sent: [loadData] (lines
    126-137) and [loadUsers] (lines 91-98) read their answers into
    [monthData] and [users]; the other fetches only test [response.ok]
    for an alert ([UserAdmin.v], [Upload.v]) and leave both alone. *)
Definition page_answer (r : Request) (o : outcome DbError Response) (c : Client) : Client :=
  match r with
  | ReqGetMonth _ _ => on_month_response o c
  | ReqGetUsers => loadUsers_response o c
  | _ => c
  end.

(** The requests [reqs] sent by the page, each answered by the server and
    the answer applied by the page, in order. *)
Definition answer_all (tzs now : Z) (reqs : list Request) (c : Client) (s : Server) : Client * Server :=
  fold_left (fun '(c, s) r => let '(o, s1) := handle tzs now r s in (page_answer r o c, s1)) reqs (c, s).

(** A reconnection: Socket.IO fires the [connect] listener and the page
    sends whatever it asks for, which the server answers. *)
Definition reconnect (tzs now : Z) (c : Client) (s : Server) : Client * Server :=
  let '(c1, reqs) := on_connect c in answer_all tzs now reqs c1 s.

(** The guard of the entry listeners (lines 520-521 and 528-529): the event
    concerns a day of the displayed month. *)
Definition ev_in_view (c : Client) (ev : Event) : bool :=
  match ev with
  | EvEntryUpdated e => in_view c (dateKey e)
  | EvEntryDeleted k => in_view c k
  | EvUserAdded _ | EvUserDeleted _ => false
  end.

(** What the listeners never change: the displayed month and the zone. *)
Definition view_of (c : Client) : Z * Z * Z := (tz c, curYear c, curMonth c).

(** ** Lemmas *)

Lemma in_view_view_of c c' k : view_of c' = view_of c -> in_view c' k = in_view c k.
Proof. unfold view_of, in_view. intros [= -> -> ->]. reflexivity. Qed.

Lemma ev_in_view_view_of c c' ev : view_of c' = view_of c -> ev_in_view c' ev = ev_in_view c ev.
Proof. intros H. destruct ev; simpl; auto using in_view_view_of. Qed.

Lemma on_event_view_of ev c : view_of (fst (on_event ev c)) = view_of c.
Proof.
  destruct ev; simpl; try reflexivity; unfold on_entryUpdated, on_entryDeleted; by case_match.
Qed.

Lemma apply_events_view_of evs : forall c, view_of (apply_events evs c) = view_of c.
Proof.
  induction evs as [|ev evs IH]; intros c; [done|]. simpl.
  unfold apply_events in IH. rewrite IH. apply on_event_view_of.
Qed.

(** Events of other months and user events leave [monthData] alone. *)
Lemma apply_events_off_view evs : forall c,
  Forall (fun ev => ev_in_view c ev = false) evs -> monthData (apply_events evs c) = monthData c.
Proof.
  induction evs as [|ev evs IH]; intros c Hall; [done|].
  inversion Hall as [|? ? Hev Hrest]; subst. simpl. unfold apply_events in IH.
  rewrite IH.
  - destruct ev; simpl in *; try reflexivity; unfold on_entryUpdated, on_entryDeleted; by rewrite Hev.
  - eapply Forall_impl; [exact Hrest|]. intros ev' H. by rewrite (ev_in_view_view_of c) by apply on_event_view_of.
Qed.

(** An entry event of the displayed month: the listener starts a reload of
    that month. *)
Lemma on_event_in_view ev c :
  ev_in_view c ev = true -> snd (on_event ev c) = [render_request c].
Proof. destruct ev; simpl; try discriminate; unfold on_entryUpdated, on_entryDeleted; by intros ->. Qed.

Lemma render_request_view_of c c' : view_of c' = view_of c -> render_request c' = render_request c.
Proof. unfold view_of, render_request. by intros [= _ -> ->]. Qed.

Lemma month_response tzs now c s :
  on_month_response (fst (handle tzs now (render_request c) s)) c =
    on_loaded (entries_of_month tzs (curYear c) (curMonth c + 1) (entries s)) c.
Proof. reflexivity. Qed.

(** ** Theorems *)

(** C11: A client that was disconnected while a PUT of a day of its month was
    broadcast does not get the change back by reconnecting: the connect
    listener only logs and asks the server for nothing, so after the
    reconnection exchange and any later events of other months or users its
    view no longer mirrors the store. *)
Theorem missed_put_stays_stale tz now now' k b s c later :
  wf s -> view_ok s c -> well_behaved (ReqPutEntry k b) -> in_view c k = true ->
  entries s !! k <> Some (upserted s k b) ->
  Forall (fun ev => ev_in_view c ev = false) later ->
  let '(c1, s2) := reconnect tz now' c (snd (handle tz now (ReqPutEntry k b) s)) in
  ~ view_ok s2 (apply_events later c1).
Proof.
  intros [Hw _] Hv (Hk & Hne & u & Hb & Hu) Hin Hchg Hlater. simpl. intros Hv'.
  specialize (Hv' k). rewrite (put_calendar_ok now k b u s) in Hv' by done.
  simpl in Hv'. unfold upsert_state in Hv'. simpl in Hv'.
  rewrite apply_events_off_view in Hv' by done.
  rewrite (in_view_view_of c) in Hv' by apply apply_events_view_of.
  simpl in Hv'. rewrite Hin, lookup_insert_eq in Hv'. specialize (Hv k). rewrite Hin in Hv.
  apply Hchg. by rewrite <- Hv.
Qed.

(** C12: Whichever broadcasts a client lost, the next entry event of its
    displayed month it receives makes the listener request that month again,
    and applying the answer makes the view mirror the store. *)
Theorem in_view_event_heals tzs now s c kept ev :
  entries_keyed (entries s) -> (forall k e, entries s !! k = Some e -> key_wf k) ->
  0 <= tz c < 1440 -> 1000 <= curYear c <= 9999 -> 0 <= curMonth c <= 11 ->
  ev_in_view c ev = true ->
  let c1 := apply_events kept (fst (on_connect c)) in
  snd (on_event ev c1) = [render_request c] /\
  view_ok s (on_month_response (fst (handle tzs now (render_request c) s)) (fst (on_event ev c1))).
Proof.
  intros Hw Hkeys Htz Hy Hm Hev c1.
  assert (H1 : view_of c1 = view_of c) by apply apply_events_view_of.
  assert (H2 : view_of (fst (on_event ev c1)) = view_of c) by (rewrite on_event_view_of; exact H1).
  split.
  - rewrite on_event_in_view by (by rewrite (ev_in_view_view_of c)). by rewrite (render_request_view_of c c1).
  - rewrite <- (render_request_view_of _ _ H2), month_response.
    unfold view_of in H2. injection H2 as Htz' Hy' Hm'.
    apply month_reload_view_ok; [done|done|lia..].
Qed.

(** ** Witnesses *)

(** Gustavo's Madrid session shows Ana's entry of 18 September as stored;
    Bob's PUT renaming it is lost and an October deletion follows. *)
Definition body_ines : EntryBody := mkBody (Some key_0918) (Some "Inés") None None (Some "Bob") None.

Lemma madrid_loaded_ok : view_ok s_ana madrid_loaded.
Proof.
  intros k. simpl. rewrite s_ana_entries.
  destruct (decide (k = key_0918)) as [->|Hne]; [by vm_compute|].
  rewrite !lookup_singleton_ne by done. by destruct (in_view _ _).
Qed.

Lemma missed_put_stays_stale_witness :
  let '(c1, s2) := reconnect 120 3000 madrid_loaded (snd (handle 120 2000 (ReqPutEntry key_0918 body_ines) s_ana)) in
  ~ view_ok s2 (apply_events [EvEntryDeleted "2025-10-01"] c1).
Proof.
  apply (missed_put_stays_stale 120 2000 3000 key_0918 body_ines s_ana madrid_loaded).
  - split; [apply s_ana_keyed | split; constructor].
  - apply madrid_loaded_ok.
  - split; [by right|]. split; [discriminate|]. exists "Bob". split; [reflexivity|discriminate].
  - reflexivity.
  - rewrite s_ana_entries. vm_compute. congruence.
  - repeat constructor.
Defined.

Lemma in_view_event_heals_witness :
  let c1 := apply_events [EvEntryDeleted "2025-10-01"] (fst (on_connect madrid_sept)) in
  snd (on_event (EvEntryUpdated entry_ana) c1) = [render_request madrid_sept] /\
  view_ok s_ana (on_month_response (fst (handle 120 2000 (render_request madrid_sept) s_ana))
                   (fst (on_event (EvEntryUpdated entry_ana) c1))).
Proof.
  apply (in_view_event_heals 120 2000 s_ana madrid_sept); [apply s_ana_keyed | | by_compute ..].
  intros k e. rewrite s_ana_entries, lookup_singleton_Some. intros [<- _].
  exists 2025, 8, 18. repeat split; try lia. vm_compute. discriminate.
Defined.

End Delivery.
