(* ===== verification/Bus.v ===== *)
(** * Several pages around one server ([src/server.js], lines 136-244 and 277-286)

    Each [io.emit] of a route goes to every socket connected at that
    moment, the sending page's included; [io.on('connection')] and the
    [disconnect] listener only log, so which pages are connected is the only
    state of the bus.  A [Page] is a session of cuadrante.js with its
    socket's status; [bus_request] is one request from any page: the server
    handles it and its broadcasts reach the connected pages' listeners.
    [bus_run] is a sequence of requests.  [Delivery.v] covers what a page
    that was disconnected misses. *)

From stdpp Require Import base gmap strings list.
From Stdlib Require Import ZArith Lia String.
From S2P Require Import Prelude Store Client Sync.

Module Bus.
Import Store Client Sync.
Local Open Scope Z_scope.

Record Page := mkPage { connected : bool; page : Client }.

(** The broadcasts [evs] reach a page when its socket is connected. *)
Definition deliver (evs : list Event) (p : Page) : Page :=
  if connected p then mkPage true (apply_events evs (page p)) else p.

(** One request: the route, then [io.emit] to every connected socket. *)
Definition bus_request (tz now : Z) (r : Request) (s : Server) (ps : list Page)
    : Server * list Page :=
  let s1 := snd (handle tz now r s) in (s1, map (deliver (new_events s s1)) ps).

Fixpoint bus_run (tz : Z) (reqs : list (Z * Request)) (s : Server) (ps : list Page)
    : Server * list Page :=
  match reqs with
  | [] => (s, ps)
  | (now, r) :: rest => let '(s1, ps1) := bus_request tz now r s ps in bus_run tz rest s1 ps1
  end.

(** [io.on('connection')] and [socket.on('disconnect')]: the socket's
    status changes, nothing else. *)
Definition set_connected (b : bool) (i : nat) (ps : list Page) : list Page :=
  match ps !! i with
  | Some p => <[i := mkPage b (page p)]> ps
  | None => ps
  end.

(** Every connected page's month view mirrors the store. *)
Definition pages_ok (s : Server) (ps : list Page) : Prop :=
  Forall (fun p => connected p = true -> view_ok s (page p)) ps.

(** ** Lemmas *)

Lemma deliver_connected evs p : connected (deliver evs p) = connected p.
Proof. unfold deliver. by destruct (connected p) eqn:E. Qed.

Lemma bus_request_pages_ok tz now r s ps :
  wf s -> well_behaved r -> pages_ok s ps ->
  pages_ok (snd (handle tz now r s)) (map (deliver (new_events s (snd (handle tz now r s)))) ps).
Proof.
  intros Hw Hr Hps. apply Forall_fmap. eapply Forall_impl; [exact Hps|].
  intros p Hp. unfold deliver. simpl. destruct (connected p) eqn:E; [|intros H; congruence].
  intros _. apply sync_step; [done | by apply Hp | done].
Qed.

Lemma bus_run_ok tz reqs : forall s ps,
  wf s -> pages_ok s ps -> Forall (fun '(_, r) => well_behaved r) reqs ->
  wf (fst (bus_run tz reqs s ps)) /\ pages_ok (fst (bus_run tz reqs s ps)) (snd (bus_run tz reqs s ps)) /\
  map connected (snd (bus_run tz reqs s ps)) = map connected ps.
Proof.
  induction reqs as [|[now r] reqs IH]; intros s ps Hw Hps Hall; [done|].
  inversion Hall as [|? ? Hr Hrest]; subst. simpl.
  destruct (IH (snd (handle tz now r s)) (map (deliver (new_events s (snd (handle tz now r s)))) ps))
    as (H1 & H2 & H3); [by apply handle_wf | by apply bus_request_pages_ok | done |].
  split; [done|]. split; [done|]. rewrite H3, map_map. apply map_ext, deliver_connected.
Qed.

(** A page that disconnects keeps the others as they were. *)
Lemma disconnect_pages_ok s ps i : pages_ok s ps -> pages_ok s (set_connected false i ps).
Proof.
  intros H. unfold set_connected. destruct (ps !! i) eqn:E; [|done].
  apply Forall_insert; [done|]. simpl. discriminate.
Qed.

(** ** Theorem *)

(** C4: However many pages are open and whichever of them send the requests,
    after any sequence of well-behaved requests every page whose socket is
    connected still shows exactly the store's entries of its month and the
    store stays well formed: each acknowledged entry write is broadcast with
    the entry as stored to every connected socket, the sender's included,
    and the listeners apply exactly the keys of the displayed month. *)
Theorem bus_run_in_sync tz (reqs : list (Z * Request)) s ps :
  wf s -> pages_ok s ps -> Forall (fun '(_, r) => well_behaved r) reqs ->
  wf (fst (bus_run tz reqs s ps)) /\ pages_ok (fst (bus_run tz reqs s ps)) (snd (bus_run tz reqs s ps)) /\
  map connected (snd (bus_run tz reqs s ps)) = map connected ps.
Proof. intros; by apply bus_run_ok. Qed.

(** ** Witness *)

(** Two Madrid pages, one of them disconnected, while a session creates
    Ana's entry and then renames it. *)
Definition two_pages : list Page := [mkPage true madrid_sept; mkPage false madrid_sept].
Definition body_rename : EntryBody := mkBody None (Some "Inés") None None (Some "Bob") None.
Definition two_requests : list (Z * Request) :=
  [(1000, ReqPutEntry key_0918 body_ana); (2000, ReqPutEntry key_0918 body_rename)].

Lemma bus_run_in_sync_witness :
  wf (fst (bus_run 120 two_requests initial_server two_pages)) /\
  pages_ok (fst (bus_run 120 two_requests initial_server two_pages))
    (snd (bus_run 120 two_requests initial_server two_pages)) /\
  map connected (snd (bus_run 120 two_requests initial_server two_pages)) = map connected two_pages.
Proof.
  apply bus_run_in_sync.
  - split; [apply map_Forall_empty | split; constructor].
  - repeat constructor; intros _; by apply view_ok_initial.
  - unfold two_requests. repeat (apply List.Forall_cons; [simpl; split; [first [by left | by right] |];
                split; [discriminate | exists "Bob"; split; [reflexivity | discriminate]] |]).
    apply List.Forall_nil.
Defined.

End Bus.
