(* ===== verification/ReportModal.v ===== *)
(** * The report button ([src/public/cuadrante.js], lines 398-405)

    [reportBtn]'s listener awaits [showReport(currentYear, currentMonth)],
    which asks [GET /api/logs/:year/:month] for the displayed month and
    renders the answer ([Report.show_report]), and then shows the report
    modal; [closeReportModalBtn] hides it.  The click composes the page,
    the server's report query ([Store.logs_query]) and the rendering. *)

From stdpp Require Import base gmap strings list sorting.
From Stdlib Require Import ZArith Lia String Sorted.
From S2P Require Import Prelude Store Client Report.

Module ReportModal.
Import Store Client Report.
Local Open Scope Z_scope.

(** The click of [reportBtn]: the report shown, whether the modal is
    displayed ([reportModal.style.display = 'flex']), the server after. *)
Definition report_click (tz now : Z) (c : Client) (s : Server) : View * bool * Server :=
  let '(o, s1) := handle tz now (report_request (curYear c) (curMonth c)) s in
  (show_report o, true, s1).

(** [closeReportModalBtn]'s listener. *)
Definition close_report (shown : bool) : bool := false.

(** Every update record that has a new snapshot has its previous one: the
    records [showReport] can describe. *)
Definition describable (l : ChangeLog) : Prop :=
  log_action l = AUpdate -> log_newData l <> None -> log_previousData l <> None.

(** ** Lemmas *)

Lemma report_click_answer tz now c s :
  report_click tz now c s =
    (show_report (Ok (mkResponse 200 (PLogs (logs_query tz (curYear c) (curMonth c + 1) (logs s))))),
     true, s).
Proof. reflexivity. Qed.

Lemma logs_query_forall P tz y m ls :
  Forall P ls -> Forall P (logs_query tz y m ls).
Proof.
  intros H. destruct (sort_desc_spec (List.filter (log_in_window tz y m) ls)) as [_ Hp].
  unfold logs_query. eapply Permutation_Forall; [symmetry; exact Hp|].
  apply Forall_forall. intros l Hl. apply list_elem_of_In, List.filter_In in Hl as [Hl _].
  by apply (proj1 (Forall_forall _ _) H), list_elem_of_In.
Qed.

Lemma Sorted_map {A B} (R : B -> B -> Prop) (f : A -> B) (l : list A) :
  Sorted (fun a b => R (f a) (f b)) l -> Sorted R (map f l).
Proof.
  induction 1 as [|a l _ IH Hhd]; simpl; constructor; [done|].
  destruct Hhd; simpl; constructor; done.
Qed.

(** ** Theorems *)

(** C18: Clicking the report button of a session whose month has change-log
    records, none of them an update without previousData, opens the modal on
    one item per record of the month's window, newest first, each with the
    record's date, user and action, and leaves the store unchanged. *)
Theorem report_click_lists_month tz now c s :
  Forall describable (logs s) ->
  logs_query tz (curYear c) (curMonth c + 1) (logs s) <> [] ->
  exists its,
    report_click tz now c s = (VItems its, true, s) /\
    map it_date its = map log_date (logs_query tz (curYear c) (curMonth c + 1) (logs s)) /\
    map it_user its = map log_user (logs_query tz (curYear c) (curMonth c + 1) (logs s)) /\
    map it_action its = map log_action (logs_query tz (curYear c) (curMonth c + 1) (logs s)) /\
    Sorted (fun a b => b <= a) (map it_date its).
Proof.
  intros Hall Hne. rewrite report_click_answer.
  destruct (report_lists_every_record 200 _ Hne (logs_query_forall _ _ _ _ _ Hall))
    as (its & Hv & Hd & Hu & Ha).
  exists its. rewrite Hv. do 4 (split; [done|]). rewrite Hd. apply Sorted_map.
  apply logs_query_spec.
Qed.

(** A month without records shows the empty report. *)
Lemma report_click_empty tz now c s :
  logs_query tz (curYear c) (curMonth c + 1) (logs s) = [] ->
  report_click tz now c s = (VNoChanges, true, s).
Proof. intros H. rewrite report_click_answer, H. reflexivity. Qed.

(** ** Witness *)

(** Bob's 'update' of 18 September 2025 with both snapshots, seen from the
    September view. *)
Definition bob_update : ChangeLog :=
  mkLog 1758200000000 "Bob" AUpdate "2025-09-18" (Some ana_entry) (Some ana_phone).
Definition report_server : Server := mkServer [] ∅ [bob_update] 0 [].

Lemma report_click_lists_month_witness :
  exists its,
    report_click 120 1758300000000 madrid_sept report_server = (VItems its, true, report_server) /\
    map it_date its = map log_date (logs_query 120 2025 9 (logs report_server)) /\
    map it_user its = map log_user (logs_query 120 2025 9 (logs report_server)) /\
    map it_action its = map log_action (logs_query 120 2025 9 (logs report_server)) /\
    Sorted (fun a b => b <= a) (map it_date its).
Proof.
  apply (report_click_lists_month 120 1758300000000 madrid_sept report_server).
  - repeat constructor. discriminate.
  - vm_compute. discriminate.
Defined.

End ReportModal.
