(* ===== verification/UserAdmin.v ===== *)
(** * Managing users from the page ([src/public/cuadrante.js], lines 100-124 and 407-420)

    The admin's form sends [addUser(userData)] after trimming the name and
    the identifier, or alerts when one is empty; a delete button sends
    [deleteUser(user._id)] once confirmed.  Both functions only look at
    [response.ok]: a status outside 200-299 throws into their [catch],
    which alerts a fixed message.  The page's list of users changes only
    through the [userAdded] / [userDeleted] broadcasts, which reach the
    sending page like every other ([Session.users_sync]).  An exchange here
    is the click, the server's handling of the request, the alert and the
    delivery of the broadcast to the same page. *)

From stdpp Require Import base gmap strings list.
From Stdlib Require Import ZArith Lia String.
From S2P Require Import Prelude Store Schema Client Sync Session.

Module UserAdmin.
Import Store Schema Client Sync Session.
Local Open Scope Z_scope.
Local Open Scope cuad_scope.

(** [response.ok]. *)
Definition response_ok (st : Z) : bool := (200 <=? st) && (st <=? 299).

(** [if (!response.ok) throw new Error(msg)] and the [catch] that alerts
    [error.message]; a request the server never answers alerts nothing. *)
Definition alert_unless_ok (msg : string) (r : outcome DbError Response) : option string :=
  match r with
  | Ok (mkResponse st _) => if response_ok st then None else Some msg
  | Throw _ => None
  end.

Definition addUser_response : outcome DbError Response -> option string :=
  alert_unless_ok "No se pudo crear el usuario.".

Definition deleteUser_response : outcome DbError Response -> option string :=
  alert_unless_ok "No se pudo eliminar el usuario.".

(** The [click] of [addUserBtn] (lines 407-420) followed by [addUser]: the
    page after the broadcast, the alert raised, the server after. *)
Definition add_user_exchange (tz now : Z) (nm ident role : string) (c : Client) (s : Server)
    : Client * option string * Server :=
  match on_add_user nm ident role c with
  | (c1, [r]) =>
      let '(o, s1) := handle tz now r s in
      (apply_events (new_events s s1) c1, addUser_response o, s1)
  | (c1, _) => (c1, Some "El nombre y el identificador son obligatorios.", s)
  end.

(** A delete button of the user list once [confirm] answered, followed by
    [deleteUser]. *)
Definition delete_user_exchange (tz now : Z) (u : User) (confirmed : bool) (c : Client)
    (s : Server) : Client * option string * Server :=
  match on_delete_user_click u confirmed with
  | [r] =>
      let '(o, s1) := handle tz now r s in
      (apply_events (new_events s s1) c, deleteUser_response o, s1)
  | _ => (c, None, s)
  end.

(** No stored user has the name [n] or the identifier [i]. *)
Definition name_free (n : string) (us : list User) : bool :=
  negb (List.existsb (fun v => String.eqb (user_name v) n) us).
Definition identifier_free (i : string) (us : list User) : bool :=
  negb (List.existsb (fun v => String.eqb (user_identifier v) i) us).

(** ** [POST /api/users] *)

Lemma required_ok p x : x <> "" -> required p (Some x) = se_ret x.
Proof. intros H. unfold required. by rewrite (proj2 (String.eqb_neq x "") H). Qed.

Lemma user_validate_ok id n i rl r s :
  n <> "" -> i <> "" -> role_of_string rl = Some r ->
  user_validate id (mkUserBody (Some n) (Some i) (Some rl)) s = (Ok (mkUser id n i r), s).
Proof.
  intros Hn Hi Hr. unfold user_validate. cbn [ub_name ub_identifier ub_role].
  rewrite Hr, !required_ok by done. reflexivity.
Qed.

(** A valid body whose name and identifier are free: the user is appended
    under a fresh id and broadcast. *)
Lemma post_user_fresh s n i rl r :
  n <> "" -> i <> "" -> role_of_string rl = Some r ->
  name_free n (users s) = true -> identifier_free i (users s) = true ->
  let u := mkUser (next_id s) n i r in
  post_user (mkUserBody (Some n) (Some i) (Some rl)) s =
    (Ok (mkResponse 201 (PUser u)),
     set_outbox (outbox s ++ [EvUserAdded u]) (set_users (users s ++ [u]) (set_next_id (S (next_id s)) s))).
Proof.
  intros Hn Hi Hr Hnf Hif u. apply negb_true_iff in Hnf, Hif.
  unfold post_user, se_catch, se_bind at 1, fresh_id. simpl.
  unfold se_bind at 1. rewrite (user_validate_ok _ n i rl r) by done.
  unfold se_bind, user_insert. simpl. by rewrite Hnf, Hif.
Qed.

(** A body whose role is not one of the enum, or whose name or identifier
    is taken: 400, and nothing but the consumed id changes. *)
Lemma post_user_rejected s n i rl :
  n <> "" -> i <> "" ->
  (role_of_string rl = None \/ name_free n (users s) = false \/ identifier_free i (users s) = false) ->
  exists err, post_user (mkUserBody (Some n) (Some i) (Some rl)) s =
    (Ok (mkResponse 400 (PError err)), set_next_id (S (next_id s)) s).
Proof.
  intros Hn Hi Hbad. unfold post_user, se_catch, se_bind at 1, fresh_id. simpl.
  destruct (role_of_string rl) as [r|] eqn:Hr.
  - unfold se_bind at 1. rewrite (user_validate_ok _ n i rl r) by done.
    unfold se_bind, user_insert. simpl. unfold name_free, identifier_free in Hbad.
    destruct (List.existsb (fun v => String.eqb (user_name v) n) (users s)) eqn:E1; [by eexists|].
    destruct (List.existsb (fun v => String.eqb (user_identifier v) i) (users s)) eqn:E2;
      [by eexists|].
    destruct Hbad as [H|[H|H]]; discriminate.
  - unfold user_validate. cbn [ub_name ub_identifier ub_role].
    rewrite Hr, !required_ok by done. by eexists.
Qed.

Lemma handle_post_user tz now b : handle tz now (ReqPostUser b) = post_user b.
Proof. reflexivity. Qed.

Lemma on_add_user_sent nm ident role c :
  trim nm <> "" -> trim ident <> "" ->
  on_add_user nm ident role c = (c, [ReqPostUser (mkUserBody (Some (trim nm)) (Some (trim ident)) (Some role))]).
Proof.
  intros Hn Hi. unfold on_add_user.
  by rewrite (proj2 (String.eqb_neq _ _) Hn), (proj2 (String.eqb_neq _ _) Hi).
Qed.

(** ** Theorems *)

(** C16: An admin adding a user with a free name and identifier and a role of
    the enum gets no alert: the store appends the user under a fresh id, and
    once its broadcast arrives the page's list has it too and matches the
    store. *)
Theorem add_user_exchange_ok tz now nm ident role r c s :
  users_ok s c -> trim nm <> "" -> trim ident <> "" -> role_of_string role = Some r ->
  name_free (trim nm) (users s) = true -> identifier_free (trim ident) (users s) = true ->
  let u := mkUser (next_id s) (trim nm) (trim ident) r in
  exists s',
    add_user_exchange tz now nm ident role c s = (set_c_users (c_users c ++ [u]) c, None, s') /\
    users s' = users s ++ [u] /\ users_ok s' (set_c_users (c_users c ++ [u]) c).
Proof.
  intros Hc Hn Hi Hr Hnf Hif u. unfold add_user_exchange. rewrite on_add_user_sent by done.
  rewrite handle_post_user, (post_user_fresh s _ _ role r) by done.
  unfold new_events. simpl. rewrite drop_app_length.
  eexists. split; [reflexivity|]. split; [reflexivity|]. unfold users_ok. simpl. by rewrite Hc.
Qed.

(** C17: Adding a user with a non-empty name and identifier, but whose name or
    identifier is taken or whose role is not admin, editor or viewer: the
    server answers 400, the page alerts 'No se pudo crear el usuario.', and
    neither the page nor the store changes, the consumed id apart. *)
Theorem add_user_exchange_rejected tz now nm ident role c s :
  trim nm <> "" -> trim ident <> "" ->
  (role_of_string role = None \/ name_free (trim nm) (users s) = false \/
   identifier_free (trim ident) (users s) = false) ->
  (exists err, fst (handle tz now (ReqPostUser (mkUserBody (Some (trim nm)) (Some (trim ident)) (Some role))) s) =
                 Ok (mkResponse 400 (PError err))) /\
  add_user_exchange tz now nm ident role c s =
    (c, Some "No se pudo crear el usuario.", set_next_id (S (next_id s)) s).
Proof.
  intros Hn Hi Hbad. unfold add_user_exchange. rewrite on_add_user_sent, handle_post_user by done.
  destruct (post_user_rejected s (trim nm) (trim ident) role) as [err ->]; [done|done|done|].
  split; [by exists err|]. unfold new_events. simpl. by rewrite drop_all.
Qed.

(** With an empty name or identifier (after [trim]) the page alerts
    'El nombre y el identificador son obligatorios.' and sends nothing. *)
Lemma add_user_exchange_empty tz now nm ident role c s :
  trim nm = "" \/ trim ident = "" ->
  add_user_exchange tz now nm ident role c s =
    (c, Some "El nombre y el identificador son obligatorios.", s).
Proof.
  intros Hempty. unfold add_user_exchange, on_add_user.
  destruct Hempty as [-> | ->]; rewrite ?orb_true_r; reflexivity.
Qed.

(** C35: Deleting a stored user from the list, once confirmed, gets no alert:
    the store and, after the userDeleted broadcast, the page's list both
    lose every user with that id, and the list still matches the store. *)
Theorem delete_user_exchange_ok tz now u c s :
  users_ok s c -> u ∈ users s ->
  exists s',
    delete_user_exchange tz now u true c s =
      (set_c_users (List.filter (fun v => negb (Nat.eqb (user_id v) (user_id u))) (c_users c)) c, None, s') /\
    users s' = List.filter (fun v => negb (Nat.eqb (user_id v) (user_id u))) (users s) /\
    users_ok s' (set_c_users (List.filter (fun v => negb (Nat.eqb (user_id v) (user_id u))) (c_users c)) c).
Proof.
  intros Hc Hin. unfold delete_user_exchange, on_delete_user_click. simpl. unfold delete_user.
  destruct (List.find _ (users s)) as [v|] eqn:E.
  - apply List.find_some in E as [_ Hid]. apply Nat.eqb_eq in Hid. simpl.
    unfold new_events. simpl. rewrite drop_app_length. simpl. rewrite Hid.
    eexists. split; [done|]. split; [done|]. unfold users_ok. simpl. by rewrite Hc.
  - apply list_elem_of_In, (List.find_none _ _ E) in Hin. by rewrite Nat.eqb_refl in Hin.
Qed.

(** ** Witnesses *)

Definition admin_users : Server := mkServer [gustavo] ∅ [] 1 [].
Definition admin_page : Client := mkClient gustavo [gustavo] 8 2025 ∅ false 120.

Lemma add_user_exchange_ok_witness :
  exists s',
    add_user_exchange 120 1000 " Eva " "7777" "viewer" admin_page admin_users =
      (set_c_users (c_users admin_page ++ [mkUser 1 "Eva" "7777" Viewer]) admin_page, None, s') /\
    users s' = users admin_users ++ [mkUser 1 "Eva" "7777" Viewer] /\
    users_ok s' (set_c_users (c_users admin_page ++ [mkUser 1 "Eva" "7777" Viewer]) admin_page).
Proof.
  apply (add_user_exchange_ok 120 1000 " Eva " "7777" "viewer" Viewer admin_page admin_users);
    [reflexivity | vm_compute; discriminate | vm_compute; discriminate | reflexivity ..].
Defined.

Lemma add_user_exchange_rejected_witness :
  (exists err, fst (handle 120 1000 (ReqPostUser (mkUserBody (Some (trim "Ana")) (Some (trim "3434")) (Some "editor"))) admin_users) =
                 Ok (mkResponse 400 (PError err))) /\
  add_user_exchange 120 1000 "Ana" "3434" "editor" admin_page admin_users =
    (admin_page, Some "No se pudo crear el usuario.", set_next_id (S (next_id admin_users)) admin_users).
Proof.
  apply (add_user_exchange_rejected 120 1000 "Ana" "3434" "editor");
    [vm_compute; discriminate | vm_compute; discriminate | right; right; reflexivity].
Defined.

Lemma delete_user_exchange_ok_witness :
  exists s',
    delete_user_exchange 120 1000 gustavo true admin_page admin_users =
      (set_c_users (List.filter (fun v => negb (Nat.eqb (user_id v) (user_id gustavo))) (c_users admin_page))
         admin_page, None, s') /\
    users s' = List.filter (fun v => negb (Nat.eqb (user_id v) (user_id gustavo))) (users admin_users) /\
    users_ok s' (set_c_users (List.filter (fun v => negb (Nat.eqb (user_id v) (user_id gustavo))) (c_users admin_page))
                   admin_page).
Proof.
  apply (delete_user_exchange_ok 120 1000 gustavo admin_page admin_users);
    [reflexivity | by apply list_elem_of_singleton].
Defined.

End UserAdmin.
