(* ===== verification/Startup.v ===== *)
(** * Starting the server ([src/server.js], lines 41-65 and 292-294)

    [mongoose.connect(MONGODB_URI).then(() => createDefaultAdmin())] runs
    [createDefaultAdmin] once the connection is up, and [server.listen]
    starts answering requests without waiting for it.  [createDefaultAdmin]
    awaits twice: [User.countDocuments()], then [defaultAdmin.save()], with
    one [catch] that prints the error.  It is therefore a handler of the
    pool of [Interleave.v], [admin_prog], that runs beside the handlers of
    the requests ([boot]).  A background task answers nobody: its [Done]
    carries status 0 and the last line it prints.  A failed connection only
    prints an error: the pool then holds the request handlers alone. *)

From stdpp Require Import base gmap strings list.
From Stdlib Require Import ZArith Lia String.
From S2P Require Import Prelude Store Schema Client Session Interleave UserAdmin.

Module Startup.
Import Store Schema Client Session Interleave UserAdmin.
Local Open Scope Z_scope.
Local Open Scope cuad_scope.

(** What [console.log] / [console.error] print last. *)
Definition printed (m : string) : Prog := Done (mkResponse 0 (PMessage m)).

(** [User.countDocuments()]. *)
Definition countDocuments : Db nat := fun s => (Ok (List.length (users s)), s).

(** [new User({ name: 'Gustavo', identifier: '3434', role: 'admin' })]
    takes a fresh id; [save()] inserts it under the unique indexes. *)
Definition save_default_admin : Db unit :=
  id <- fresh_id ;; user_insert (mkUser id "Gustavo" "3434" Admin).

(** The [.then] callback of [mongoose.connect] (lines 43-47), which prints
    'Conectado a MongoDB' and calls [createDefaultAdmin] (lines 50-65), cut
    at its two awaits.  When there are users [createDefaultAdmin] prints
    nothing, so the callback's line is the last one printed. *)
Definition admin_prog : Prog :=
  let h := fun err : DbError => printed "Error al crear el usuario admin por defecto:" in
  Await countDocuments (fun userCount =>
    if Nat.eqb userCount 0 then
      Await save_default_admin
        (fun _ => printed "Creado el usuario administrador por defecto (admin/admin).") h
    else printed "Conectado a MongoDB") h.

(** The handlers live once the process has started: [createDefaultAdmin]
    when the connection came up ([connected]), and the requests
    [server.listen] accepted. *)
Definition boot (tz : Z) (connected : bool) (reqs : list (Z * Request)) : list Prog :=
  (if connected then [admin_prog] else []) ++ map (fun '(now, r) => prog_of tz now r) reqs.


(** ** Lemmas *)


Lemma save_default_admin_wf : se_preserves wf save_default_admin.
Proof. unfold save_default_admin. preserve; auto using fresh_id_wf, user_insert_wf. Qed.

Lemma save_default_admin_schema : se_preserves schema_ok save_default_admin.
Proof.
  unfold save_default_admin. apply se_bind_preserves; [apply docs_schema; auto with cuad|].
  intros id. by apply user_insert_schema.
Qed.

Lemma admin_prog_pres P :
  se_preserves P countDocuments -> se_preserves P save_default_admin -> prog_pres P admin_prog.
Proof. intros Hc Hs. prog_pres_by ltac:(exact Hc || exact Hs). Qed.

Lemma countDocuments_pres P : se_preserves P countDocuments.
Proof. by intros s Hs. Qed.

Lemma boot_pres P tz connected reqs :
  se_preserves P save_default_admin -> (forall now r, prog_pres P (prog_of tz now r)) ->
  Forall (prog_pres P) (boot tz connected reqs).
Proof.
  intros Hs Hr. apply Forall_app. split; [|by apply prog_of_pres].
  destruct connected; repeat constructor; apply admin_prog_pres; auto using countDocuments_pres.
Qed.

Lemma initial_server_ok : wf initial_server /\ schema_ok initial_server.
Proof. split; [split; [apply map_Forall_empty|split; constructor]|by split]. Qed.


(** The first [POST /api/users] of a valid body on a store with no user. *)
Lemma post_user_first s n i rl r :
  users s = [] -> n <> "" -> i <> "" -> role_of_string rl = Some r ->
  let u := mkUser (next_id s) n i r in
  post_user (mkUserBody (Some n) (Some i) (Some rl)) s =
    (Ok (mkResponse 201 (PUser u)),
     set_outbox (outbox s ++ [EvUserAdded u]) (set_users [u] (set_next_id (S (next_id s)) s))).
Proof.
  intros Hs Hn Hi Hr u. rewrite (post_user_fresh s n i rl r), Hs by (done || by rewrite Hs). reflexivity.
Qed.

(** ** Theorems *)

(** Run alone, the cut [createDefaultAdmin] changes the store exactly as
    the atomic [createDefaultAdmin] of the store model does. *)
Theorem admin_prog_refines s : snd (run_prog admin_prog s) = snd (createDefaultAdmin s).
Proof.
  unfold admin_prog, createDefaultAdmin. cbn [run_prog]. unfold countDocuments.
  destruct (users s) as [|u us] eqn:E; [|done]. simpl.
  unfold save_default_admin, se_bind. simpl. by destruct (user_insert _ _) as [[]].
Qed.


(** From the empty database, under any interleaving at their awaits of
    createDefaultAdmin (when the connection came up) and the handlers of any
    requests, entries stay under their own dateKey, user names and
    identifiers stay distinct, and users and change-log records keep their
    schemas. *)
Theorem boot_wf tz connected (reqs : list (Z * Request)) c' :
  rtc pool_step (boot tz connected reqs, initial_server) c' ->
  wf (snd c') /\ schema_ok (snd c').
Proof.
  intros Hr. destruct initial_server_ok as [Hw Hs]. split.
  - apply (pool_invariant wf _ _ Hr Hw).
    apply boot_pres; [apply save_default_admin_wf|apply prog_of_wf].
  - apply (pool_invariant schema_ok _ _ Hr Hs).
    apply boot_pres; [apply save_default_admin_schema|apply prog_of_schema].
Qed.

(** C13: server.listen does not wait for createDefaultAdmin: on an empty
    database, a POST /api/users of a user named Gustavo handled between its
    countDocuments and its save makes the admin's save fail on the unique
    name, leaving a store in which no user is an admin. *)
Theorem startup_race_no_admin tz now s i r rl :
  users s = [] -> i <> "" -> role_of_string rl = Some r -> r <> Admin ->
  exists s',
    exec [0; 1; 0]%nat [admin_prog; prog_of tz now (ReqPostUser (mkUserBody (Some "Gustavo") (Some i) (Some rl)))] s =
      ([printed "Error al crear el usuario admin por defecto:";
        Done (mkResponse 201 (PUser (mkUser (next_id s) "Gustavo" i r)))], s') /\
    users s' = [mkUser (next_id s) "Gustavo" i r] /\
    Forall (fun u => user_role u <> Admin) (users s').
Proof.
  intros Hs Hi Hr Hna. cbn [exec]. unfold step_at. simpl. unfold countDocuments. rewrite Hs.
  simpl. unfold resume. change (handle tz now _) with (post_user (mkUserBody (Some "Gustavo") (Some i) (Some rl))).
  rewrite (post_user_first s "Gustavo" i rl r) by done. simpl.
  eexists. split; [reflexivity|]. split; [reflexivity|]. by repeat constructor.
Qed.

(** ** Witnesses *)


(** The state after [createDefaultAdmin] has counted the users of the empty
    database, a request for September waiting beside it. *)
Lemma boot_wf_witness :
  let c' := step_at 0 (boot 120 true [(1000, ReqGetMonth 2025 9)]) initial_server in
  wf (snd c') /\ schema_ok (snd c').
Proof.
  apply (boot_wf 120 true [(1000, ReqGetMonth 2025 9)]).
  apply rtc_once. econstructor. reflexivity.
Defined.

Lemma startup_race_no_admin_witness :
  exists s',
    exec [0; 1; 0]%nat [admin_prog; prog_of 120 1000 (ReqPostUser (mkUserBody (Some "Gustavo") (Some "1") (Some "viewer")))] initial_server =
      ([printed "Error al crear el usuario admin por defecto:";
        Done (mkResponse 201 (PUser (mkUser 0 "Gustavo" "1" Viewer)))], s') /\
    users s' = [mkUser 0 "Gustavo" "1" Viewer] /\
    Forall (fun u => user_role u <> Admin) (users s').
Proof.
  apply (startup_race_no_admin 120 1000 initial_server "1" Viewer "viewer");
    [reflexivity | discriminate | reflexivity | discriminate].
Defined.

End Startup.
